(** * ShogunOSC: the device-session supervisor and the OSC command dispatcher

  A shallow embedding of [src/shogun/shogun_client.py] (class
  [ShogunWorker]) and of [src/osc/osc_server.py] (class [OSCServer]).

  The vendor API, the process table, the UDP socket and the [running]
  flag written by another thread are the environment.  Each of them is
  an oracle that answers from the history of what the program has done
  so far, so every deterministic or history-dependent behaviour of the
  outside world is an instance.  A method of the program is a function
  from the environment, the history and the object's fields to a
  result (a value or a raised exception), the new fields and the list
  of events it produced.

  Texts of log lines and error messages are Russian in the source; the
  model keeps the level of every log line and an English tag for its
  text, without the interpolated values.

  The one floating-point computation of the program, the delay between
  two connect attempts, is kept for what it raises and for the number
  of sleep slices it gives; see [Config] and [pow_overflows]. *)

From Stdlib Require Import String List ZArith Lia Bool Arith.
Import ListNotations.
Local Open Scope string_scope.
Local Open Scope list_scope.

(** ** Python values used by both modules *)

Module Py.

(** [needle in hay] on str. *)
Fixpoint contains (needle hay : string) : bool :=
  String.prefix needle hay
  || match hay with
     | EmptyString => false
     | String _ rest => contains needle rest
     end.

(** Truth value of a str: the empty string is falsy. *)
Definition truthy_str (s : string) : bool :=
  match s with EmptyString => false | _ => true end.

(** Truth value of an int. *)
Definition truthy_int (z : Z) : bool := negb (Z.eqb z 0).

(** Truth value of an Optional. *)
Definition truthy_opt {A} (truthy : A -> bool) (o : option A) : bool :=
  match o with None => false | Some a => truthy a end.

Definition is_some {A} (o : option A) : bool :=
  match o with None => false | Some _ => true end.

Inductive Exn : Type := Exception (what : string).

(** What a call gives back: a value, or a raised exception. *)
Inductive Reply (A : Type) : Type :=
| Ret (a : A)
| Raise (e : Exn).
Arguments Ret {A} a.
Arguments Raise {A} e.

Definition reply_map {A B} (f : A -> B) (r : Reply A) : Reply B :=
  match r with Ret a => Ret (f a) | Raise e => Raise e end.

Inductive Level : Type := DEBUG | INFO | WARNING | ERROR.

End Py.
Export Py.

(** ** shogun_client.py *)

Module ShogunWorker.

(** What the vendor objects offer to [hasattr]. *)
Record ClientH : Type := mkClientH {
  has_disconnect : bool;
  has_close : bool
}.

Record CaptureH : Type := mkCaptureH {
  has_set_capture_description : bool
}.

(** Calls into the vendor API. *)
Inductive ApiCall : Type :=
| Client_new                              (* Client('localhost') *)
| CaptureServices_new                     (* CaptureServices(client) *)
| latest_capture_state_call
| capture_name_call
| capture_folder_call
| set_capture_name_call (name : string)
| set_capture_folder_call (folder : string)
| set_capture_description_call (description : string)
| start_capture_call
| stop_capture_call (flags : Z)
| disconnect_call
| close_call.

(** A returned value as the history records it. *)
Inductive Val : Type :=
| VNone
| VBool (b : bool)
| VStr (s : string)
| VResult (ok : bool) (s : string)
| VClient (c : ClientH)
| VCapture (c : CaptureH).

(** The Qt signals of the class. *)
Inductive Signal : Type :=
| connection_signal (connected : bool)
| status_signal (status : string)
| recording_signal (recording : bool)
| capture_name_changed_signal (name : string)
| capture_folder_changed_signal (folder : string)
| capture_error_signal (message : string).

Inductive Event : Type :=
| EvLog (level : Level) (text : string)   (* self.logger.<level>(...) *)
| EvSignal (s : Signal)                   (* <signal>.emit(...) *)
| EvCall (c : ApiCall) (r : Reply Val)    (* a vendor API call and its reply *)
| EvProcessIter                           (* psutil.process_iter(...) *)
| EvRunning (running : bool)              (* a read of self.running *)
| EvSleep.                                (* asyncio.sleep(0.1) *)

Definition Trace : Type := list Event.

(** One entry of psutil.process_iter(['pid', 'name']): proc.info. *)
Record Proc : Type := mkProc {
  proc_pid : Z;
  proc_name : option string
}.

(** The module [config], which is not part of the sources.

    BASE_RECONNECT_DELAY and MAX_RECONNECT_DELAY are used in one place,
    the delay of reconnect_shogun (lines 269 and 273):

      delay = min(base_delay * (1.5 ** (attempt - 1)), config.MAX_RECONNECT_DELAY)
      for _ in range(int(delay * 10)):

    That is binary64 arithmetic, with the power taken by the C library,
    and it is not embedded bit for bit.  What the program does with it is
    kept: [1.5 ** (attempt - 1)] raises OverflowError when the power
    leaves the binary64 range ([pow_overflows] below, which does not
    depend on the two delays); when it does not, [backoff_slices attempt]
    stands for what the interpreter makes of [range(int(delay * 10))] for
    the two delays of the configuration: the number of iterations (none
    for a negative delay), or the exception that [int] raises for a delay
    that is infinite or not a number.  The two delays are taken to be
    numbers that a float can hold, so that line 269 raises nothing
    else. *)
Record Config : Type := mkConfig {
  MAX_RECONNECT_ATTEMPTS : nat;
  backoff_slices : nat -> Reply nat;
  STATUS_CONNECTED : string;
  STATUS_DISCONNECTED : string
}.

(** The outside world.  Every oracle sees the history so far. *)
Record Env : Type := mkEnv {
  config : Config;
  api_Client : Trace -> Reply ClientH;
  api_CaptureServices : Trace -> Reply CaptureH;
  api_latest_capture_state : Trace -> Reply string;  (* str() of the state *)
  api_capture_name : Trace -> Reply (bool * string);
  api_capture_folder : Trace -> Reply (bool * string);
  api_set_capture_name : Trace -> string -> Reply bool;
  api_set_capture_folder : Trace -> string -> Reply bool;
  api_set_capture_description : Trace -> string -> Reply bool;
  api_start_capture : Trace -> Reply bool;
  api_stop_capture : Trace -> Z -> Reply bool;
  api_disconnect : Trace -> Reply unit;
  api_close : Trace -> Reply unit;
  (* the entries process_iter yields up to the first match, or the
     exception it raises before one *)
  os_process_iter : Trace -> Reply (list Proc);
  (* the value of self.running, which stop() clears from another thread *)
  flag_running : Trace -> bool
}.

(** The fields of a ShogunWorker (the event loop and the two timing
    fields of the poll cadence apart). *)
Record Worker : Type := mkWorker {
  connected : bool;
  shogun_client : option ClientH;
  capture : option CaptureH;
  shogun_pid : option Z;
  _current_capture_name : string;
  _current_capture_folder : string;
  _current_capture_description : string
}.

(** __init__ *)
Definition init : Worker :=
  mkWorker false None None None "" "" "".

Definition set_connected (b : bool) (w : Worker) : Worker :=
  mkWorker b (shogun_client w) (capture w) (shogun_pid w)
           (_current_capture_name w) (_current_capture_folder w)
           (_current_capture_description w).

Definition set_shogun_client (c : option ClientH) (w : Worker) : Worker :=
  mkWorker (connected w) c (capture w) (shogun_pid w)
           (_current_capture_name w) (_current_capture_folder w)
           (_current_capture_description w).

Definition set_capture (c : option CaptureH) (w : Worker) : Worker :=
  mkWorker (connected w) (shogun_client w) c (shogun_pid w)
           (_current_capture_name w) (_current_capture_folder w)
           (_current_capture_description w).

Definition set_shogun_pid (p : option Z) (w : Worker) : Worker :=
  mkWorker (connected w) (shogun_client w) (capture w) p
           (_current_capture_name w) (_current_capture_folder w)
           (_current_capture_description w).

Definition set_current_capture_name (s : string) (w : Worker) : Worker :=
  mkWorker (connected w) (shogun_client w) (capture w) (shogun_pid w)
           s (_current_capture_folder w) (_current_capture_description w).

Definition set_current_capture_folder (s : string) (w : Worker) : Worker :=
  mkWorker (connected w) (shogun_client w) (capture w) (shogun_pid w)
           (_current_capture_name w) s (_current_capture_description w).

Definition set_current_capture_description (s : string) (w : Worker) : Worker :=
  mkWorker (connected w) (shogun_client w) (capture w) (shogun_pid w)
           (_current_capture_name w) (_current_capture_folder w) s.

(** *** The monad of a method body

    [m env h w] runs [m] in the world [env] after the history [h] on
    the fields [w]; it gives the outcome, the fields afterwards and the
    events produced, oldest first.  Fields written and events produced
    before an exception stay. *)
Definition M (A : Type) : Type :=
  Env -> Trace -> Worker -> Reply A * Worker * Trace.

Definition ret {A} (a : A) : M A :=
  fun _ _ w => (Ret a, w, []).

Definition bind {A B} (m : M A) (k : A -> M B) : M B :=
  fun env h w =>
    match m env h w with
    | (Ret a, w1, d1) =>
        match k a env (h ++ d1) w1 with
        | (r, w2, d2) => (r, w2, d1 ++ d2)
        end
    | (Raise e, w1, d1) => (Raise e, w1, d1)
    end.

(** try: m / except Exception as e: handler e *)
Definition try_except {A} (m : M A) (handler : Exn -> M A) : M A :=
  fun env h w =>
    match m env h w with
    | (Ret a, w1, d1) => (Ret a, w1, d1)
    | (Raise e, w1, d1) =>
        match handler e env (h ++ d1) w1 with
        | (r, w2, d2) => (r, w2, d1 ++ d2)
        end
    end.

Definition raise {A} (e : Exn) : M A :=
  fun _ _ w => (Raise e, w, []).

Definition get : M Worker :=
  fun _ _ w => (Ret w, w, []).

Definition modify (f : Worker -> Worker) : M unit :=
  fun _ _ w => (Ret tt, f w, []).

Definition ask : M Env :=
  fun env _ w => (Ret env, w, []).

Definition emit (e : Event) : M unit :=
  fun _ _ w => (Ret tt, w, [e]).

Definition log (l : Level) (text : string) : M unit := emit (EvLog l text).

Definition signal (s : Signal) : M unit := emit (EvSignal s).

(** A vendor call: the oracle answers from the history, and the call
    with its reply joins the history. *)
Definition api {A} (c : ApiCall) (oracle : Env -> Trace -> Reply A)
           (show : A -> Val) : M A :=
  fun env h w =>
    let r := oracle env h in (r, w, [EvCall c (reply_map show r)]).

Definition read_running : M bool :=
  fun env h w =>
    let b := flag_running env h in (Ret b, w, [EvRunning b]).

Definition sleep_slice : M unit := emit EvSleep.

Declare Scope py_scope.
Delimit Scope py_scope with py.
Notation "x <- m ;; k" := (bind m (fun x => k))
  (at level 61, m at next level, right associativity) : py_scope.
Notation "' pat <- m ;; k" := (bind m (fun x => match x with pat => k end))
  (at level 61, pat pattern, m at next level, right associativity) : py_scope.
Notation "m ;; k" := (bind m (fun _ => k))
  (at level 61, right associativity) : py_scope.
Local Open Scope py_scope.

(** [when c m]: an [if c:] with no else. *)
Definition when (c : bool) (m : M unit) : M unit :=
  if c then m else ret tt.

Definition AttributeError : Exn := Exception "AttributeError".

(** A method call on self.capture, which is None or a CaptureServices. *)
Definition on_capture {A} (f : CaptureH -> M A) : M A :=
  w <- get ;;
  match capture w with
  | None => raise AttributeError
  | Some cap => f cap
  end.

Definition show_result (r : bool * string) : Val := VResult (fst r) (snd r).
Definition show_unit (_ : unit) : Val := VNone.

Definition call_latest_capture_state : M string :=
  on_capture (fun _ => api latest_capture_state_call api_latest_capture_state VStr).

Definition call_capture_name : M (bool * string) :=
  on_capture (fun _ => api capture_name_call api_capture_name show_result).

Definition call_capture_folder : M (bool * string) :=
  on_capture (fun _ => api capture_folder_call api_capture_folder show_result).

Definition call_start_capture : M bool :=
  on_capture (fun _ => api start_capture_call api_start_capture VBool).

Definition call_stop_capture (flags : Z) : M bool :=
  on_capture (fun _ =>
    api (stop_capture_call flags) (fun env h => api_stop_capture env h flags) VBool).

Definition call_set_capture_name (name : string) : M bool :=
  on_capture (fun _ =>
    api (set_capture_name_call name) (fun env h => api_set_capture_name env h name) VBool).

Definition call_set_capture_folder (folder : string) : M bool :=
  on_capture (fun _ =>
    api (set_capture_folder_call folder)
        (fun env h => api_set_capture_folder env h folder) VBool).

Definition call_set_capture_description (description : string) : M bool :=
  api (set_capture_description_call description)
      (fun env h => api_set_capture_description env h description) VBool.

Definition process_iter : M (list Proc) :=
  fun env h w => (os_process_iter env h, w, [EvProcessIter]).

(** proc_name and ('ShogunLive' in proc_name or 'Shogun Live' in proc_name) *)
Definition is_shogun_name (name : option string) : bool :=
  match name with
  | None => false
  | Some n => truthy_str n && (contains "ShogunLive" n || contains "Shogun Live" n)
  end.

(** The pid of the first entry with a Shogun name, where the for loop of
    check_shogun_process returns. *)
Fixpoint first_shogun (procs : list Proc) : option Z :=
  match procs with
  | [] => None
  | proc :: rest =>
      if is_shogun_name (proc_name proc) then Some (proc_pid proc)
      else first_shogun rest
  end.

Definition check_shogun_process : M bool :=
  try_except
    (procs <- process_iter ;;
     match first_shogun procs with
     | Some pid =>
         w <- get ;;
         if truthy_opt truthy_int (shogun_pid w)
            && negb (truthy_opt (Z.eqb pid) (shogun_pid w))
         then
           log INFO "Shogun Live restart detected" ;;
           modify (set_shogun_pid (Some pid)) ;;
           modify (set_connected false) ;;
           ret true
         else
           modify (set_shogun_pid (Some pid)) ;;
           ret true
     | None => ret false
     end)
    (fun e => log DEBUG "process check error" ;; ret false).

Definition _test_connection : M bool :=
  try_except
    (_ <- call_latest_capture_state ;; ret true)
    (fun e => log DEBUG "connection test failed" ;; ret false).

Definition connect_shogun : M bool :=
  try_except
    (log INFO "Connecting to Shogun Live..." ;;
     client <- api Client_new api_Client VClient ;;
     modify (set_shogun_client (Some client)) ;;
     cap <- api CaptureServices_new api_CaptureServices VCapture ;;
     modify (set_capture (Some cap)) ;;
     alive <- _test_connection ;;
     if negb alive then
       log WARNING "connected, but the API does not answer" ;;
       ret false
     else
       try_except
         ('(result, capture_name) <- call_capture_name ;;
          when result
            (modify (set_current_capture_name capture_name) ;;
             log INFO "current capture name") ;;
          '(result, capture_folder) <- call_capture_folder ;;
          when result
            (modify (set_current_capture_folder capture_folder) ;;
             log INFO "current capture folder" ;;
             signal (capture_folder_changed_signal capture_folder)))
         (fun e => log DEBUG "could not read capture settings on connect") ;;
       log INFO "Connected to Shogun Live" ;;
       ret true)
    (fun e => log ERROR "error connecting to Shogun Live" ;; ret false).

Definition check_shogun : M bool :=
  try_except
    (w <- get ;;
     if negb (is_some (capture w)) then ret false
     else
       status <- call_latest_capture_state ;;
       ret (contains "Started" status))
    (fun e => log DEBUG "error checking Shogun Live state" ;; ret false).

Definition OverflowError : Exn := Exception "OverflowError".

(** [1.5 ** k] on floats raises OverflowError when the result is not
    finite, which is so from k = 1751 on: 1.5 ** 1750 is about 1.44e308,
    and 1.5^1751 is beyond the largest binary64 number.  The lemma
    [pow_overflows_exact] compares 1.5^k = 3^k / 2^k with the bound of
    the format in the integers. *)
Definition pow_overflows (k : nat) : bool := Nat.leb 1751 k.

(** The evaluation of [1.5 ** k] in line 269, for what it can raise. *)
Definition float_pow (k : nat) : M unit :=
  if pow_overflows k then raise OverflowError else ret tt.

(** range(int(delay * 10)) in line 273, for its length. *)
Definition delay_range (attempt : nat) : M nat :=
  fun env _ w => (backoff_slices (config env) attempt, w, []).

(** for _ in range(slices): if not self.running: return False; await asyncio.sleep(0.1)
    The result is false when the loop left the function by that return. *)
Fixpoint backoff_wait (slices : nat) : M bool :=
  match slices with
  | O => ret true
  | S rest =>
      running <- read_running ;;
      if negb running then ret false
      else sleep_slice ;; backoff_wait rest
  end.

Definition reconnect_banner : string := "Trying to reconnect to Shogun Live...".

(** The while loop of reconnect_shogun.  [remaining] is
    max_attempts - attempt, so that [attempt < max_attempts] is
    [remaining <> 0]; the loop is left through the error log when the
    condition fails. *)
Fixpoint reconnect_loop (remaining attempt : nat) : M bool :=
  match remaining with
  | O =>
      log ERROR "could not reconnect to Shogun Live" ;;
      ret false
  | S rest =>
      running <- read_running ;;
      if negb running then
        log ERROR "could not reconnect to Shogun Live" ;;
        ret false
      else
        result <- connect_shogun ;;
        if result then
          recording <- check_shogun ;;
          signal (recording_signal recording) ;;
          ret true
        else
          let attempt := S attempt in
          (* delay = min(base_delay * (1.5 ** (attempt - 1)), ...) *)
          float_pow (attempt - 1) ;;
          log DEBUG "attempt failed" ;;
          (* for _ in range(int(delay * 10)): ... *)
          slices <- delay_range attempt ;;
          finished <- backoff_wait slices ;;
          if negb finished then ret false
          else reconnect_loop rest attempt
  end.

Definition close_client (client : ClientH) : M unit :=
  try_except
    (if has_disconnect client then api disconnect_call api_disconnect show_unit
     else if has_close client then api close_call api_close show_unit
     else ret tt)
    (fun e => log DEBUG "error closing the connection").

Definition reconnect_shogun : M bool :=
  log INFO reconnect_banner ;;
  w <- get ;;
  match shogun_client w with
  | Some client => close_client client
  | None => ret tt
  end ;;
  env <- ask ;;
  reconnect_loop (MAX_RECONNECT_ATTEMPTS (config env)) 0.

Definition ensure_connection : M bool :=
  w <- get ;;
  if negb (is_some (shogun_client w)) || negb (is_some (capture w)) then
    connect_shogun
  else
    try_except
      (_ <- call_latest_capture_state ;; ret true)
      (fun e => log DEBUG "connection check error" ;; reconnect_shogun).

Definition _check_capture_settings_change : M unit :=
  try_except
    (w <- get ;;
     if negb (is_some (capture w)) then ret tt
     else
       '(result, capture_name) <- call_capture_name ;;
       if negb result then log DEBUG "could not get the capture name"
       else
         w <- get ;;
         when (negb (String.eqb capture_name (_current_capture_name w)))
           (log INFO "capture name changed" ;;
            modify (set_current_capture_name capture_name) ;;
            signal (capture_name_changed_signal capture_name)) ;;
         '(result, capture_folder) <- call_capture_folder ;;
         if negb result then log DEBUG "could not get the capture folder"
         else
           w <- get ;;
           when (negb (String.eqb capture_folder (_current_capture_folder w)))
             (log INFO "capture folder changed" ;;
              modify (set_current_capture_folder capture_folder) ;;
              signal (capture_folder_changed_signal capture_folder)))
    (fun e => log DEBUG "error checking capture settings").

(** The dict startcapture returns. *)
Inductive StartStatus : Type :=
| already_recording
| started
| started_after_reconnect.

Definition startcapture : M (option StartStatus) :=
  try_except
    (ok <- ensure_connection ;;
     if negb ok then
       log ERROR "no connection to Shogun Live" ;;
       signal (capture_error_signal "no connection to Shogun Live") ;;
       ret None
     else
       recording <- check_shogun ;;
       if recording then
         log INFO "recording already active" ;;
         ret (Some already_recording)
       else
         result <- call_start_capture ;;
         if negb result then
           log ERROR "start rejected" ;;
           signal (capture_error_signal "start rejected") ;;
           ret None
         else
           log INFO "recording started" ;;
           ret (Some started))
    (fun e =>
       log ERROR "start error" ;;
       signal (capture_error_signal "start error") ;;
       ok <- reconnect_shogun ;;
       if ok then
         try_except
           (result <- call_start_capture ;;
            if negb result then
              log ERROR "start rejected after reconnect" ;;
              signal (capture_error_signal "start rejected after reconnect") ;;
              ret None
            else
              log INFO "recording started after reconnect" ;;
              ret (Some started_after_reconnect))
           (fun e2 =>
              log ERROR "start failed after reconnect" ;;
              signal (capture_error_signal "start failed after reconnect") ;;
              ret None)
       else ret None).

Definition stopcapture : M bool :=
  try_except
    (ok <- ensure_connection ;;
     if negb ok then
       log ERROR "no connection to Shogun Live" ;;
       signal (capture_error_signal "no connection to Shogun Live") ;;
       ret false
     else
       recording <- check_shogun ;;
       if negb recording then
         log INFO "recording not active" ;;
         ret true
       else
         result <- call_stop_capture 0 ;;
         if negb result then
           log ERROR "stop rejected" ;;
           signal (capture_error_signal "stop rejected") ;;
           ret false
         else
           log INFO "recording stopped" ;;
           ret true)
    (fun e =>
       log ERROR "stop error" ;;
       signal (capture_error_signal "stop error") ;;
       ok <- reconnect_shogun ;;
       if ok then
         try_except
           (result <- call_stop_capture 0 ;;
            if negb result then
              log ERROR "stop rejected after reconnect" ;;
              signal (capture_error_signal "stop rejected after reconnect") ;;
              ret false
            else
              log INFO "recording stopped after reconnect" ;;
              ret true)
           (fun e2 =>
              log ERROR "stop failed after reconnect" ;;
              signal (capture_error_signal "stop failed after reconnect") ;;
              ret false)
       else ret false).

Definition set_capture_name (name : string) : M bool :=
  try_except
    (w <- get ;;
     if negb (is_some (capture w)) then
       log ERROR "no connection to Shogun Live" ;;
       ret false
     else
       result <- call_set_capture_name name ;;
       if result then
         log INFO "capture name set" ;;
         modify (set_current_capture_name name) ;;
         ret true
       else
         log ERROR "could not set the capture name" ;;
         ret false)
    (fun e => log ERROR "error setting the capture name" ;; ret false).

Definition set_capture_folder (folder : string) : M bool :=
  try_except
    (w <- get ;;
     if negb (is_some (capture w)) then
       log ERROR "no connection to Shogun Live" ;;
       ret false
     else
       result <- call_set_capture_folder folder ;;
       if result then
         log INFO "capture folder set" ;;
         modify (set_current_capture_folder folder) ;;
         ret true
       else
         log ERROR "could not set the capture folder" ;;
         ret false)
    (fun e => log ERROR "error setting the capture folder" ;; ret false).

Definition set_capture_description (description : string) : M bool :=
  try_except
    (w <- get ;;
     match capture w with
     | None =>
         log ERROR "no connection to Shogun Live" ;;
         ret false
     | Some cap =>
         (* hasattr(self.capture, 'set_capture_description') *)
         if has_set_capture_description cap then
           result <- call_set_capture_description description ;;
           if result then
             log INFO "capture description set" ;;
             modify (set_current_capture_description description) ;;
             ret true
           else
             log ERROR "could not set the capture description" ;;
             ret false
         else
           log WARNING "the API does not support setting the capture description" ;;
           ret false
     end)
    (fun e => log ERROR "error setting the capture description" ;; ret false).

(** One batch of checks of the monitoring loop of run: the body of
    [if current_time - self._last_check_time >= self._check_interval]. *)
Definition poll_tick : M unit :=
  shogun_running <- check_shogun_process ;;
  (if shogun_running then
     w <- get ;;
     if negb (connected w) then
       log INFO "Shogun Live found, connecting..." ;;
       c <- connect_shogun ;;
       modify (set_connected c) ;;
       signal (connection_signal c)
     else
       connection_ok <- ensure_connection ;;
       when (negb connection_ok)
         (log WARNING "connection to Shogun Live lost" ;;
          modify (set_connected false) ;;
          signal (connection_signal false)) ;;
       w <- get ;;
       when (connected w)
         (is_recording <- check_shogun ;;
          signal (recording_signal is_recording) ;;
          _check_capture_settings_change)
   else
     w <- get ;;
     when (connected w)
       (log WARNING "Shogun Live not found, connection lost" ;;
        modify (set_connected false) ;;
        signal (connection_signal false) ;;
        signal (recording_signal false))) ;;
  w <- get ;;
  env <- ask ;;
  signal (status_signal (if connected w then STATUS_CONNECTED (config env)
                         else STATUS_DISCONNECTED (config env))).

(** The while loop of run, over the iterations in which the check
    interval has elapsed (the others only sleep; the time.sleep calls of
    the loop are not recorded). *)
Fixpoint monitor_loop (ticks : nat) : M unit :=
  match ticks with
  | O => ret tt
  | S rest =>
      running <- read_running ;;
      if running then
        try_except poll_tick (fun e => log ERROR "error in the monitoring loop") ;;
        monitor_loop rest
      else ret tt
  end.

Definition run (ticks : nat) : M unit :=
  c <- connect_shogun ;;
  modify (set_connected c) ;;
  signal (connection_signal c) ;;
  monitor_loop ticks.

End ShogunWorker.

(** ** osc_server.py *)

Module OSCServer.

Import ShogunWorker.

(** An argument of an OSC message, by what str() gives for it. *)
Record OscArg : Type := mkArg { arg_str : string }.

(** The coroutine a handler hands to a new thread. *)
Inductive Task : Type :=
| task_startcapture
| task_stopcapture
| task_set_capture_name (new_name : string)
| task_set_capture_folder (new_folder : string)
| task_set_capture_description (new_description : string).

Inductive OscEvent : Type :=
| OLog (level : Level) (text : string)
| OMessageSignal (address value : string)         (* self.message_signal.emit *)
| OClientNew (broadcast : bool) (r : Reply unit)   (* udp_client.SimpleUDPClient(...) *)
| OSend (address value : string) (r : Reply unit)  (* self.osc_client.send_message *)
| OThread (task : Task)                            (* threading.Thread(...).start() *)
| OWorker (e : Event).                             (* what the started thread does *)

Definition OscTrace : Type := list OscEvent.

(** The addresses of [config] and the broadcast target of
    [config.app_settings], which are not part of the sources. *)
Record OscConfig : Type := mkOscConfig {
  OSC_START_RECORDING : string;
  OSC_STOP_RECORDING : string;
  OSC_SET_CAPTURE_NAME : string;
  OSC_SET_CAPTURE_FOLDER : string;
  OSC_SET_CAPTURE_DESCRIPTION : string;
  OSC_CAPTURE_ERROR : string;
  osc_broadcast_ip : string
}.

Record OscEnv : Type := mkOscEnv {
  osc_config : OscConfig;
  shogun_env : Env;
  udp_client_new : OscTrace -> Reply unit;
  udp_send_message : OscTrace -> string -> string -> Reply unit
}.

(** The fields of an OSCServer that the handlers use. *)
Record Server : Type := mkServer {
  shogun_worker : option Worker;
  osc_client : option unit
}.

Definition H (A : Type) : Type :=
  OscEnv -> OscTrace -> Server -> Reply A * Server * OscTrace.

Definition hret {A} (a : A) : H A :=
  fun _ _ s => (Ret a, s, []).

Definition hbind {A B} (m : H A) (k : A -> H B) : H B :=
  fun env h s =>
    match m env h s with
    | (Ret a, s1, d1) =>
        match k a env (h ++ d1) s1 with
        | (r, s2, d2) => (r, s2, d1 ++ d2)
        end
    | (Raise e, s1, d1) => (Raise e, s1, d1)
    end.

Definition htry {A} (m : H A) (handler : Exn -> H A) : H A :=
  fun env h s =>
    match m env h s with
    | (Ret a, s1, d1) => (Ret a, s1, d1)
    | (Raise e, s1, d1) =>
        match handler e env (h ++ d1) s1 with
        | (r, s2, d2) => (r, s2, d1 ++ d2)
        end
    end.

Definition hget : H Server := fun _ _ s => (Ret s, s, []).
Definition hask : H OscEnv := fun env _ s => (Ret env, s, []).
Definition hemit (e : OscEvent) : H unit := fun _ _ s => (Ret tt, s, [e]).

Declare Scope osc_scope.
Delimit Scope osc_scope with osc.
Notation "x <- m ;; k" := (hbind m (fun x => k))
  (at level 61, m at next level, right associativity) : osc_scope.
Notation "m ;; k" := (hbind m (fun _ => k))
  (at level 61, right associativity) : osc_scope.
Local Open Scope osc_scope.

(** The events of the worker thread's own history. *)
Fixpoint worker_history (h : OscTrace) : Trace :=
  match h with
  | [] => []
  | OWorker e :: rest => e :: worker_history rest
  | _ :: rest => worker_history rest
  end.

Definition run_task (task : Task) : M unit :=
  match task with
  | task_startcapture => (_ <- startcapture ;; ret tt)%py
  | task_stopcapture => (_ <- stopcapture ;; ret tt)%py
  | task_set_capture_name n => (_ <- ShogunWorker.set_capture_name n ;; ret tt)%py
  | task_set_capture_folder f => (_ <- ShogunWorker.set_capture_folder f ;; ret tt)%py
  | task_set_capture_description d =>
      (_ <- ShogunWorker.set_capture_description d ;; ret tt)%py
  end.

(** threading.Thread(target=self._run_async_task, args=(task,)).start():
    the thread runs the coroutine on the worker; here it runs to its end
    at once, which is one of the schedules.  What the thread returns or
    raises does not reach the handler. *)
Definition start_thread (task : Task) : H unit :=
  fun env h s =>
    match shogun_worker s with
    | None => (Raise AttributeError, s, [OThread task])
    | Some w =>
        match run_task task (shogun_env env) (worker_history h) w with
        | (_, w', d) =>
            (Ret tt, mkServer (Some w') (osc_client s), OThread task :: map OWorker d)
        end
    end.

Definition send_osc_message (address value : string) : H bool :=
  htry
    (s <- hget ;;
     env <- hask ;;
     match osc_client s with
     | Some _ => hret tt
     | None =>
         (fun env h s =>
            let broadcast := String.eqb (osc_broadcast_ip (osc_config env)) "255.255.255.255" in
            match udp_client_new env h with
            | Ret c => (Ret tt, mkServer (shogun_worker s) (Some c),
                        [OClientNew broadcast (Ret tt)])
            | Raise e => (Raise e, s, [OClientNew broadcast (Raise e)])
            end) ;;
         hemit (OLog INFO "created the OSC client")
     end ;;
     (fun env h s =>
        let r := udp_send_message env h address value in
        (r, s, [OSend address value r])) ;;
     hemit (OLog DEBUG "sent OSC message") ;;
     hret true)
    (fun e => hemit (OLog ERROR "error sending OSC message") ;; hret false).

(** self.shogun_worker and self.shogun_worker.connected *)
Definition worker_connected (s : Server) : bool :=
  match shogun_worker s with
  | None => false
  | Some w => connected w
  end.

(** The else branch every handler has for a worker that is missing or
    not connected: log the warning and send the error message out. *)
Definition no_connection (text : string) : H unit :=
  env <- hask ;;
  hemit (OLog WARNING text) ;;
  _ <- send_osc_message (OSC_CAPTURE_ERROR (osc_config env)) text ;;
  hret tt.

(** The [if not args:] block of the three handlers that need an
    argument, up to its return: log the warning, emit the notification,
    send the error message out. *)
Definition missing_argument (address text : string) : H unit :=
  env <- hask ;;
  hemit (OLog WARNING text) ;;
  hemit (OMessageSignal address ("Error: " ++ text)%string) ;;
  _ <- send_osc_message (OSC_CAPTURE_ERROR (osc_config env)) text ;;
  hret tt.

Definition start_recording (address : string) (args : list OscArg) : H unit :=
  hemit (OLog INFO "OSC command: start recording") ;;
  hemit (OMessageSignal address "Start recording") ;;
  s <- hget ;;
  if worker_connected s then start_thread task_startcapture
  else no_connection "cannot start recording: no connection to Shogun Live".

Definition stop_recording (address : string) (args : list OscArg) : H unit :=
  hemit (OLog INFO "OSC command: stop recording") ;;
  hemit (OMessageSignal address "Stop recording") ;;
  s <- hget ;;
  if worker_connected s then start_thread task_stopcapture
  else no_connection "cannot stop recording: no connection to Shogun Live".

Definition set_capture_name (address : string) (args : list OscArg) : H unit :=
  match args with
  | [] => missing_argument address "missing capture name"
  | arg0 :: _ =>
      let new_name := arg_str arg0 in
      hemit (OLog INFO "OSC command: set capture name") ;;
      hemit (OMessageSignal address ("Set capture name: '" ++ new_name ++ "'")%string) ;;
      s <- hget ;;
      if worker_connected s then start_thread (task_set_capture_name new_name)
      else no_connection "cannot set capture name: no connection to Shogun Live"
  end.

Definition set_capture_folder (address : string) (args : list OscArg) : H unit :=
  match args with
  | [] => missing_argument address "missing capture folder path"
  | arg0 :: _ =>
      let new_folder := arg_str arg0 in
      hemit (OLog INFO "OSC command: set capture folder") ;;
      hemit (OMessageSignal address ("Set capture folder: '" ++ new_folder ++ "'")%string) ;;
      s <- hget ;;
      if worker_connected s then start_thread (task_set_capture_folder new_folder)
      else no_connection "cannot set capture folder: no connection to Shogun Live"
  end.

Definition set_capture_description (address : string) (args : list OscArg) : H unit :=
  match args with
  | [] => missing_argument address "missing capture description"
  | arg0 :: _ =>
      let new_description := arg_str arg0 in
      hemit (OLog INFO "OSC command: set capture description") ;;
      hemit (OMessageSignal address "Set capture description") ;;
      s <- hget ;;
      if worker_connected s then start_thread (task_set_capture_description new_description)
      else no_connection "cannot set capture description: no connection to Shogun Live"
  end.

Definition default_handler (address : string) (args : list OscArg) : H unit :=
  let args_str :=
    match args with
    | [] => "no arguments"
    | _ => String.concat ", " (map arg_str args)
    end in
  hemit (OLog DEBUG "unknown OSC message") ;;
  hemit (OMessageSignal address args_str).

(** The handlers setup_dispatcher maps to an address of [config]. *)
Inductive Recognized : Type :=
| cmd_start_recording
| cmd_stop_recording
| cmd_set_capture_name
| cmd_set_capture_folder
| cmd_set_capture_description.

Definition address_of (cfg : OscConfig) (c : Recognized) : string :=
  match c with
  | cmd_start_recording => OSC_START_RECORDING cfg
  | cmd_stop_recording => OSC_STOP_RECORDING cfg
  | cmd_set_capture_name => OSC_SET_CAPTURE_NAME cfg
  | cmd_set_capture_folder => OSC_SET_CAPTURE_FOLDER cfg
  | cmd_set_capture_description => OSC_SET_CAPTURE_DESCRIPTION cfg
  end.

Definition handler_of (c : Recognized) : string -> list OscArg -> H unit :=
  match c with
  | cmd_start_recording => start_recording
  | cmd_stop_recording => stop_recording
  | cmd_set_capture_name => set_capture_name
  | cmd_set_capture_folder => set_capture_folder
  | cmd_set_capture_description => set_capture_description
  end.

(** The table setup_dispatcher builds. *)
Definition setup_dispatcher (cfg : OscConfig)
  : list (string * (string -> list OscArg -> H unit)) :=
  map (fun c => (address_of cfg c, handler_of c))
      [cmd_start_recording; cmd_stop_recording; cmd_set_capture_name;
       cmd_set_capture_folder; cmd_set_capture_description].

(** The handlers whose first argument is required. *)
Definition requires_argument (c : Recognized) : bool :=
  match c with
  | cmd_set_capture_name | cmd_set_capture_folder | cmd_set_capture_description => true
  | _ => false
  end.

(** *** Reading a handler's history *)

Definition handled {A} (x : Reply A * Server * OscTrace) : Reply A := fst (fst x).
Definition server_of {A} (x : Reply A * Server * OscTrace) : Server := snd (fst x).
Definition osc_events {A} (x : Reply A * Server * OscTrace) : OscTrace := snd x.

Definition is_message_signal (e : OscEvent) : bool :=
  match e with OMessageSignal _ _ => true | _ => false end.

(** A supervisor operation handed to a thread. *)
Definition is_thread (e : OscEvent) : bool :=
  match e with OThread _ => true | _ => false end.

(** A call into the vendor API. *)
Definition is_device_call (e : OscEvent) : bool :=
  match e with OWorker (EvCall _ _) => true | _ => false end.

(** An outbound OSC message. *)
Definition is_send (e : OscEvent) : bool :=
  match e with OSend _ _ _ => true | _ => false end.

(** The server of the scenarios: a connected worker, no UDP client yet. *)
Definition serving (w : Worker) : Server := mkServer (Some w) None.

Definition is_client_new (e : OscEvent) : bool :=
  match e with OClientNew _ _ => true | _ => false end.

(** The supervisor operation a handler starts for a message, when the
    message has the argument the handler needs. *)
Definition task_of (c : Recognized) (args : list OscArg) : option Task :=
  match c, args with
  | cmd_start_recording, _ => Some task_startcapture
  | cmd_stop_recording, _ => Some task_stopcapture
  | cmd_set_capture_name, arg0 :: _ => Some (task_set_capture_name (arg_str arg0))
  | cmd_set_capture_folder, arg0 :: _ => Some (task_set_capture_folder (arg_str arg0))
  | cmd_set_capture_description, arg0 :: _ =>
      Some (task_set_capture_description (arg_str arg0))
  | _, [] => None
  end.

End OSCServer.

(** ** Reading a history *)

Module Observe.

Import ShogunWorker.

Definition result_of {A} (x : Reply A * Worker * Trace) : Reply A := fst (fst x).
Definition fields_of {A} (x : Reply A * Worker * Trace) : Worker := snd (fst x).
Definition events_of {A} (x : Reply A * Worker * Trace) : Trace := snd x.

Definition count (p : Event -> bool) (d : Trace) : nat := length (filter p d).

(** The events after the first one that satisfies [p]. *)
Fixpoint after_first (p : Event -> bool) (d : Trace) : Trace :=
  match d with
  | [] => []
  | e :: rest => if p e then rest else after_first p rest
  end.

(** The reply to the first call that satisfies [p]. *)
Fixpoint first_reply (p : Event -> bool) (d : Trace) : option (Reply Val) :=
  match d with
  | [] => None
  | e :: rest =>
      if p e then match e with EvCall _ r => Some r | _ => None end
      else first_reply p rest
  end.

Definition raised (r : option (Reply Val)) : bool :=
  match r with Some (Raise _) => true | _ => false end.

(** A reply that is an exception or a falsy result. *)
Definition failed (r : option (Reply Val)) : bool :=
  match r with
  | Some (Raise _) => true
  | Some (Ret (VBool false)) => true
  | _ => false
  end.

Definition is_call (p : ApiCall -> bool) (e : Event) : bool :=
  match e with EvCall c _ => p c | _ => false end.

Definition is_api_call : Event -> bool := is_call (fun _ => true).

Definition is_Client_new : Event -> bool :=
  is_call (fun c => match c with Client_new => true | _ => false end).

Definition is_start_capture : Event -> bool :=
  is_call (fun c => match c with start_capture_call => true | _ => false end).

Definition is_stop_capture : Event -> bool :=
  is_call (fun c => match c with stop_capture_call _ => true | _ => false end).

Definition is_capture_folder_call : Event -> bool :=
  is_call (fun c => match c with capture_folder_call => true | _ => false end).

(** The calls that change the device: start, stop and the three setters. *)
Definition is_command : Event -> bool :=
  is_call (fun c =>
    match c with
    | start_capture_call | stop_capture_call _
    | set_capture_name_call _ | set_capture_folder_call _
    | set_capture_description_call _ => true
    | _ => false
    end).

Definition is_sleep (e : Event) : bool :=
  match e with EvSleep => true | _ => false end.

(** The first line of reconnect_shogun, which opens a reconnect sequence. *)
Definition is_reconnect_start (e : Event) : bool :=
  match e with
  | EvLog INFO text => String.eqb text reconnect_banner
  | _ => false
  end.

Definition is_recording_signal (e : Event) : bool :=
  match e with EvSignal (recording_signal _) => true | _ => false end.

Definition is_capture_folder_changed (e : Event) : bool :=
  match e with EvSignal (capture_folder_changed_signal _) => true | _ => false end.

Definition is_capture_name_changed (e : Event) : bool :=
  match e with EvSignal (capture_name_changed_signal _) => true | _ => false end.

(** reconnect_shogun emits the recording state when, and only when, one
    of its connect attempts succeeds. *)
Definition reconnect_succeeded (d : Trace) : bool := existsb is_recording_signal d.

(** A connect attempt is a run of connect_shogun, which builds one Client. *)
Definition connect_attempts (d : Trace) : nat := count is_Client_new d.

Fixpoint sleeps_until_connect (d : Trace) : nat :=
  match d with
  | [] => 0
  | e :: rest =>
      if is_Client_new e then 0
      else (if is_sleep e then 1 else 0) + sleeps_until_connect rest
  end.

(** For each connect attempt, the number of sleep slices between it and
    the next attempt (or the end). *)
Fixpoint waits (d : Trace) : list nat :=
  match d with
  | [] => []
  | e :: rest =>
      if is_Client_new e then sleeps_until_connect rest :: waits rest
      else waits rest
  end.

(** Every sleep slice comes directly after a read of the running flag
    that gave True. *)
Fixpoint slices_checked (prev : option Event) (d : Trace) : bool :=
  match d with
  | [] => true
  | e :: rest =>
      (if is_sleep e
       then match prev with Some (EvRunning true) => true | _ => false end
       else true)
      && slices_checked (Some e) rest
  end.

(** What the signals so far show to their receivers. *)
Fixpoint shown_connected (d : Trace) (now : option bool) : option bool :=
  match d with
  | [] => now
  | EvSignal (connection_signal b) :: rest => shown_connected rest (Some b)
  | _ :: rest => shown_connected rest now
  end.

Fixpoint shown_recording (d : Trace) (now : option bool) : option bool :=
  match d with
  | [] => now
  | EvSignal (recording_signal b) :: rest => shown_recording rest (Some b)
  | _ :: rest => shown_recording rest now
  end.

(** The five device operations, as the dispatcher starts them. *)
Inductive DeviceOp : Type :=
| op_startcapture
| op_stopcapture
| op_set_capture_name (name : string)
| op_set_capture_folder (folder : string)
| op_set_capture_description (description : string).

Inductive OpResult : Type :=
| ResStart (info : option StartStatus)
| ResBool (ok : bool).

Definition run_op (op : DeviceOp) : M OpResult :=
  match op with
  | op_startcapture => (r <- startcapture ;; ret (ResStart r))%py
  | op_stopcapture => (r <- stopcapture ;; ret (ResBool r))%py
  | op_set_capture_name n => (r <- set_capture_name n ;; ret (ResBool r))%py
  | op_set_capture_folder f => (r <- set_capture_folder f ;; ret (ResBool r))%py
  | op_set_capture_description s => (r <- set_capture_description s ;; ret (ResBool r))%py
  end.

(** None or False. *)
Definition failure_indicator (r : Reply OpResult) : bool :=
  match r with
  | Ret (ResStart None) | Ret (ResBool false) => true
  | _ => false
  end.

(** The device call an operation is there to make. *)
Definition is_call_of (op : DeviceOp) : Event -> bool :=
  is_call (fun c =>
    match op, c with
    | op_startcapture, start_capture_call => true
    | op_stopcapture, stop_capture_call _ => true
    | op_set_capture_name _, set_capture_name_call _ => true
    | op_set_capture_folder _, set_capture_folder_call _ => true
    | op_set_capture_description _, set_capture_description_call _ => true
    | _, _ => false
    end).

(** The retry policy as the specification words it for every operation:
    after the device call raised there is one reconnect sequence and one
    more call, and a failure of that call gives the failure indicator. *)
Definition retry_once_after_reconnect (op : DeviceOp) (r : Reply OpResult)
           (d : Trace) : Prop :=
  raised (first_reply (is_call_of op) d) = true ->
  count is_reconnect_start (after_first (is_call_of op) d) = 1
  /\ count (is_call_of op) (after_first (is_call_of op) d) = 1
  /\ (failed (first_reply (is_call_of op) (after_first (is_call_of op) d)) = true ->
      failure_indicator r = true).

(** Connectivity is ensured and the state query reports a recording. *)
Definition finds_recording (env : Env) (h : Trace) (w : Worker) (is_rec : bool) : Prop :=
  exists w1 d1 w2 d2,
    ensure_connection env h w = (Ret true, w1, d1)
    /\ check_shogun env (h ++ d1) w1 = (Ret is_rec, w2, d2).

(** C7 as the specification words it: the snapshot is taken, and each of
    the two values is announced when, and only when, it is not empty. *)
Definition snapshot_announces_nonempty (env : Env) (h : Trace) (w : Worker) : Prop :=
  forall w' d n f,
    connect_shogun env h w = (Ret true, w', d) ->
    (forall t, api_capture_name env t = Ret (true, n)) ->
    (forall t, api_capture_folder env t = Ret (true, f)) ->
    _current_capture_name w' = n
    /\ _current_capture_folder w' = f
    /\ count is_capture_name_changed d = (if truthy_str n then 1 else 0)
    /\ count is_capture_folder_changed d = (if truthy_str f then 1 else 0).

Definition is_signal (e : Event) : bool :=
  match e with EvSignal _ => true | _ => false end.

Definition is_status_signal (e : Event) : bool :=
  match e with EvSignal (status_signal _) => true | _ => false end.

Definition is_capture_error (e : Event) : bool :=
  match e with EvSignal (capture_error_signal _) => true | _ => false end.

(** A read of self.running that found it cleared by stop(). *)
Definition is_cleared_flag (e : Event) : bool :=
  match e with EvRunning false => true | _ => false end.

(** The process table shows no Shogun Live, or cannot be read. *)
Definition process_absent (env : Env) (h : Trace) : Prop :=
  match os_process_iter env h with
  | Ret procs => first_shogun procs = None
  | Raise _ => True
  end.

(** The value a setter is asked to set, and the field it caches it in. *)
Definition setter_value (op : DeviceOp) : option string :=
  match op with
  | op_set_capture_name s | op_set_capture_folder s
  | op_set_capture_description s => Some s
  | _ => None
  end.

Definition setter_cache (op : DeviceOp) (w : Worker) : option string :=
  match op with
  | op_set_capture_name _ => Some (_current_capture_name w)
  | op_set_capture_folder _ => Some (_current_capture_folder w)
  | op_set_capture_description _ => Some (_current_capture_description w)
  | _ => None
  end.

Definition is_process_iter (e : Event) : bool :=
  match e with EvProcessIter => true | _ => false end.

(** A configuration under which every delay of a reconnect sequence can
    be computed: for each attempt the sequence can make, the power does
    not overflow and [int(delay * 10)] is a number. *)
Definition delay_computes (cfg : Config) : Prop :=
  forall attempt, 1 <= attempt <= MAX_RECONNECT_ATTEMPTS cfg ->
    pow_overflows (attempt - 1) = false
    /\ exists slices, backoff_slices cfg attempt = Ret slices.

End Observe.

(** ** The shapes of the histories the methods leave

    These predicates are used by the proofs only: the lemmas below show
    that the methods produce nothing else. *)

Module Shapes.

Import ShogunWorker Observe.

(** An event that is no start, stop or set call. *)
Definition calm (e : Event) : bool := negb (is_command e).

(** What the state query check_shogun may leave. *)
Definition probe_event (e : Event) : bool :=
  match e with
  | EvLog DEBUG _ => true
  | EvCall latest_capture_state_call _ => true
  | _ => false
  end.

(** What connect_shogun may leave after it has built the Client. *)
Definition connect_tail (e : Event) : bool :=
  match e with
  | EvLog _ _ => negb (is_reconnect_start e)
  | EvCall CaptureServices_new _
  | EvCall latest_capture_state_call _
  | EvCall capture_name_call _
  | EvCall capture_folder_call _ => true
  | EvSignal (capture_folder_changed_signal _) => true
  | _ => false
  end.

Definition connecting : Event := EvLog INFO "Connecting to Shogun Live...".

Definition connect_trace (d : Trace) : Prop :=
  exists r rest,
    d = connecting :: EvCall Client_new r :: rest
    /\ forallb connect_tail rest = true.

(** [k] slices of a backoff wait that was not interrupted. *)
Fixpoint slices (k : nat) : Trace :=
  match k with
  | O => []
  | S k' => EvRunning true :: EvSleep :: slices k'
  end.

Definition gave_up : Event := EvLog ERROR "could not reconnect to Shogun Live".
Definition attempt_failed : Event := EvLog DEBUG "attempt failed".

(** The histories of the while loop of reconnect_shogun with [remaining]
    attempts left after [attempt] failed ones, and its outcome. *)
Inductive loop_trace (cfg : Config) : nat -> nat -> Reply bool -> Trace -> Prop :=
| loop_exhausted attempt :
    loop_trace cfg 0 attempt (Ret false) [gave_up]
| loop_stopped rest attempt :
    loop_trace cfg (S rest) attempt (Ret false) [EvRunning false; gave_up]
| loop_connected rest attempt dc dk recording :
    connect_trace dc ->
    forallb probe_event dk = true ->
    loop_trace cfg (S rest) attempt (Ret true)
      (EvRunning true :: dc ++ dk ++ [EvSignal (recording_signal recording)])
| loop_overflow rest attempt dc :
    connect_trace dc ->
    pow_overflows attempt = true ->
    loop_trace cfg (S rest) attempt (Raise OverflowError) (EvRunning true :: dc)
| loop_no_range rest attempt dc e :
    connect_trace dc ->
    backoff_slices cfg (S attempt) = Raise e ->
    loop_trace cfg (S rest) attempt (Raise e)
      (EvRunning true :: dc ++ [attempt_failed])
| loop_interrupted rest attempt dc n k :
    connect_trace dc ->
    backoff_slices cfg (S attempt) = Ret n ->
    k < n ->
    loop_trace cfg (S rest) attempt (Ret false)
      (EvRunning true :: dc ++ attempt_failed :: slices k ++ [EvRunning false])
| loop_retry rest attempt dc n r d :
    connect_trace dc ->
    pow_overflows attempt = false ->
    backoff_slices cfg (S attempt) = Ret n ->
    loop_trace cfg rest (S attempt) r d ->
    loop_trace cfg (S rest) attempt r
      (EvRunning true :: dc ++ attempt_failed :: slices n ++ d).

(** The outcome of a reconnect sequence that connected. *)
Definition connected_again (r : Reply bool) : bool :=
  match r with Ret true => true | _ => false end.

(** Neither a connect attempt nor a sleep slice. *)
Definition inert (e : Event) : bool := negb (is_Client_new e) && negb (is_sleep e).

(** No command to the device and no opening of a reconnect sequence. *)
Definition loop_event (e : Event) : bool :=
  negb (is_command e) && negb (is_reconnect_start e).

(** Log lines the theorems name. *)
Definition restart_detected : Event := EvLog INFO "Shogun Live restart detected".
Definition found_connecting : Event := EvLog INFO "Shogun Live found, connecting...".

Definition unsupported : Event :=
  EvLog WARNING "the API does not support setting the capture description".

(** A method body that returns, whatever the outside world answers, in
    the environments that satisfy [P]. *)
Definition never_raises (P : Env -> Prop) {A} (m : M A) : Prop :=
  forall env h w, P env -> exists a, result_of (m env h w) = Ret a.

Definition any_env (env : Env) : Prop := True.

Definition computable (env : Env) : Prop := delay_computes (config env).

(** A method body that leaves [f] of the fields as it was, whether it
    returns or raises. *)
Definition keeps {A B} (f : Worker -> B) (m : M A) : Prop :=
  forall env h w, f (fields_of (m env h w)) = f w.

(** What only run and check_shogun_process write. *)
Definition connection_state (w : Worker) : bool * option Z :=
  (connected w, shogun_pid w).

(** A method body all of whose events satisfy [P]. *)
Definition emits {A} (P : Event -> bool) (m : M A) : Prop :=
  forall env h w, forallb P (events_of (m env h w)) = true.

(** What connecting, probing and reconnecting may leave: log lines, the
    recording and capture-folder signals, calls that build, probe, query
    or close the connection, reads of the running flag and sleeps. *)
Definition supervision_event (e : Event) : bool :=
  match e with
  | EvLog _ _ => true
  | EvSignal (recording_signal _) | EvSignal (capture_folder_changed_signal _) => true
  | EvSignal _ => false
  | EvCall c _ =>
      match c with
      | Client_new | CaptureServices_new | latest_capture_state_call
      | capture_name_call | capture_folder_call | disconnect_call | close_call => true
      | _ => false
      end
  | EvProcessIter => false
  | EvRunning _ | EvSleep => true
  end.

(** What a batch of checks of the monitoring loop may leave besides. *)
Definition tick_event (e : Event) : bool :=
  supervision_event e
  || match e with
     | EvProcessIter => true
     | EvSignal (connection_signal _) | EvSignal (status_signal _)
     | EvSignal (capture_name_changed_signal _) => true
     | _ => false
     end.

Definition no_status (e : Event) : bool := negb (is_status_signal e).

Definition name_changed (n : string) : Event := EvSignal (capture_name_changed_signal n).
Definition folder_changed (f : string) : Event :=
  EvSignal (capture_folder_changed_signal f).

(** Any event but a read of the running flag that finds it cleared. *)
Definition flag_set (e : Event) : bool := negb (is_cleared_flag e).

(** Neither a status signal nor a look at the process table. *)
Definition batch_inner (e : Event) : bool :=
  negb (is_status_signal e) && negb (is_process_iter e).

End Shapes.

(** ** Concrete worlds

    The environments and workers at which the theorems are tried. *)

Module Scenarios.

Import ShogunWorker Observe.

(** int(min(1 * 1.5 ** (attempt - 1), 15) * 10): the slices of the
    delays for BASE_RECONNECT_DELAY = 1 and MAX_RECONNECT_DELAY = 15, as
    the interpreter computes them. *)
Definition slices_1_15 (attempt : nat) : Reply nat :=
  Ret (nth (attempt - 1) [10; 15; 22; 33; 50; 75; 113] 150).

Definition cfg : Config :=
  mkConfig 3 slices_1_15 "Connected" "Disconnected".

Definition shogun_proc : Proc := mkProc 4242 (Some "ShogunLive.exe").

(** A device that answers every call, is idle, and is never stopped. *)
Definition healthy : Env :=
  mkEnv cfg
    (fun _ => Ret (mkClientH true false))
    (fun _ => Ret (mkCaptureH true))
    (fun _ => Ret "ECaptureState.Stopped")
    (fun _ => Ret (true, "Take1"))
    (fun _ => Ret (true, "C:/captures"))
    (fun _ _ => Ret true)
    (fun _ _ => Ret true)
    (fun _ _ => Ret true)
    (fun _ => Ret true)
    (fun _ _ => Ret true)
    (fun _ => Ret tt)
    (fun _ => Ret tt)
    (fun _ => Ret [mkProc 4 (Some "System"); shogun_proc])
    (fun _ => true).

Definition with_config (c : Config) (env : Env) : Env :=
  mkEnv c (api_Client env) (api_CaptureServices env)
    (api_latest_capture_state env) (api_capture_name env) (api_capture_folder env)
    (api_set_capture_name env) (api_set_capture_folder env)
    (api_set_capture_description env) (api_start_capture env) (api_stop_capture env)
    (api_disconnect env) (api_close env) (os_process_iter env) (flag_running env).

Definition with_Client (f : Trace -> Reply ClientH) (env : Env) : Env :=
  mkEnv (config env) f (api_CaptureServices env)
    (api_latest_capture_state env) (api_capture_name env) (api_capture_folder env)
    (api_set_capture_name env) (api_set_capture_folder env)
    (api_set_capture_description env) (api_start_capture env) (api_stop_capture env)
    (api_disconnect env) (api_close env) (os_process_iter env) (flag_running env).

Definition with_latest_capture_state (f : Trace -> Reply string) (env : Env) : Env :=
  mkEnv (config env) (api_Client env) (api_CaptureServices env)
    f (api_capture_name env) (api_capture_folder env)
    (api_set_capture_name env) (api_set_capture_folder env)
    (api_set_capture_description env) (api_start_capture env) (api_stop_capture env)
    (api_disconnect env) (api_close env) (os_process_iter env) (flag_running env).

Definition with_capture_name (f : Trace -> Reply (bool * string)) (env : Env) : Env :=
  mkEnv (config env) (api_Client env) (api_CaptureServices env)
    (api_latest_capture_state env) f (api_capture_folder env)
    (api_set_capture_name env) (api_set_capture_folder env)
    (api_set_capture_description env) (api_start_capture env) (api_stop_capture env)
    (api_disconnect env) (api_close env) (os_process_iter env) (flag_running env).

Definition with_capture_folder (f : Trace -> Reply (bool * string)) (env : Env) : Env :=
  mkEnv (config env) (api_Client env) (api_CaptureServices env)
    (api_latest_capture_state env) (api_capture_name env) f
    (api_set_capture_name env) (api_set_capture_folder env)
    (api_set_capture_description env) (api_start_capture env) (api_stop_capture env)
    (api_disconnect env) (api_close env) (os_process_iter env) (flag_running env).

Definition with_set_capture_name (f : Trace -> string -> Reply bool) (env : Env) : Env :=
  mkEnv (config env) (api_Client env) (api_CaptureServices env)
    (api_latest_capture_state env) (api_capture_name env) (api_capture_folder env)
    f (api_set_capture_folder env)
    (api_set_capture_description env) (api_start_capture env) (api_stop_capture env)
    (api_disconnect env) (api_close env) (os_process_iter env) (flag_running env).

Definition with_start_capture (f : Trace -> Reply bool) (env : Env) : Env :=
  mkEnv (config env) (api_Client env) (api_CaptureServices env)
    (api_latest_capture_state env) (api_capture_name env) (api_capture_folder env)
    (api_set_capture_name env) (api_set_capture_folder env)
    (api_set_capture_description env) f (api_stop_capture env)
    (api_disconnect env) (api_close env) (os_process_iter env) (flag_running env).

Definition with_process_iter (f : Trace -> Reply (list Proc)) (env : Env) : Env :=
  mkEnv (config env) (api_Client env) (api_CaptureServices env)
    (api_latest_capture_state env) (api_capture_name env) (api_capture_folder env)
    (api_set_capture_name env) (api_set_capture_folder env)
    (api_set_capture_description env) (api_start_capture env) (api_stop_capture env)
    (api_disconnect env) (api_close env) f (flag_running env).

Definition boom : Exn := Exception "connection lost".

(** A worker that is connected to the device, with both handles. *)
Definition attached : Worker :=
  mkWorker true (Some (mkClientH true false)) (Some (mkCaptureH true))
           (Some 4242%Z) "Take1" "C:/captures" "".

(** The first start_capture raises, later ones succeed. *)
Definition start_raises_once : Env :=
  with_start_capture
    (fun h => if Nat.eqb (count is_start_capture h) 0 then Raise boom else Ret true)
    healthy.

(** set_capture_name raises. *)
Definition set_name_raises : Env :=
  with_set_capture_name (fun _ _ => Raise boom) healthy.

(** The device cannot be reached: no Client can be built. *)
Definition unreachable : Env := with_Client (fun _ => Raise boom) healthy.

(** The device reports a recording once start_capture has been called. *)
Definition recorder : Env :=
  with_latest_capture_state
    (fun h => if Nat.eqb (count is_start_capture h) 0
              then Ret "ECaptureState.Stopped"
              else Ret "ECaptureState.Started")
    healthy.

(** The device has neither a capture name nor a capture folder set. *)
Definition blank_settings : Env :=
  with_capture_name (fun _ => Ret (true, ""))
    (with_capture_folder (fun _ => Ret (true, "")) healthy).

Definition is_latest_capture_state : Event -> bool :=
  is_call (fun c => match c with latest_capture_state_call => true | _ => false end).

(** The device records, and after its third answer to
    latest_capture_state it stops answering: that call raises and no new
    Client can be built, while its process stays in the process table. *)
Definition dies_while_recording : Env :=
  with_Client
    (fun h => if Nat.eqb (connect_attempts h) 0
              then Ret (mkClientH true false) else Raise boom)
    (with_latest_capture_state
       (fun h => if Nat.ltb (count is_latest_capture_state h) 3
                 then Ret "ECaptureState.Started" else Raise boom)
       healthy).

(** Shogun Live was restarted: the process table shows it with a new pid. *)
Definition restarted : Env :=
  with_process_iter (fun _ => Ret [mkProc 5151 (Some "ShogunLive.exe")]) healthy.

(** Shogun Live was restarted and does not accept a connection yet. *)
Definition restarted_unreachable : Env :=
  with_Client (fun _ => Raise boom) restarted.

(** The vendor API has no set_capture_description. *)
Definition old_api : Worker :=
  mkWorker true (Some (mkClientH true false)) (Some (mkCaptureH false))
           (Some 4242%Z) "Take1" "C:/captures" "".

(** The device rejects the capture-name query; its folder has changed. *)
Definition name_query_fails : Env :=
  with_capture_name (fun _ => Ret (false, ""))
    (with_capture_folder (fun _ => Ret (true, "D:/other")) healthy).

Definition osc_cfg : OSCServer.OscConfig :=
  OSCServer.mkOscConfig "/RecordStartShogunLive" "/RecordStopShogunLive"
    "/SetCaptureName" "/SetCaptureFolder" "/SetCaptureDescription"
    "/ShogunLiveCaptureError" "255.255.255.255".

(** The UDP socket works. *)
Definition osc_healthy : OSCServer.OscEnv :=
  OSCServer.mkOscEnv osc_cfg healthy (fun _ => Ret tt) (fun _ _ _ => Ret tt).

(** Shogun Live is not running. *)
Definition no_process : Env :=
  with_process_iter (fun _ => Ret [mkProc 4 (Some "System")]) healthy.

(** Two Shogun Live processes are listed, and a helper of another name. *)
Definition two_processes : list Proc :=
  [mkProc 4 (Some "System"); mkProc 77 None; mkProc 5151 (Some "Vicon Shogun Live");
   mkProc 6262 (Some "ShogunLive.exe")].

(** The device has moved on to another take and another folder. *)
Definition settings_changed : Env :=
  with_capture_name (fun _ => Ret (true, "Take2"))
    (with_capture_folder (fun _ => Ret (true, "D:/other")) healthy).

(** The device reports the name the worker is about to set. *)
Definition reports_take2 : Env :=
  with_capture_name (fun _ => Ret (true, "Take2")) healthy.

(** stop() is called while the reconnect sequence waits: the flag reads
    True five times and False from then on, and the device is unreachable. *)
Definition stopped_in_backoff : Env :=
  mkEnv cfg
    (fun _ => Raise boom)
    (api_CaptureServices healthy) (api_latest_capture_state healthy)
    (api_capture_name healthy) (api_capture_folder healthy)
    (api_set_capture_name healthy) (api_set_capture_folder healthy)
    (api_set_capture_description healthy) (api_start_capture healthy)
    (api_stop_capture healthy) (api_disconnect healthy) (api_close healthy)
    (os_process_iter healthy)
    (fun h => Nat.ltb (length (filter (fun e => match e with EvRunning _ => true
                                                | _ => false end) h)) 5).

(** The device accepts connections, but its capture_name query raises. *)
Definition name_query_raises : Env :=
  with_capture_name (fun _ => Raise boom) healthy.

(** The device rejects start_capture without raising. *)
Definition start_rejected : Env := with_start_capture (fun _ => Ret false) healthy.

(** A worker that has not connected yet. *)
Definition detached : Worker := init.

(** The UDP client cannot be created. *)
Definition osc_no_socket : OSCServer.OscEnv :=
  OSCServer.mkOscEnv osc_cfg healthy (fun _ => Raise boom) (fun _ _ _ => Ret tt).

(** The same delays with 1752 attempts allowed, and a device that stays
    unreachable. *)
Definition patient : Config :=
  mkConfig 1752 slices_1_15 "Connected" "Disconnected".

Definition long_outage : Env := with_config patient unreachable.

(** 1752 attempts with BASE_RECONNECT_DELAY = 0, so that no slice is
    slept: int(min(0 * 1.5 ** (attempt - 1), 15) * 10) = 0. *)
Definition eager : Config :=
  mkConfig 1752 (fun _ => Ret 0) "Connected" "Disconnected".

(** With that configuration: the connection of the worker still answers
    the liveness probe, start_capture raises, and no new Client can be
    built. *)
Definition start_fails_in_outage : Env :=
  with_config eager (with_start_capture (fun _ => Raise boom) unreachable).

(** The device is silent until 1752 connect attempts have failed; from
    then on it answers, and it rejects start_capture. *)
Definition late_recovery : Env :=
  with_config eager
    (with_Client
       (fun h => if Nat.ltb (connect_attempts h) 1752 then Raise boom
                 else Ret (mkClientH true false))
       (with_latest_capture_state
          (fun h => if Nat.ltb (connect_attempts h) 1752 then Raise boom
                    else Ret "ECaptureState.Stopped")
          start_rejected)).

End Scenarios.

(** * Proofs *)

Import ShogunWorker Observe Shapes.

(** ** Lists of events *)

Lemma count_app p (a b : Trace) : count p (a ++ b) = count p a + count p b.
Proof. unfold count. now rewrite filter_app, length_app. Qed.

Lemma count_none p (d : Trace) :
  forallb (fun e => negb (p e)) d = true -> count p d = 0.
Proof.
  unfold count. induction d as [|e d IH]; simpl; [reflexivity|].
  destruct (p e); simpl; [discriminate | exact IH].
Qed.

Lemma forallb_imp (p q : Event -> bool) (d : Trace) :
  (forall e, p e = true -> q e = true) ->
  forallb p d = true -> forallb q d = true.
Proof.
  intros Hpq. induction d as [|e d IH]; simpl; [reflexivity|].
  intros H. apply andb_true_iff in H as [He Hd].
  now rewrite (Hpq e He), (IH Hd).
Qed.

Lemma existsb_none (p : Event -> bool) (d : Trace) :
  forallb (fun x => negb (p x)) d = true -> existsb p d = false.
Proof.
  induction d as [|x d IH]; simpl; [reflexivity|].
  intros H. apply andb_true_iff in H as [Hx Hd].
  destruct (p x); [discriminate | now apply IH].
Qed.

(** ** Running a method body by cases on what the world answers *)

Ltac scrutinee t :=
  lazymatch t with
  | context [match ?x with _ => _ end] => scrutinee x
  | _ => t
  end.

Ltac step :=
  match goal with
  | |- context [match ?x with _ => _ end] =>
      let y := scrutinee x in destruct y eqn:?; cbn
  end.

Ltac primitives :=
  unfold call_latest_capture_state, call_capture_name, call_capture_folder,
    call_start_capture, call_stop_capture, call_set_capture_name,
    call_set_capture_folder, call_set_capture_description, on_capture,
    process_iter, when, log, signal, sleep_slice, delay_range;
  unfold try_except, bind, get, ask, modify, raise, emit, api, read_running, ret;
  cbn.

Arguments pow_overflows : simpl never.

(** The configuration of the scenarios allows three attempts, and their
    delays can be computed. *)
Ltac three_attempts :=
  intros [|[|[|[|attempt]]]] Hattempt;
  first [ exfalso; cbn in Hattempt; lia
        | split; [vm_compute; reflexivity | eexists; reflexivity] ].
Arguments connect_shogun : simpl never.
Arguments check_shogun : simpl never.
Arguments backoff_wait : simpl never.
Arguments reconnect_loop : simpl never.
Arguments reconnect_shogun : simpl never.
Arguments ensure_connection : simpl never.

(** ** The methods that only look at the device *)

Lemma check_shogun_spec env h w :
  exists b d,
    check_shogun env h w = (Ret b, w, d) /\ forallb probe_event d = true.
Proof.
  unfold check_shogun. primitives. repeat step; eauto.
Qed.

Lemma connect_shogun_spec env h w :
  exists b w' d,
    connect_shogun env h w = (Ret b, w', d)
    /\ connect_trace d
    /\ (b = true -> is_some (capture w') = true /\ is_some (shogun_client w') = true).
Proof.
  unfold connect_trace, connecting, connect_shogun, _test_connection. primitives.
  repeat step; repeat eexists; try reflexivity; try discriminate.
Qed.

(** ** The reconnect sequence *)

Lemma backoff_wait_unfold n env h w :
  backoff_wait (S n) env h w =
  if flag_running env h
  then match backoff_wait n env ((h ++ [EvRunning true]) ++ [EvSleep]) w with
       | (r, w', d) => (r, w', EvRunning true :: EvSleep :: d)
       end
  else (Ret false, w, [EvRunning false]).
Proof.
  change (backoff_wait (S n)) with
    (bind read_running (fun running =>
       if negb running then ret false
       else bind sleep_slice (fun _ => backoff_wait n))).
  primitives.
  destruct (flag_running env h); cbn; [|reflexivity].
  destruct (backoff_wait n env ((h ++ [EvRunning true]) ++ [EvSleep]) w) as [[[b|e] w1] d];
    reflexivity.
Qed.

Lemma backoff_wait_spec n : forall env h w,
  backoff_wait n env h w = (Ret true, w, slices n)
  \/ exists k, k < n /\ backoff_wait n env h w = (Ret false, w, slices k ++ [EvRunning false]).
Proof.
  induction n as [|n IH]; intros env h w.
  - left. reflexivity.
  - rewrite backoff_wait_unfold.
    destruct (flag_running env h).
    + destruct (IH env ((h ++ [EvRunning true]) ++ [EvSleep]) w) as [E | (k & Hk & E)];
        rewrite E.
      * left. reflexivity.
      * right. exists (S k). split; [lia | reflexivity].
    + right. exists 0. split; [lia | reflexivity].
Qed.

Lemma reconnect_loop_zero attempt env h w :
  reconnect_loop 0 attempt env h w = (Ret false, w, [gave_up]).
Proof. reflexivity. Qed.

Lemma reconnect_loop_unfold rest attempt :
  reconnect_loop (S rest) attempt =
  bind read_running (fun running =>
    if negb running then
      bind (log ERROR "could not reconnect to Shogun Live") (fun _ => ret false)
    else
      bind connect_shogun (fun result =>
        if result then
          bind check_shogun (fun recording =>
            bind (signal (recording_signal recording)) (fun _ => ret true))
        else
          bind (float_pow attempt) (fun _ =>
            bind (log DEBUG "attempt failed") (fun _ =>
              bind (delay_range (S attempt)) (fun slices =>
                bind (backoff_wait slices) (fun finished =>
                   if negb finished then ret false
                   else reconnect_loop rest (S attempt))))))).
Proof.
  change (reconnect_loop (S rest) attempt) with
    (bind read_running (fun running =>
      if negb running then
        bind (log ERROR "could not reconnect to Shogun Live") (fun _ => ret false)
      else
        bind connect_shogun (fun result =>
          if result then
            bind check_shogun (fun recording =>
              bind (signal (recording_signal recording)) (fun _ => ret true))
          else
            bind (float_pow (S attempt - 1)) (fun _ =>
              bind (log DEBUG "attempt failed") (fun _ =>
                bind (delay_range (S attempt)) (fun slices =>
                  bind (backoff_wait slices) (fun finished =>
                     if negb finished then ret false
                     else reconnect_loop rest (S attempt)))))))).
  now rewrite Nat.sub_succ, Nat.sub_0_r.
Qed.

Lemma reconnect_loop_shape rest : forall attempt env h w,
  exists r w' d,
    reconnect_loop rest attempt env h w = (r, w', d)
    /\ loop_trace (config env) rest attempt r d
    /\ (r = Ret true -> is_some (capture w') = true).
Proof.
  induction rest as [|rest IH]; intros attempt env h w.
  - rewrite reconnect_loop_zero. repeat eexists; [constructor | discriminate].
  - rewrite reconnect_loop_unfold. unfold float_pow. primitives.
    destruct (flag_running env h); cbn.
    2:{ repeat eexists; [constructor | discriminate]. }
    destruct (connect_shogun_spec env (h ++ [EvRunning true]) w)
      as (bc & wc & dc & Ec & Hdc & Hcap).
    rewrite Ec. destruct bc.
    + destruct (check_shogun_spec env ((h ++ [EvRunning true]) ++ dc) wc)
        as (bk & dk & Ek & Hdk).
      rewrite Ek. cbn.
      exists (Ret true), wc. eexists. split; [reflexivity|]. split.
      * rewrite ?app_nil_r. now apply loop_connected.
      * intros _. now apply Hcap.
    + cbn. destruct (pow_overflows attempt) eqn:Hpow; cbn.
      { exists (Raise OverflowError), wc. eexists. split; [reflexivity|].
        split; [|discriminate]. rewrite ?app_nil_r. now apply loop_overflow. }
      destruct (backoff_slices (config env) (S attempt)) as [n|e] eqn:Hn; cbn.
      2:{ exists (Raise e), wc. eexists. split; [reflexivity|].
          split; [|discriminate]. rewrite ?app_nil_r. now apply loop_no_range. }
      match goal with
      | |- context [backoff_wait n env ?t wc] =>
          destruct (backoff_wait_spec n env t wc) as [Ew | (k & Hk & Ew)]; rewrite Ew
      end; cbn.
      * match goal with
        | |- context [reconnect_loop rest (S attempt) env ?t wc] =>
            destruct (IH (S attempt) env t wc) as (r & w' & d & E & Hd & Hc); rewrite E
        end.
        exists r, w'. eexists. split; [reflexivity|]. split; [|exact Hc].
        rewrite ?app_nil_r. now apply loop_retry.
      * exists (Ret false), wc. eexists. split; [reflexivity|]. split; [|discriminate].
        rewrite ?app_nil_r. now apply (loop_interrupted _ _ _ _ n).
Qed.

(** *** What a history of the loop contains *)

Lemma connect_tail_inert e : connect_tail e = true -> inert e = true.
Proof. destruct e as [l t|s|c r| | |]; try discriminate; try reflexivity.
  destruct c; try discriminate; reflexivity. Qed.

Lemma connect_tail_loop_event e : connect_tail e = true -> loop_event e = true.
Proof.
  destruct e as [l t|s|c r| | |]; try discriminate.
  - unfold loop_event. simpl. intros ->. reflexivity.
  - destruct s; try discriminate; reflexivity.
  - destruct c; try discriminate; reflexivity.
Qed.

Lemma connect_tail_no_recording e :
  connect_tail e = true -> negb (is_recording_signal e) = true.
Proof.
  destruct e as [l t|s|c r| | |]; try discriminate; try reflexivity.
  destruct s; try discriminate; reflexivity.
Qed.

Lemma probe_event_inert e : probe_event e = true -> inert e = true.
Proof.
  destruct e as [l t|s|c r| | |]; try discriminate; try reflexivity.
  destruct c; try discriminate; reflexivity.
Qed.

Lemma probe_event_loop_event e : probe_event e = true -> loop_event e = true.
Proof.
  destruct e as [l t|s|c r| | |]; try discriminate.
  - destruct l; try discriminate; reflexivity.
  - destruct c; try discriminate; reflexivity.
Qed.

Lemma slices_loop_event k : forallb loop_event (slices k) = true.
Proof. induction k; simpl; auto. Qed.

Lemma slices_no_recording k : existsb is_recording_signal (slices k) = false.
Proof. induction k; simpl; auto. Qed.

Lemma slices_no_connect k : count is_Client_new (slices k) = 0.
Proof. induction k; simpl; auto. Qed.

Lemma sleeps_until_connect_inert (p x : Trace) :
  forallb inert p = true ->
  sleeps_until_connect (p ++ x) = sleeps_until_connect x.
Proof.
  induction p as [|e p IH]; simpl; [reflexivity|].
  intros H. apply andb_true_iff in H as [He Hp].
  unfold inert in He. apply andb_true_iff in He as [Hc Hs].
  destruct (is_Client_new e); [discriminate|].
  destruct (is_sleep e); [discriminate|]. now apply IH.
Qed.

Lemma waits_inert (p x : Trace) :
  forallb inert p = true -> waits (p ++ x) = waits x.
Proof.
  induction p as [|e p IH]; simpl; [reflexivity|].
  intros H. apply andb_true_iff in H as [He Hp].
  unfold inert in He. apply andb_true_iff in He as [Hc Hs].
  destruct (is_Client_new e); [discriminate|]. now apply IH.
Qed.

Lemma sleeps_until_connect_slices k (x : Trace) :
  sleeps_until_connect (slices k ++ x) = k + sleeps_until_connect x.
Proof. induction k as [|k IH]; simpl; [reflexivity|]. now rewrite IH. Qed.

Lemma waits_slices k (x : Trace) : waits (slices k ++ x) = waits x.
Proof. induction k as [|k IH]; simpl; auto. Qed.

Lemma waits_length (d : Trace) : length (waits d) = connect_attempts d.
Proof.
  unfold connect_attempts, count.
  induction d as [|e d IH]; simpl; [reflexivity|].
  destruct (is_Client_new e); simpl; now rewrite IH.
Qed.

Lemma slices_checked_weaken (d : Trace) prev :
  slices_checked None d = true -> slices_checked prev d = true.
Proof.
  destruct d as [|e d]; simpl; [reflexivity|].
  destruct (is_sleep e); [discriminate | auto].
Qed.

Lemma slices_checked_app (a b : Trace) prev :
  slices_checked prev a = true -> slices_checked None b = true ->
  slices_checked prev (a ++ b) = true.
Proof.
  revert prev. induction a as [|e a IH]; simpl; intros prev Ha Hb.
  - now apply slices_checked_weaken.
  - apply andb_true_iff in Ha as [He Ha]. rewrite He. simpl. now apply IH.
Qed.

Lemma slices_checked_inert (d : Trace) prev :
  forallb inert d = true -> slices_checked prev d = true.
Proof.
  revert prev. induction d as [|e d IH]; simpl; intros prev H; [reflexivity|].
  apply andb_true_iff in H as [He Hd].
  unfold inert in He. apply andb_true_iff in He as [_ Hs].
  destruct (is_sleep e); [discriminate|]. simpl. now apply IH.
Qed.

Lemma slices_checked_slices k prev : slices_checked prev (slices k) = true.
Proof. revert prev. induction k as [|k IH]; simpl; auto. Qed.

(** A connect attempt in a history: one Client is built, and no slice is
    slept. *)
Lemma connect_trace_facts dc :
  connect_trace dc ->
  forallb loop_event dc = true
  /\ existsb is_recording_signal dc = false
  /\ connect_attempts dc = 1
  /\ slices_checked None dc = true
  /\ (forall x, waits (dc ++ x) = sleeps_until_connect x :: waits x)
  /\ (forall x, sleeps_until_connect (dc ++ x) = 0).
Proof.
  intros (r & rest & -> & Hrest).
  assert (Hin : forallb inert rest = true)
    by (eapply forallb_imp; [apply connect_tail_inert | exact Hrest]).
  refine (conj _ (conj _ (conj _ (conj _ (conj _ _))))).
  - simpl. eapply forallb_imp; [apply connect_tail_loop_event | exact Hrest].
  - simpl. apply existsb_none.
    eapply forallb_imp; [apply connect_tail_no_recording | exact Hrest].
  - unfold connect_attempts. change (connecting :: EvCall Client_new r :: rest)
      with ([connecting; EvCall Client_new r] ++ rest).
    rewrite count_app. rewrite (count_none is_Client_new rest); [reflexivity|].
    eapply forallb_imp; [|exact Hin].
    intros e He. unfold inert in He. now apply andb_true_iff in He as [-> _].
  - simpl. now apply slices_checked_inert.
  - intros x. simpl. now rewrite sleeps_until_connect_inert, waits_inert.
  - intros x. reflexivity.
Qed.

Lemma loop_trace_events cfg rest attempt r d :
  loop_trace cfg rest attempt r d ->
  forallb loop_event d = true /\ reconnect_succeeded d = connected_again r.
Proof.
  unfold reconnect_succeeded.
  induction 1 as [attempt | rest attempt
                 | rest attempt dc dk recording Hdc Hdk
                 | rest attempt dc Hdc Hpow
                 | rest attempt dc e Hdc Hn
                 | rest attempt dc n k Hdc Hn Hk
                 | rest attempt dc n r d Hdc Hpow Hn Hd [IHe IHs]].
  - split; reflexivity.
  - split; reflexivity.
  - destruct (connect_trace_facts dc Hdc) as (He & Hs & _).
    split; simpl.
    + rewrite !forallb_app, He. simpl.
      rewrite (forallb_imp _ _ dk probe_event_loop_event Hdk). reflexivity.
    + rewrite !existsb_app, Hs. simpl. now rewrite orb_true_r.
  - destruct (connect_trace_facts dc Hdc) as (He & Hs & _).
    split; simpl; assumption.
  - destruct (connect_trace_facts dc Hdc) as (He & Hs & _).
    split; simpl.
    + rewrite forallb_app, He. reflexivity.
    + rewrite existsb_app, Hs. reflexivity.
  - destruct (connect_trace_facts dc Hdc) as (He & Hs & _).
    split; simpl.
    + rewrite forallb_app, He. simpl. rewrite forallb_app, slices_loop_event.
      reflexivity.
    + rewrite existsb_app, Hs. simpl. rewrite existsb_app, slices_no_recording.
      reflexivity.
  - destruct (connect_trace_facts dc Hdc) as (He & Hs & _).
    split; simpl.
    + rewrite forallb_app, He. simpl. rewrite forallb_app, slices_loop_event.
      exact IHe.
    + rewrite existsb_app, Hs. simpl. rewrite existsb_app, slices_no_recording.
      exact IHs.
Qed.

Lemma loop_trace_attempts cfg rest attempt r d :
  loop_trace cfg rest attempt r d ->
  connect_attempts d <= rest
  /\ sleeps_until_connect d = 0
  /\ slices_checked None d = true.
Proof.
  induction 1 as [attempt | rest attempt
                 | rest attempt dc dk recording Hdc Hdk
                 | rest attempt dc Hdc Hpow
                 | rest attempt dc e Hdc Hn
                 | rest attempt dc n k Hdc Hn Hk
                 | rest attempt dc n r d Hdc Hpow Hn Hd (IHa & IHu & IHc)].
  - repeat split; cbv; lia.
  - repeat split; cbv; lia.
  - destruct (connect_trace_facts dc Hdc) as (_ & _ & Hc1 & Hc & _ & Hu).
    refine (conj _ (conj _ _)).
    + unfold connect_attempts in *.
      change (EvRunning true :: dc ++ dk ++ [EvSignal (recording_signal recording)])
        with ([EvRunning true] ++ dc ++ dk ++ [EvSignal (recording_signal recording)]).
      rewrite !count_app, Hc1.
      rewrite (count_none is_Client_new dk).
      * cbn. lia.
      * eapply forallb_imp; [|exact Hdk]. intros e He.
        apply probe_event_inert in He. unfold inert in He.
        now apply andb_true_iff in He as [-> _].
    + cbn. apply Hu.
    + cbn. apply slices_checked_weaken. apply slices_checked_app; [exact Hc|].
      apply slices_checked_inert. rewrite forallb_app. cbn.
      now rewrite (forallb_imp _ _ dk probe_event_inert Hdk).
  - destruct (connect_trace_facts dc Hdc) as (_ & _ & Hc1 & Hc & _ & Hu).
    refine (conj _ (conj _ _)).
    + unfold connect_attempts in *.
      change (EvRunning true :: dc) with ([EvRunning true] ++ dc).
      rewrite !count_app, Hc1. cbn. lia.
    + cbn. rewrite <- (app_nil_r dc). apply Hu.
    + cbn. apply slices_checked_weaken. exact Hc.
  - destruct (connect_trace_facts dc Hdc) as (_ & _ & Hc1 & Hc & _ & Hu).
    refine (conj _ (conj _ _)).
    + unfold connect_attempts in *.
      change (EvRunning true :: dc ++ [attempt_failed])
        with ([EvRunning true] ++ dc ++ [attempt_failed]).
      rewrite !count_app, Hc1. cbn. lia.
    + cbn. apply Hu.
    + cbn. apply slices_checked_weaken. apply slices_checked_app; [exact Hc|].
      reflexivity.
  - destruct (connect_trace_facts dc Hdc) as (_ & _ & Hc1 & Hc & _ & Hu).
    refine (conj _ (conj _ _)).
    + unfold connect_attempts in *.
      change (EvRunning true :: dc ++ attempt_failed :: slices k ++ [EvRunning false])
        with ([EvRunning true] ++ dc ++ [attempt_failed] ++ slices k ++ [EvRunning false]).
      rewrite !count_app, Hc1, slices_no_connect. cbn. lia.
    + cbn. apply Hu.
    + cbn. apply slices_checked_weaken. apply slices_checked_app; [exact Hc|].
      cbn. apply slices_checked_app; [apply slices_checked_slices | reflexivity].
  - destruct (connect_trace_facts dc Hdc) as (_ & _ & Hc1 & Hc & _ & Hu).
    refine (conj _ (conj _ _)).
    + unfold connect_attempts in *.
      change (EvRunning true :: dc ++ attempt_failed :: slices n ++ d)
        with ([EvRunning true] ++ dc ++ [attempt_failed] ++ slices n ++ d).
      rewrite !count_app, Hc1, slices_no_connect. cbn. lia.
    + cbn. apply Hu.
    + cbn. apply slices_checked_weaken. apply slices_checked_app; [exact Hc|].
      cbn. apply slices_checked_app; [apply slices_checked_slices | exact IHc].
Qed.

(** Between a failed attempt and the next one the loop sleeps the slices
    of that attempt's delay. *)
Lemma loop_trace_waits cfg rest attempt r d :
  loop_trace cfg rest attempt r d ->
  forall i, S i < length (waits d) ->
            backoff_slices cfg (attempt + i + 1) = Ret (nth i (waits d) 0).
Proof.
  induction 1 as [attempt | rest attempt
                 | rest attempt dc dk recording Hdc Hdk
                 | rest attempt dc Hdc Hpow
                 | rest attempt dc e Hdc Hn
                 | rest attempt dc n k Hdc Hn Hk
                 | rest attempt dc n r d Hdc Hpow Hn Hd IH]; intros i Hi.
  - cbn in Hi. lia.
  - cbn in Hi. lia.
  - destruct (connect_trace_facts dc Hdc) as (_ & _ & _ & _ & Hw & _).
    exfalso. revert Hi. cbn. rewrite Hw. cbn.
    rewrite waits_inert.
    + cbn. lia.
    + eapply forallb_imp; [apply probe_event_inert | exact Hdk].
  - destruct (connect_trace_facts dc Hdc) as (_ & _ & _ & _ & Hw & _).
    exfalso. revert Hi. cbn. rewrite <- (app_nil_r dc), Hw. cbn. lia.
  - destruct (connect_trace_facts dc Hdc) as (_ & _ & _ & _ & Hw & _).
    exfalso. revert Hi. cbn. rewrite Hw. cbn. lia.
  - destruct (connect_trace_facts dc Hdc) as (_ & _ & _ & _ & Hw & _).
    exfalso. revert Hi. cbn. rewrite Hw. cbn. rewrite waits_slices. cbn. lia.
  - destruct (connect_trace_facts dc Hdc) as (_ & _ & _ & _ & Hw & _).
    destruct (loop_trace_attempts _ _ _ _ _ Hd) as (_ & Hu & _).
    revert Hi. cbn. rewrite Hw. cbn.
    rewrite waits_slices, sleeps_until_connect_slices, Hu.
    destruct i as [|i]; cbn; intros Hi.
    + replace (attempt + 0 + 1) with (S attempt) by lia.
      now rewrite Nat.add_0_r.
    + rewrite <- IH by lia. f_equal; lia.
Qed.

(** The loop raises only where a delay cannot be computed. *)
Lemma loop_trace_returns cfg rest attempt r d :
  loop_trace cfg rest attempt r d ->
  (forall n, attempt < n <= attempt + rest ->
     pow_overflows (n - 1) = false /\ exists k, backoff_slices cfg n = Ret k) ->
  exists b, r = Ret b.
Proof.
  induction 1 as [attempt | rest attempt
                 | rest attempt dc dk recording Hdc Hdk
                 | rest attempt dc Hdc Hpow
                 | rest attempt dc e Hdc Hn
                 | rest attempt dc n k Hdc Hn Hk
                 | rest attempt dc n r d Hdc Hpow Hn Hd IH]; intros Hcfg;
    try (eexists; reflexivity).
  - destruct (Hcfg (S attempt)) as [H _]; [lia|].
    rewrite Nat.sub_succ, Nat.sub_0_r in H. congruence.
  - destruct (Hcfg (S attempt)) as [_ [k H]]; [lia|]. congruence.
  - apply IH. intros m Hm. apply Hcfg. lia.
Qed.

Lemma close_client_spec client env h w :
  exists d,
    close_client client env h w = (Ret tt, w, d)
    /\ forallb loop_event d = true
    /\ forallb inert d = true
    /\ existsb is_recording_signal d = false.
Proof.
  unfold close_client. primitives.
  repeat step;
    repeat match goal with u : unit |- _ => destruct u end;
    eexists; repeat split.
Qed.

(** reconnect_shogun opens one reconnect sequence, commands nothing, and
    tells by the recording signal whether it succeeded. *)
Lemma reconnect_shogun_spec env h w :
  exists r w' d,
    reconnect_shogun env h w = (r, w', d)
    /\ forallb calm d = true
    /\ count is_reconnect_start d = 1
    /\ reconnect_succeeded d = connected_again r
    /\ (r = Ret true -> is_some (capture w') = true).
Proof.
  unfold reconnect_shogun. primitives.
  assert (Hclose : exists d,
    match shogun_client w with
    | Some client => close_client client
    | None => fun _ _ w0 => (Ret tt, w0, [])
    end env ((h ++ [EvLog INFO reconnect_banner]) ++ []) w = (Ret tt, w, d)
    /\ forallb loop_event d = true /\ existsb is_recording_signal d = false).
  { destruct (shogun_client w) as [client|].
    - destruct (close_client_spec client env
                  ((h ++ [EvLog INFO reconnect_banner]) ++ []) w)
        as (d & E & H1 & _ & H2); eauto.
    - exists []. auto. }
  destruct Hclose as (dcl & Ecl & Hcl1 & Hcl2). rewrite Ecl. cbn.
  match goal with
  | |- context [reconnect_loop ?n 0 env ?t w] =>
      destruct (reconnect_loop_shape n 0 env t w) as (r & w' & d & E & Hd & Hcap);
        rewrite E
  end.
  destruct (loop_trace_events _ _ _ _ _ Hd) as (He & Hs).
  exists r, w'. eexists. split; [reflexivity|].
  assert (Hall : forallb loop_event (dcl ++ d) = true)
    by (now rewrite forallb_app, Hcl1, He).
  refine (conj _ (conj _ (conj _ Hcap))).
  - cbn. eapply forallb_imp; [|exact Hall].
    intros e H. unfold loop_event in H. unfold calm.
    now apply andb_true_iff in H as [-> _].
  - change (EvLog INFO reconnect_banner :: dcl ++ d)
      with ([EvLog INFO reconnect_banner] ++ dcl ++ d).
    rewrite count_app, (count_none is_reconnect_start (dcl ++ d)); [reflexivity|].
    eapply forallb_imp; [|exact Hall].
    intros e H. unfold loop_event in H. now apply andb_true_iff in H as [_ ->].
  - unfold reconnect_succeeded in *. cbn. now rewrite existsb_app, Hcl2, Hs.
Qed.

Lemma reconnect_shogun_shape env h w :
  exists r w' dcl d h',
    reconnect_shogun env h w = (r, w', EvLog INFO reconnect_banner :: dcl ++ d)
    /\ forallb inert dcl = true
    /\ forallb flag_set dcl = true
    /\ reconnect_loop (MAX_RECONNECT_ATTEMPTS (config env)) 0 env h' w = (r, w', d)
    /\ loop_trace (config env) (MAX_RECONNECT_ATTEMPTS (config env)) 0 r d.
Proof.
  unfold reconnect_shogun. primitives.
  assert (Hclose : exists d,
    match shogun_client w with
    | Some client => close_client client
    | None => fun _ _ w0 => (Ret tt, w0, [])
    end env ((h ++ [EvLog INFO reconnect_banner]) ++ []) w = (Ret tt, w, d)
    /\ forallb inert d = true /\ forallb flag_set d = true).
  { destruct (shogun_client w) as [client|]; [|exists []; auto].
    unfold close_client. primitives.
    repeat step; repeat match goal with u : unit |- _ => destruct u end;
      eexists; repeat split. }
  destruct Hclose as (dcl & Ecl & Hcl & Hfl). rewrite Ecl. cbn.
  match goal with
  | |- context [reconnect_loop ?n 0 env ?t w] =>
      destruct (reconnect_loop_shape n 0 env t w) as (r & w' & d & E & Hd & _);
        rewrite E; exists r, w', dcl, d, t
  end.
  repeat split; assumption.
Qed.

(** Where every delay can be computed, the reconnect sequence returns. *)
Lemma reconnect_shogun_returns env h w :
  delay_computes (config env) ->
  exists b, result_of (reconnect_shogun env h w) = Ret b.
Proof.
  intros Hcfg.
  destruct (reconnect_shogun_shape env h w)
    as (r & w' & dcl & d & h' & E & _ & _ & _ & Hd).
  rewrite E. apply (loop_trace_returns _ _ _ _ _ Hd).
  intros n Hn. apply Hcfg. lia.
Qed.

Lemma reconnect_shogun_spec_ret env h w :
  delay_computes (config env) ->
  exists b w' d,
    reconnect_shogun env h w = (Ret b, w', d)
    /\ forallb calm d = true
    /\ count is_reconnect_start d = 1
    /\ reconnect_succeeded d = b
    /\ (b = true -> is_some (capture w') = true).
Proof.
  intros Hcfg.
  destruct (reconnect_shogun_returns env h w Hcfg) as [b Hb].
  destruct (reconnect_shogun_spec env h w) as (r & w' & d & E & H1 & H2 & H3 & H4).
  rewrite E in Hb. cbn in Hb. subst r.
  exists b, w', d. refine (conj E (conj H1 (conj H2 (conj _ _)))).
  - rewrite H3. now destruct b.
  - intros ->. now apply H4.
Qed.

(** ** The device operations *)

Lemma ensure_connection_spec env h w :
  exists r w' d,
    ensure_connection env h w = (r, w', d)
    /\ forallb calm d = true
    /\ (r = Ret true -> is_some (capture w') = true).
Proof.
  unfold ensure_connection. primitives.
  destruct (shogun_client w) as [client|] eqn:Hcl; cbn.
  2:{ destruct (connect_shogun_spec env (h ++ []) w) as (b & w' & d & E & Hd & Hcap).
      rewrite E. exists (Ret b), w', d. split; [reflexivity|]. split.
      - destruct (connect_trace_facts d Hd) as (He & _).
        eapply forallb_imp; [|exact He]. intros e H. unfold loop_event in H. unfold calm.
        now apply andb_true_iff in H as [-> _].
      - intros [= ->]. now apply Hcap. }
  destruct (capture w) as [cap|] eqn:Hcap; cbn.
  2:{ destruct (connect_shogun_spec env (h ++ []) w) as (b & w' & d & E & Hd & Hc).
      rewrite E. exists (Ret b), w', d. split; [reflexivity|]. split.
      - destruct (connect_trace_facts d Hd) as (He & _).
        eapply forallb_imp; [|exact He]. intros e H. unfold loop_event in H. unfold calm.
        now apply andb_true_iff in H as [-> _].
      - intros [= ->]. now apply Hc. }
  rewrite Hcap. cbn.
  destruct (api_latest_capture_state env ((h ++ []) ++ [])) as [s|e]; cbn.
  - repeat eexists. now rewrite Hcap.
  - match goal with
    | |- context [reconnect_shogun env ?t w] =>
        destruct (reconnect_shogun_spec env t w) as (r & w' & d & E & Hd & _ & _ & Hc);
          rewrite E
    end.
    exists r, w'. eexists. split; [reflexivity|]. split; [|exact Hc].
    cbn. exact Hd.
Qed.

Lemma ensure_connection_returns env h w :
  delay_computes (config env) ->
  exists b, result_of (ensure_connection env h w) = Ret b.
Proof.
  intros Hcfg. unfold ensure_connection. primitives.
  destruct (connect_shogun_spec env (h ++ []) w) as (bc & wc & dc & Ec & _).
  destruct (shogun_client w) as [client|]; cbn; [|rewrite Ec; now exists bc].
  destruct (capture w) as [cap|] eqn:Hcap; cbn; [|rewrite Ec; now exists bc].
  rewrite Hcap. cbn.
  destruct (api_latest_capture_state env ((h ++ []) ++ [])) as [s|e]; cbn.
  - now exists true.
  - match goal with
    | |- context [reconnect_shogun env ?t w] =>
        destruct (reconnect_shogun_returns env t w Hcfg) as [b Hb];
          destruct (reconnect_shogun env t w) as [[r w'] d]
    end.
    cbn in Hb. subst r. now exists b.
Qed.

Lemma ensure_connection_spec_returned env h w :
  (exists b, result_of (ensure_connection env h w) = Ret b) ->
  exists b w' d,
    ensure_connection env h w = (Ret b, w', d)
    /\ forallb calm d = true
    /\ (b = true -> is_some (capture w') = true).
Proof.
  intros [b Hb].
  destruct (ensure_connection_spec env h w) as (r & w' & d & E & H1 & H2).
  rewrite E in Hb. cbn in Hb. subst r.
  exists b, w', d. refine (conj E (conj H1 _)). intros ->. now apply H2.
Qed.

Lemma ensure_connection_spec_ret env h w :
  delay_computes (config env) ->
  exists b w' d,
    ensure_connection env h w = (Ret b, w', d)
    /\ forallb calm d = true
    /\ (b = true -> is_some (capture w') = true).
Proof.
  intros Hcfg. apply ensure_connection_spec_returned.
  now apply ensure_connection_returns.
Qed.

Lemma after_first_app p (a b : Trace) :
  forallb (fun x => negb (p x)) a = true ->
  after_first p (a ++ b) = after_first p b.
Proof.
  induction a as [|x a IH]; simpl; [reflexivity|].
  intros H. apply andb_true_iff in H as [Hx Ha].
  destruct (p x); [discriminate | now apply IH].
Qed.

Lemma first_reply_app p (a b : Trace) :
  forallb (fun x => negb (p x)) a = true ->
  first_reply p (a ++ b) = first_reply p b.
Proof.
  induction a as [|x a IH]; simpl; [reflexivity|].
  intros H. apply andb_true_iff in H as [Hx Ha].
  destruct (p x); [discriminate | now apply IH].
Qed.

Lemma calm_not_call_of op (d : Trace) :
  forallb calm d = true -> forallb (fun x => negb (is_call_of op x)) d = true.
Proof.
  apply forallb_imp. intros e. unfold calm.
  destruct e as [l t|s|c r| | |]; try reflexivity.
  destruct op, c; simpl; try reflexivity; discriminate.
Qed.

Lemma probe_event_calm (d : Trace) :
  forallb probe_event d = true -> forallb calm d = true.
Proof.
  apply forallb_imp. intros e H. apply probe_event_loop_event in H.
  unfold loop_event in H. unfold calm. now apply andb_true_iff in H as [-> _].
Qed.

Lemma filter_none p (d : Trace) :
  forallb (fun x => negb (p x)) d = true -> filter p d = [].
Proof.
  induction d as [|x d IH]; simpl; [reflexivity|].
  intros H. apply andb_true_iff in H as [Hx Hd].
  destruct (p x); [discriminate | now apply IH].
Qed.

(** The end of a run in which the first device call raised: the history
    is split at that call and the counts are read off. *)
Ltac tail_facts p :=
  unfold events_of, result_of; cbn; rewrite <- ?app_assoc; cbn;
  do 2 (rewrite ?first_reply_app, ?after_first_app by assumption; cbn);
  intros _;
  rewrite ?filter_app, ?existsb_app, ?length_app;
  rewrite ?(filter_none p) by assumption; cbn;
  repeat match goal with
         | H : length (filter _ _) = _ |- _ => rewrite H
         | H : existsb _ _ = _ |- _ => rewrite H
         end; cbn;
  repeat split; try reflexivity; intros [?|?]; congruence.

Lemma startcapture_retry env h w :
  delay_computes (config env) ->
  let x := startcapture env h w in
  let tail := after_first is_start_capture (events_of x) in
  raised (first_reply is_start_capture (events_of x)) = true ->
  count is_reconnect_start tail = 1
  /\ count is_start_capture tail = (if reconnect_succeeded tail then 1 else 0)
  /\ (reconnect_succeeded tail = false
      \/ failed (first_reply is_start_capture tail) = true ->
      result_of x = Ret None).
Proof.
  intros Hcfg. cbv zeta. unfold startcapture. primitives.
  destruct (ensure_connection_spec_ret env h w Hcfg) as (b1 & w1 & d1 & E1 & Hd1 & Hc1).
  rewrite E1. cbn.
  pose proof (calm_not_call_of op_startcapture d1 Hd1) as Hn1.
  destruct b1; cbn.
  2:{ unfold events_of; cbn. rewrite first_reply_app by exact Hn1. discriminate. }
  match goal with
  | |- context [check_shogun env ?t w1] =>
      destruct (check_shogun_spec env t w1) as (b2 & d2 & E2 & Hd2); rewrite E2
  end. cbn.
  pose proof (calm_not_call_of op_startcapture d2 (probe_event_calm d2 Hd2)) as Hn2.
  destruct b2; cbn.
  { unfold events_of; cbn. rewrite <- ?app_assoc.
    rewrite !first_reply_app by assumption. discriminate. }
  specialize (Hc1 eq_refl). destruct (capture w1) as [cap|]; [|discriminate]. cbn.
  match goal with
  | |- context [api_start_capture env ?t] => destruct (api_start_capture env t) as [b|e]
  end; cbn.
  { destruct b; unfold events_of; cbn; rewrite <- ?app_assoc;
      rewrite !first_reply_app by assumption; discriminate. }
  match goal with
  | |- context [reconnect_shogun env ?t w1] =>
      destruct (reconnect_shogun_spec_ret env t w1 Hcfg) as (b3 & w3 & d3 & E3 & Hd3 & Hb3 & Hs3 & Hc3);
        rewrite E3
  end. cbn.
  pose proof (calm_not_call_of op_startcapture d3 Hd3) as Hn3.
  unfold reconnect_succeeded, count in *.
  destruct b3; cbn.
  - specialize (Hc3 eq_refl). destruct (capture w3) as [cap3|]; [|discriminate]. cbn.
    match goal with
    | |- context [api_start_capture env ?t] =>
        destruct (api_start_capture env t) as [[|]|e3]
    end; tail_facts is_start_capture.
  - tail_facts is_start_capture.
Qed.

Lemma stopcapture_retry env h w :
  delay_computes (config env) ->
  let x := stopcapture env h w in
  let tail := after_first is_stop_capture (events_of x) in
  raised (first_reply is_stop_capture (events_of x)) = true ->
  count is_reconnect_start tail = 1
  /\ count is_stop_capture tail = (if reconnect_succeeded tail then 1 else 0)
  /\ (reconnect_succeeded tail = false
      \/ failed (first_reply is_stop_capture tail) = true ->
      result_of x = Ret false).
Proof.
  intros Hcfg. cbv zeta. unfold stopcapture. primitives.
  destruct (ensure_connection_spec_ret env h w Hcfg) as (b1 & w1 & d1 & E1 & Hd1 & Hc1).
  rewrite E1. cbn.
  pose proof (calm_not_call_of op_stopcapture d1 Hd1) as Hn1.
  destruct b1; cbn.
  2:{ unfold events_of; cbn. rewrite first_reply_app by exact Hn1. discriminate. }
  match goal with
  | |- context [check_shogun env ?t w1] =>
      destruct (check_shogun_spec env t w1) as (b2 & d2 & E2 & Hd2); rewrite E2
  end. cbn.
  pose proof (calm_not_call_of op_stopcapture d2 (probe_event_calm d2 Hd2)) as Hn2.
  destruct b2; cbn.
  2:{ unfold events_of; cbn. rewrite <- ?app_assoc.
    rewrite !first_reply_app by assumption. discriminate. }
  specialize (Hc1 eq_refl). destruct (capture w1) as [cap|]; [|discriminate]. cbn.
  match goal with
  | |- context [api_stop_capture env ?t 0%Z] =>
      destruct (api_stop_capture env t 0%Z) as [b|e]
  end; cbn.
  { destruct b; unfold events_of; cbn; rewrite <- ?app_assoc;
      rewrite !first_reply_app by assumption; discriminate. }
  match goal with
  | |- context [reconnect_shogun env ?t w1] =>
      destruct (reconnect_shogun_spec_ret env t w1 Hcfg) as (b3 & w3 & d3 & E3 & Hd3 & Hb3 & Hs3 & Hc3);
        rewrite E3
  end. cbn.
  pose proof (calm_not_call_of op_stopcapture d3 Hd3) as Hn3.
  unfold reconnect_succeeded, count in *.
  destruct b3; cbn.
  - specialize (Hc3 eq_refl). destruct (capture w3) as [cap3|]; [|discriminate]. cbn.
    match goal with
    | |- context [api_stop_capture env ?t 0%Z] =>
        destruct (api_stop_capture env t 0%Z) as [[|]|e3]
    end; tail_facts is_stop_capture.
  - tail_facts is_stop_capture.
Qed.


Lemma run_op_events op env h w :
  events_of (run_op op env h w) =
  match op with
  | op_startcapture => events_of (startcapture env h w)
  | op_stopcapture => events_of (stopcapture env h w)
  | op_set_capture_name n => events_of (set_capture_name n env h w)
  | op_set_capture_folder f => events_of (set_capture_folder f env h w)
  | op_set_capture_description s => events_of (set_capture_description s env h w)
  end.
Proof.
  destruct op; unfold run_op, bind, ret, events_of; cbv beta;
    [ destruct (startcapture env h w) as [[[?|?] ?] ?]
    | destruct (stopcapture env h w) as [[[?|?] ?] ?]
    | destruct (set_capture_name name env h w) as [[[?|?] ?] ?]
    | destruct (set_capture_folder folder env h w) as [[[?|?] ?] ?]
    | destruct (set_capture_description description env h w) as [[[?|?] ?] ?] ];
    cbn; now rewrite ?app_nil_r.
Qed.

Lemma run_op_result op env h w :
  result_of (run_op op env h w) =
  match op with
  | op_startcapture => reply_map ResStart (result_of (startcapture env h w))
  | op_stopcapture => reply_map ResBool (result_of (stopcapture env h w))
  | op_set_capture_name n => reply_map ResBool (result_of (set_capture_name n env h w))
  | op_set_capture_folder f => reply_map ResBool (result_of (set_capture_folder f env h w))
  | op_set_capture_description s =>
      reply_map ResBool (result_of (set_capture_description s env h w))
  end.
Proof.
  destruct op; unfold run_op, bind, ret, result_of; cbv beta;
    [ destruct (startcapture env h w) as [[[?|?] ?] ?]
    | destruct (stopcapture env h w) as [[[?|?] ?] ?]
    | destruct (set_capture_name name env h w) as [[[?|?] ?] ?]
    | destruct (set_capture_folder folder env h w) as [[[?|?] ?] ?]
    | destruct (set_capture_description description env h w) as [[[?|?] ?] ?] ];
    reflexivity.
Qed.

(** The three setters neither reconnect nor call again. *)
Lemma set_capture_name_raise name env h w :
  let x := set_capture_name name env h w in
  raised (first_reply (is_call_of (op_set_capture_name name)) (events_of x)) = true ->
  count is_reconnect_start (events_of x) = 0
  /\ count (is_call_of (op_set_capture_name name)) (events_of x) = 1
  /\ result_of x = Ret false.
Proof.
  cbv zeta. unfold set_capture_name. primitives.
  destruct (capture w) as [cap|] eqn:Hcap; cbn; [rewrite ?Hcap; cbn | discriminate].
  match goal with |- context [api_set_capture_name env ?t name] =>
    destruct (api_set_capture_name env t name) as [[|]|e] end; cbn;
    try discriminate; intros _; repeat split.
Qed.

Lemma set_capture_folder_raise folder env h w :
  let x := set_capture_folder folder env h w in
  raised (first_reply (is_call_of (op_set_capture_folder folder)) (events_of x)) = true ->
  count is_reconnect_start (events_of x) = 0
  /\ count (is_call_of (op_set_capture_folder folder)) (events_of x) = 1
  /\ result_of x = Ret false.
Proof.
  cbv zeta. unfold set_capture_folder. primitives.
  destruct (capture w) as [cap|] eqn:Hcap; cbn; [rewrite ?Hcap; cbn | discriminate].
  match goal with |- context [api_set_capture_folder env ?t folder] =>
    destruct (api_set_capture_folder env t folder) as [[|]|e] end; cbn;
    try discriminate; intros _; repeat split.
Qed.

Lemma set_capture_description_raise description env h w :
  let x := set_capture_description description env h w in
  raised (first_reply (is_call_of (op_set_capture_description description))
                      (events_of x)) = true ->
  count is_reconnect_start (events_of x) = 0
  /\ count (is_call_of (op_set_capture_description description)) (events_of x) = 1
  /\ result_of x = Ret false.
Proof.
  cbv zeta. unfold set_capture_description. primitives.
  destruct (capture w) as [cap|] eqn:Hcap; cbn; [|discriminate].
  destruct (has_set_capture_description cap); cbn; [|discriminate].
  match goal with |- context [api_set_capture_description env ?t description] =>
    destruct (api_set_capture_description env t description) as [[|]|e] end; cbn;
    try discriminate; intros _; repeat split.
Qed.

(** C1 (as amended).  In a configuration whose backoff delays can all
    be computed: when the device call of startcapture or of stopcapture
    raises, the operation runs one reconnect sequence; it repeats the
    call once when that sequence succeeds and not at all when it fails,
    and it returns None or False when the sequence fails or the repeated
    call raises or is rejected.  When the device call of
    set_capture_name, set_capture_folder or set_capture_description
    raises, the operation returns False with no reconnect sequence and no
    second call. *)
Theorem device_operation_retry (op : DeviceOp) env h w :
  delay_computes (config env) ->
  let x := run_op op env h w in
  let tail := after_first (is_call_of op) (events_of x) in
  raised (first_reply (is_call_of op) (events_of x)) = true ->
  match op with
  | op_startcapture | op_stopcapture =>
      count is_reconnect_start tail = 1
      /\ count (is_call_of op) tail = (if reconnect_succeeded tail then 1 else 0)
      /\ (reconnect_succeeded tail = false
          \/ failed (first_reply (is_call_of op) tail) = true ->
          failure_indicator (result_of x) = true)
  | _ =>
      count is_reconnect_start (events_of x) = 0
      /\ count (is_call_of op) (events_of x) = 1
      /\ result_of x = Ret (ResBool false)
  end.
Proof.
  intros Hcfg. cbv zeta. rewrite run_op_events, run_op_result.
  destruct op; intros Hraised.
  - destruct (startcapture_retry env h w Hcfg Hraised) as (H1 & H2 & H3).
    refine (conj H1 (conj H2 _)). intros H. now rewrite (H3 H).
  - destruct (stopcapture_retry env h w Hcfg Hraised) as (H1 & H2 & H3).
    refine (conj H1 (conj H2 _)). intros H. now rewrite (H3 H).
  - destruct (set_capture_name_raise name env h w Hraised) as (H1 & H2 & H3).
    now rewrite H3.
  - destruct (set_capture_folder_raise folder env h w Hraised) as (H1 & H2 & H3).
    now rewrite H3.
  - destruct (set_capture_description_raise description env h w Hraised) as (H1 & H2 & H3).
    now rewrite H3.
Qed.

Lemma device_operation_retry_witness :
  let x := run_op op_startcapture Scenarios.start_raises_once [] Scenarios.attached in
  let tail := after_first is_start_capture (events_of x) in
  delay_computes Scenarios.cfg
  /\ count is_reconnect_start tail = 1
  /\ count is_start_capture tail = (if reconnect_succeeded tail then 1 else 0)
  /\ (reconnect_succeeded tail = false
      \/ failed (first_reply is_start_capture tail) = true ->
      failure_indicator (result_of x) = true).
Proof.
  assert (Hcfg : delay_computes Scenarios.cfg) by three_attempts.
  split; [exact Hcfg|].
  apply (device_operation_retry op_startcapture Scenarios.start_raises_once []
           Scenarios.attached Hcfg).
  vm_compute. reflexivity.
Defined.

(** C1 as the specification states it fails for set_capture_name: the
    device call raises, and the operation returns False without a
    reconnect sequence and without a second call. *)
Lemma set_capture_name_does_not_retry :
  let x := run_op (op_set_capture_name "Take2") Scenarios.set_name_raises []
                  Scenarios.attached in
  ~ retry_once_after_reconnect (op_set_capture_name "Take2")
      (result_of x) (events_of x).
Proof.
  cbv zeta. unfold retry_once_after_reconnect. intros H.
  assert (Hr : raised (first_reply (is_call_of (op_set_capture_name "Take2"))
                 (events_of (run_op (op_set_capture_name "Take2")
                    Scenarios.set_name_raises [] Scenarios.attached))) = true)
    by (vm_compute; reflexivity).
  destruct (H Hr) as (H1 & _). vm_compute in H1. discriminate.
Qed.

(** ** The reconnect sequence as a whole *)

Lemma backoff_wait_running n env :
  (forall t, flag_running env t = true) ->
  forall h w, backoff_wait n env h w = (Ret true, w, slices n).
Proof.
  intros Hrun. induction n as [|n IH]; intros h w; [reflexivity|].
  rewrite backoff_wait_unfold, Hrun, IH. reflexivity.
Qed.

(** The largest binary64 number is 2^1024 - 2^971, and a real number
    rounds to infinity from 2^1024 - 2^970 on.  [pow_overflows k] says
    that 1.5^k has reached that bound; the bound lies between 1.5^1750
    and 1.5^1751, a fifth of its value away from either, so that the
    rounding of the power by the C library does not matter. *)
Lemma pow_overflows_exact k :
  pow_overflows k = ((2 ^ 1024 - 2 ^ 970) * 2 ^ Z.of_nat k <=? 3 ^ Z.of_nat k)%Z.
Proof.
  unfold pow_overflows. symmetry.
  assert (H2 : forall j, (0 < 2 ^ Z.of_nat j <= 3 ^ Z.of_nat j)%Z).
  { intros j. split; [apply Z.pow_pos_nonneg; lia|]. apply Z.pow_le_mono_l. lia. }
  assert (Hlo : (3 ^ 1750 < (2 ^ 1024 - 2 ^ 970) * 2 ^ 1750)%Z)
    by (vm_compute; reflexivity).
  assert (Hhi : ((2 ^ 1024 - 2 ^ 970) * 2 ^ 1751 <= 3 ^ 1751)%Z)
    by (vm_compute; discriminate).
  assert (H0 : (0 < 2 ^ 1024 - 2 ^ 970)%Z) by (vm_compute; reflexivity).
  assert (H3 : (0 < 2 ^ 1751)%Z) by (vm_compute; reflexivity).
  set (T := (2 ^ 1024 - 2 ^ 970)%Z) in *.
  destruct (Nat.leb_spec 1751 k) as [Hk|Hk].
  - apply Z.leb_le.
    replace (Z.of_nat k) with (1751 + Z.of_nat (k - 1751))%Z by lia.
    rewrite !Z.pow_add_r by lia.
    specialize (H2 (k - 1751)).
    set (A := (2 ^ 1751)%Z) in *. set (B := (3 ^ 1751)%Z) in *.
    clearbody T A B.
    generalize dependent (2 ^ Z.of_nat (k - 1751))%Z.
    generalize dependent (3 ^ Z.of_nat (k - 1751))%Z. intros y x Hxy. nia.
  - apply Z.leb_gt.
    assert (E2 : (2 ^ 1750 = 2 ^ Z.of_nat k * 2 ^ Z.of_nat (1750 - k))%Z)
      by (rewrite <- Z.pow_add_r by lia; f_equal; lia).
    assert (E3 : (3 ^ 1750 = 3 ^ Z.of_nat k * 3 ^ Z.of_nat (1750 - k))%Z)
      by (rewrite <- Z.pow_add_r by lia; f_equal; lia).
    pose proof (H2 k) as Hk2. pose proof (H2 (1750 - k)) as Hj2.
    rewrite E2, E3 in Hlo. clear E2 E3 Hhi H3 H2.
    clearbody T.
    generalize dependent (2 ^ Z.of_nat (1750 - k))%Z.
    generalize dependent (3 ^ Z.of_nat (1750 - k))%Z.
    generalize dependent (2 ^ Z.of_nat k)%Z.
    generalize dependent (3 ^ Z.of_nat k)%Z.
    intros b a Ha d c Hlo Hc. nia.
Qed.

Lemma pow_overflows_threshold k : pow_overflows k = Nat.leb 1751 k.
Proof. reflexivity. Qed.

(** When no connect attempt succeeds and the delays can be computed, the
    loop gives False, and it uses all its attempts unless it is stopped. *)
Lemma reconnect_loop_failing env :
  (forall t w, result_of (connect_shogun env t w) = Ret false) ->
  forall rest attempt h w,
    (forall n, attempt < n <= attempt + rest ->
       pow_overflows (n - 1) = false
       /\ exists k, backoff_slices (config env) n = Ret k) ->
    result_of (reconnect_loop rest attempt env h w) = Ret false
    /\ ((forall t, flag_running env t = true) ->
        connect_attempts (events_of (reconnect_loop rest attempt env h w)) = rest).
Proof.
  intros Hfail. induction rest as [|rest IH]; intros attempt h w Hcfg.
  - rewrite reconnect_loop_zero. split; reflexivity.
  - rewrite reconnect_loop_unfold. unfold float_pow. primitives.
    destruct (flag_running env h) eqn:Hflag; cbn.
    2:{ split; [reflexivity|]. intros Hrun. rewrite Hrun in Hflag. discriminate. }
    destruct (connect_shogun_spec env (h ++ [EvRunning true]) w)
      as (bc & wc & dc & Ec & Hdc & _).
    pose proof (Hfail (h ++ [EvRunning true]) w) as Hbc.
    rewrite Ec in Hbc. cbn in Hbc. injection Hbc as ->. rewrite Ec. cbn.
    destruct (connect_trace_facts dc Hdc) as (_ & _ & Hc1 & _).
    destruct (Hcfg (S attempt)) as [Hpow [n Hn]]; [lia|].
    rewrite Nat.sub_succ, Nat.sub_0_r in Hpow. rewrite Hpow. cbn. rewrite Hn. cbn.
    match goal with
    | |- context [backoff_wait n env ?t wc] =>
        destruct (backoff_wait_spec n env t wc) as [Ew | (k & Hk & Ew)]
    end.
    + rewrite Ew. cbn.
      match goal with
      | |- context [reconnect_loop rest (S attempt) env ?t wc] =>
          destruct (IH (S attempt) t wc) as [Hr Hc];
            [intros m Hm; apply Hcfg; lia|];
            destruct (reconnect_loop rest (S attempt) env t wc) as [[r' w'] d']
      end.
      unfold result_of, events_of in *. cbn [fst snd] in *.
      split; [exact Hr|]. intros Hrun. specialize (Hc Hrun).
      unfold connect_attempts in *.
      change (EvRunning true :: dc ++ EvLog DEBUG "attempt failed" :: slices n ++ d')
        with ([EvRunning true] ++ dc ++ [EvLog DEBUG "attempt failed"] ++ slices n ++ d').
      rewrite !count_app, Hc1, slices_no_connect, Hc. reflexivity.
    + split; [rewrite Ew; reflexivity|]. intros Hrun.
      match type of Ew with
      | backoff_wait n env ?t wc = _ =>
          rewrite (backoff_wait_running n env Hrun t wc) in Ew
      end.
      discriminate.
Qed.

(** What a reconnect sequence does in every configuration: it makes at
    most MAX_RECONNECT_ATTEMPTS connect attempts; between a failed
    attempt n and attempt n+1 it sleeps the slices of the delay after
    attempt n, and before each slice it reads the running flag.  When
    the delays can be computed and every connect attempt fails, it
    returns False, after exactly MAX_RECONNECT_ATTEMPTS attempts if it is
    not stopped. *)
Lemma reconnect_shogun_bounded env h w :
  let cfg := config env in
  let x := reconnect_shogun env h w in
  connect_attempts (events_of x) <= MAX_RECONNECT_ATTEMPTS cfg
  /\ (forall n, 1 <= n < connect_attempts (events_of x) ->
        backoff_slices cfg n = Ret (nth (n - 1) (waits (events_of x)) 0))
  /\ slices_checked None (events_of x) = true
  /\ (delay_computes cfg ->
      (forall t w0, result_of (connect_shogun env t w0) = Ret false) ->
      result_of x = Ret false
      /\ ((forall t, flag_running env t = true) ->
          connect_attempts (events_of x) = MAX_RECONNECT_ATTEMPTS cfg)).
Proof.
  cbv zeta.
  destruct (reconnect_shogun_shape env h w)
    as (r & w' & dcl & d & h' & E & Hcl & _ & Eloop & Hd).
  rewrite E. unfold events_of, result_of. cbn [fst snd].
  destruct (loop_trace_attempts _ _ _ _ _ Hd) as (Ha & _ & Hc).
  assert (Hcount : connect_attempts (EvLog INFO reconnect_banner :: dcl ++ d)
                   = connect_attempts d).
  { unfold connect_attempts.
    change (EvLog INFO reconnect_banner :: dcl ++ d)
      with ([EvLog INFO reconnect_banner] ++ dcl ++ d).
    rewrite !count_app, (count_none is_Client_new dcl); [reflexivity|].
    eapply forallb_imp; [|exact Hcl]. intros e He. unfold inert in He.
    now apply andb_true_iff in He as [-> _]. }
  assert (Hwaits : waits (EvLog INFO reconnect_banner :: dcl ++ d) = waits d).
  { cbn. now apply waits_inert. }
  rewrite Hcount, Hwaits.
  refine (conj Ha (conj _ (conj _ _))).
  - intros n Hn. rewrite <- waits_length in Hn.
    rewrite <- (loop_trace_waits _ _ _ _ _ Hd (n - 1)) by lia. f_equal. lia.
  - cbn. apply slices_checked_weaken. apply slices_checked_app; [|exact Hc].
    now apply slices_checked_inert.
  - intros Hcfg Hfail.
    destruct (reconnect_loop_failing env Hfail
                (MAX_RECONNECT_ATTEMPTS (config env)) 0 h' w) as [Hr Hn].
    { intros n Hn. apply Hcfg. lia. }
    rewrite Eloop in Hr, Hn. split; [exact Hr | exact Hn].
Qed.

(** With 1752 attempts or more, a device that stays unreachable and a
    worker that is not stopped, the loop does not come to its end: after
    the failed attempt 1752 the power 1.5 ** 1751 raises OverflowError. *)
Lemma reconnect_loop_overflows env :
  (forall t w, result_of (connect_shogun env t w) = Ret false) ->
  (forall t, flag_running env t = true) ->
  (forall n, 1 <= n <= 1751 -> exists k, backoff_slices (config env) n = Ret k) ->
  forall rest attempt h w,
    attempt <= 1751 < attempt + rest ->
    result_of (reconnect_loop rest attempt env h w) = Raise OverflowError
    /\ connect_attempts (events_of (reconnect_loop rest attempt env h w)) + attempt
       = 1752.
Proof.
  intros Hfail Hrun Hslices. induction rest as [|rest IH]; intros attempt h w Hat.
  - lia.
  - rewrite reconnect_loop_unfold. unfold float_pow. primitives.
    rewrite Hrun. cbn.
    destruct (connect_shogun_spec env (h ++ [EvRunning true]) w)
      as (bc & wc & dc & Ec & Hdc & _).
    pose proof (Hfail (h ++ [EvRunning true]) w) as Hbc.
    rewrite Ec in Hbc. cbn in Hbc. injection Hbc as ->. rewrite Ec. cbn.
    destruct (connect_trace_facts dc Hdc) as (_ & _ & Hc1 & _).
    unfold connect_attempts in *.
    destruct (pow_overflows attempt) eqn:Hpow; cbn;
      rewrite pow_overflows_threshold in Hpow.
    + apply Nat.leb_le in Hpow. split; [reflexivity|].
      unfold events_of. cbn [snd]. rewrite app_nil_r.
      unfold count in Hc1. lia.
    + apply Nat.leb_gt in Hpow.
      destruct (Hslices (S attempt)) as [n Hn]; [lia|]. rewrite Hn. cbn.
      rewrite backoff_wait_running by exact Hrun. cbn.
      match goal with
      | |- context [reconnect_loop rest (S attempt) env ?t wc] =>
          destruct (IH (S attempt) t wc) as [Hr Hc]; [lia|];
            destruct (reconnect_loop rest (S attempt) env t wc) as [[r' w'] d']
      end.
      unfold result_of, events_of in *. cbn [fst snd] in *.
      split; [exact Hr|].
      change (EvRunning true :: dc ++ EvLog DEBUG "attempt failed" :: slices n ++ d')
        with ([EvRunning true] ++ dc ++ [EvLog DEBUG "attempt failed"] ++ slices n ++ d').
      rewrite !count_app, Hc1, slices_no_connect.
      cbn [count filter is_Client_new is_call length]. lia.
Qed.

Lemma reconnect_shogun_overflows env h w :
  1752 <= MAX_RECONNECT_ATTEMPTS (config env) ->
  (forall t w0, result_of (connect_shogun env t w0) = Ret false) ->
  (forall t, flag_running env t = true) ->
  (forall n, 1 <= n <= 1751 -> exists k, backoff_slices (config env) n = Ret k) ->
  result_of (reconnect_shogun env h w) = Raise OverflowError
  /\ connect_attempts (events_of (reconnect_shogun env h w)) = 1752.
Proof.
  intros Hmax Hfail Hrun Hslices.
  destruct (reconnect_shogun_shape env h w)
    as (r & w' & dcl & d & h' & E & Hcl & _ & Eloop & _).
  rewrite E. unfold events_of, result_of. cbn [fst snd].
  destruct (reconnect_loop_overflows env Hfail Hrun Hslices
              (MAX_RECONNECT_ATTEMPTS (config env)) 0 h' w) as [Hr Hn]; [lia|].
  rewrite Eloop in Hr, Hn. unfold events_of, result_of in Hr, Hn. cbn [fst snd] in Hr, Hn.
  split; [exact Hr|].
  unfold connect_attempts in *.
  change (EvLog INFO reconnect_banner :: dcl ++ d)
    with ([EvLog INFO reconnect_banner] ++ dcl ++ d).
  rewrite !count_app, (count_none is_Client_new dcl).
  - cbn [count filter is_reconnect_start is_Client_new is_call length app]. lia.
  - eapply forallb_imp; [|exact Hcl]. intros e He. unfold inert in He.
    now apply andb_true_iff in He as [-> _].
Qed.

(** C3 at the failing input: 1752 attempts are allowed, the device stays
    unreachable and the worker is not stopped.  The sequence makes its
    1752 connect attempts, and then, instead of returning False, it
    raises OverflowError: the delay after the last attempt is computed
    although no attempt follows, and its power 1.5 ** 1751 is out of the
    range of a float before min() can cap the delay. *)
Theorem reconnect_overflows_at_attempt_1752 :
  let x := reconnect_shogun Scenarios.long_outage [] Scenarios.attached in
  MAX_RECONNECT_ATTEMPTS (config Scenarios.long_outage) = 1752
  /\ connect_attempts (events_of x) = 1752
  /\ result_of x = Raise OverflowError.
Proof.
  cbv zeta. split; [reflexivity|].
  destruct (reconnect_shogun_overflows Scenarios.long_outage [] Scenarios.attached)
    as [Hr Hn].
  - apply Nat.le_refl.
  - intros t w0. reflexivity.
  - intros t. reflexivity.
  - intros n _. eexists. reflexivity.
  - split; assumption.
Qed.

(** With one attempt fewer the same outage ends as the documentation of
    reconnect_shogun says, in False. *)
Lemma reconnect_gives_up_below_1752 env h w :
  MAX_RECONNECT_ATTEMPTS (config env) <= 1751 ->
  (forall n, exists k, backoff_slices (config env) n = Ret k) ->
  (forall t w0, result_of (connect_shogun env t w0) = Ret false) ->
  result_of (reconnect_shogun env h w) = Ret false.
Proof.
  intros Hmax Hslices Hfail.
  apply (reconnect_shogun_bounded env h w); [|exact Hfail].
  intros n Hn. split; [|apply Hslices].
  rewrite pow_overflows_threshold. apply Nat.leb_gt. lia.
Qed.

(** In such an outage startcapture and stopcapture do not come back
    with None or False when their device call has raised: the
    OverflowError of the reconnect sequence leaves the operation. *)
Lemma start_stop_raise_in_long_outage (op : DeviceOp) env h w :
  setter_value op = None ->
  1752 <= MAX_RECONNECT_ATTEMPTS (config env) ->
  (forall t w0, result_of (connect_shogun env t w0) = Ret false) ->
  (forall t, flag_running env t = true) ->
  (forall n, 1 <= n <= 1751 -> exists k, backoff_slices (config env) n = Ret k) ->
  raised (first_reply (is_call_of op) (events_of (run_op op env h w))) = true ->
  result_of (run_op op env h w) = Raise OverflowError.
Proof.
  intros Hop Hmax Hfail Hrun Hslices.
  rewrite run_op_events, run_op_result.
  assert (Hover : forall t v,
            exists w3 d3, reconnect_shogun env t v = (Raise OverflowError, w3, d3)).
  { intros t v.
    destruct (reconnect_shogun_overflows env t v Hmax Hfail Hrun Hslices) as [Hr _].
    destruct (reconnect_shogun env t v) as [[r3 w3] d3]. cbn in Hr. subst r3. eauto. }
  destruct op; try discriminate.
  - unfold startcapture. primitives.
    destruct (ensure_connection_spec env h w) as (r1 & w1 & d1 & E1 & Hd1 & Hc1).
    rewrite E1. cbn.
    pose proof (calm_not_call_of op_startcapture d1 Hd1) as Hn1.
    destruct r1 as [[|]|e1]; cbn.
    + match goal with
      | |- context [check_shogun env ?t w1] =>
          destruct (check_shogun_spec env t w1) as (b2 & d2 & E2 & Hd2); rewrite E2
      end. cbn.
      pose proof (calm_not_call_of op_startcapture d2 (probe_event_calm d2 Hd2)) as Hn2.
      destruct b2; cbn.
      { unfold events_of; cbn. rewrite <- ?app_assoc.
        rewrite !first_reply_app by assumption. discriminate. }
      specialize (Hc1 eq_refl). destruct (capture w1) as [cap|]; [|discriminate]. cbn.
      match goal with
      | |- context [api_start_capture env ?t] => destruct (api_start_capture env t) as [b|e]
      end; cbn.
      { destruct b; unfold events_of; cbn; rewrite <- ?app_assoc;
          rewrite !first_reply_app by assumption; discriminate. }
      match goal with
      | |- context [reconnect_shogun env ?t w1] =>
          destruct (Hover t w1) as (w3 & d3 & ->)
      end.
      reflexivity.
    + unfold events_of; cbn. rewrite first_reply_app by exact Hn1. discriminate.
    + match goal with
      | |- context [reconnect_shogun env ?t w1] =>
          destruct (Hover t w1) as (w3 & d3 & ->)
      end.
      reflexivity.
  - unfold stopcapture. primitives.
    destruct (ensure_connection_spec env h w) as (r1 & w1 & d1 & E1 & Hd1 & Hc1).
    rewrite E1. cbn.
    pose proof (calm_not_call_of op_stopcapture d1 Hd1) as Hn1.
    destruct r1 as [[|]|e1]; cbn.
    + match goal with
      | |- context [check_shogun env ?t w1] =>
          destruct (check_shogun_spec env t w1) as (b2 & d2 & E2 & Hd2); rewrite E2
      end. cbn.
      pose proof (calm_not_call_of op_stopcapture d2 (probe_event_calm d2 Hd2)) as Hn2.
      destruct b2; cbn.
      2:{ unfold events_of; cbn. rewrite <- ?app_assoc.
        rewrite !first_reply_app by assumption. discriminate. }
      specialize (Hc1 eq_refl). destruct (capture w1) as [cap|]; [|discriminate]. cbn.
      match goal with
      | |- context [api_stop_capture env ?t 0%Z] =>
          destruct (api_stop_capture env t 0%Z) as [b|e]
      end; cbn.
      { destruct b; unfold events_of; cbn; rewrite <- ?app_assoc;
          rewrite !first_reply_app by assumption; discriminate. }
      match goal with
      | |- context [reconnect_shogun env ?t w1] =>
          destruct (Hover t w1) as (w3 & d3 & ->)
      end.
      reflexivity.
    + unfold events_of; cbn. rewrite first_reply_app by exact Hn1. discriminate.
    + match goal with
      | |- context [reconnect_shogun env ?t w1] =>
          destruct (Hover t w1) as (w3 & d3 & ->)
      end.
      reflexivity.
Qed.

(** For one: start_capture raises, the reconnect sequence makes its 1752
    attempts, and startcapture raises OverflowError. *)
Lemma start_raises_in_outage :
  let x := run_op op_startcapture Scenarios.start_fails_in_outage [] Scenarios.attached in
  raised (first_reply is_start_capture (events_of x)) = true
  /\ reconnect_succeeded (after_first is_start_capture (events_of x)) = false
  /\ result_of x = Raise OverflowError.
Proof.
  cbv zeta.
  assert (Hraised : raised (first_reply is_start_capture
                      (events_of (run_op op_startcapture Scenarios.start_fails_in_outage []
                                    Scenarios.attached))) = true).
  { vm_compute. reflexivity. }
  split; [exact Hraised|]. split; [vm_compute; reflexivity|].
  apply (start_stop_raise_in_long_outage op_startcapture Scenarios.start_fails_in_outage []
           Scenarios.attached eq_refl).
  - apply Nat.le_refl.
  - intros t w0. reflexivity.
  - intros t. reflexivity.
  - intros n _. eexists. reflexivity.
  - exact Hraised.
Qed.

(** ** Start and stop when there is nothing to do *)

Lemma ensure_connection_calm env h w b w1 d1 :
  ensure_connection env h w = (Ret b, w1, d1) ->
  forallb calm d1 = true /\ (b = true -> is_some (capture w1) = true).
Proof.
  intros E. destruct (ensure_connection_spec env h w) as (r & w' & d' & E' & Hd & Hc).
  rewrite E in E'. injection E' as <- <- <-. split; [exact Hd|].
  intros ->. now apply Hc.
Qed.

Lemma check_shogun_calm env h w b w2 d2 :
  check_shogun env h w = (Ret b, w2, d2) ->
  forallb calm d2 = true /\ w2 = w.
Proof.
  intros E. destruct (check_shogun_spec env h w) as (b' & d' & E' & Hd).
  rewrite E in E'. injection E' as <- <- <-. split; [|reflexivity].
  now apply probe_event_calm.
Qed.

Lemma calm_count_command (d : Trace) :
  forallb calm d = true -> count is_command d = 0.
Proof. intros H. now apply count_none. Qed.

(** A start that reports "started" has called start_capture once. *)
Lemma startcapture_started env h w w' d :
  startcapture env h w = (Ret (Some started), w', d) ->
  count is_start_capture d = 1.
Proof.
  unfold startcapture. primitives.
  destruct (ensure_connection_spec env h w) as (r1 & w1 & d1 & E1 & Hd1 & Hc1).
  rewrite E1. cbn.
  pose proof (calm_not_call_of op_startcapture d1 Hd1) as Hn1.
  destruct r1 as [[|]|e1]; cbn; [| discriminate |].
  - match goal with
    | |- context [check_shogun env ?t w1] =>
        destruct (check_shogun_spec env t w1) as (b2 & d2 & E2 & Hd2); rewrite E2
    end. cbn.
    pose proof (calm_not_call_of op_startcapture d2 (probe_event_calm d2 Hd2)) as Hn2.
    destruct b2; cbn; [discriminate|].
    specialize (Hc1 eq_refl). destruct (capture w1) as [cap|]; [|discriminate]. cbn.
    match goal with
    | |- context [api_start_capture env ?t] => destruct (api_start_capture env t) as [[|]|e]
    end; cbn.
    + intros [= <- <-]. unfold count. rewrite <- ?app_assoc.
      rewrite !filter_app, !length_app.
      rewrite !(filter_none is_start_capture) by assumption. reflexivity.
    + discriminate.
    + match goal with
      | |- context [reconnect_shogun env ?t w1] =>
          destruct (reconnect_shogun env t w1) as [[r3 w3] d3]
      end.
      destruct r3 as [[|]|e3]; cbn;
        try (destruct (capture w3); cbn;
             try match goal with
                 | |- context [api_start_capture env ?t] =>
                     destruct (api_start_capture env t) as [[|]|e4]; cbn
                 end);
        discriminate.
  - match goal with
    | |- context [reconnect_shogun env ?t w1] =>
        destruct (reconnect_shogun env t w1) as [[r3 w3] d3]
    end.
    destruct r3 as [[|]|e3]; cbn;
      try (destruct (capture w3); cbn;
           try match goal with
               | |- context [api_start_capture env ?t] =>
                   destruct (api_start_capture env t) as [[|]|e4]; cbn
               end);
      discriminate.
Qed.

(** C4.  When startcapture finds the device recording, after it has
    ensured the connection, it returns the "already recording" outcome
    and calls start_capture not once.  So when this invocation follows
    one that started the recording, the two together have called
    start_capture exactly once. *)
Theorem startcapture_already_recording env h w :
  finds_recording env h w true ->
  let x := startcapture env h w in
  result_of x = Ret (Some already_recording)
  /\ count is_start_capture (events_of x) = 0
  /\ (forall h0 w0 d0,
        startcapture env h0 w0 = (Ret (Some started), w, d0) ->
        h = h0 ++ d0 ->
        count is_start_capture (d0 ++ events_of x) = 1).
Proof.
  intros (w1 & d1 & w2 & d2 & E1 & E2). cbv zeta.
  destruct (ensure_connection_calm _ _ _ _ _ _ E1) as [Hd1 _].
  destruct (check_shogun_calm _ _ _ _ _ _ E2) as [Hd2 _].
  assert (E : startcapture env h w
              = (Ret (Some already_recording), w2,
                 d1 ++ d2 ++ [EvLog INFO "recording already active"])).
  { unfold startcapture. primitives. rewrite E1. cbn. rewrite E2. reflexivity. }
  rewrite E. unfold result_of, events_of. cbn [fst snd].
  assert (H0 : count is_start_capture
                 (d1 ++ d2 ++ [EvLog INFO "recording already active"]) = 0).
  { rewrite !count_app.
    rewrite !(count_none is_start_capture)
      by (apply (calm_not_call_of op_startcapture); assumption).
    reflexivity. }
  refine (conj eq_refl (conj H0 _)).
  intros h0 w0 d0 Efirst _.
  now rewrite count_app, H0, (startcapture_started _ _ _ _ _ Efirst).
Qed.

(** C5.  When stopcapture finds the device not recording, after it has
    ensured the connection, it returns True and makes no stop_capture
    call, nor any other call that changes the device. *)
Theorem stopcapture_when_idle env h w :
  finds_recording env h w false ->
  let x := stopcapture env h w in
  result_of x = Ret true
  /\ count is_stop_capture (events_of x) = 0
  /\ count is_command (events_of x) = 0.
Proof.
  intros (w1 & d1 & w2 & d2 & E1 & E2). cbv zeta.
  destruct (ensure_connection_calm _ _ _ _ _ _ E1) as [Hd1 _].
  destruct (check_shogun_calm _ _ _ _ _ _ E2) as [Hd2 _].
  assert (E : stopcapture env h w
              = (Ret true, w2, d1 ++ d2 ++ [EvLog INFO "recording not active"])).
  { unfold stopcapture. primitives. rewrite E1. cbn. rewrite E2. reflexivity. }
  rewrite E. unfold result_of, events_of. cbn [fst snd].
  refine (conj eq_refl (conj _ _)).
  - rewrite !count_app.
    rewrite !(count_none is_stop_capture)
      by (apply (calm_not_call_of op_stopcapture); assumption).
    reflexivity.
  - rewrite !count_app, !calm_count_command by assumption. reflexivity.
Qed.
Lemma startcapture_already_recording_witness :
  let first := startcapture Scenarios.recorder [] Scenarios.attached in
  let second := startcapture Scenarios.recorder (events_of first) (fields_of first) in
  result_of first = Ret (Some started)
  /\ result_of second = Ret (Some already_recording)
  /\ count is_start_capture (events_of second) = 0
  /\ count is_start_capture (events_of first ++ events_of second) = 1.
Proof.
  cbv zeta.
  pose proof (startcapture_already_recording Scenarios.recorder
                (events_of (startcapture Scenarios.recorder [] Scenarios.attached))
                (fields_of (startcapture Scenarios.recorder [] Scenarios.attached))) as H.
  cbv zeta in H.
  destruct H as (Hr & H0 & Htwo).
  { do 4 eexists. split; vm_compute; reflexivity. }
  refine (conj _ (conj Hr (conj H0 _))).
  - vm_compute. reflexivity.
  - apply (Htwo [] Scenarios.attached); vm_compute; reflexivity.
Defined.

Lemma stopcapture_when_idle_witness :
  let x := stopcapture Scenarios.healthy [] Scenarios.attached in
  result_of x = Ret true
  /\ count is_stop_capture (events_of x) = 0
  /\ count is_command (events_of x) = 0.
Proof.
  apply (stopcapture_when_idle Scenarios.healthy [] Scenarios.attached).
  do 4 eexists. split; vm_compute; reflexivity.
Defined.

(** ** Connecting *)

(** C7 (as amended).  On a successful connect the supervisor stores the
    capture name and the capture folder the device reports, each when its
    query reports success, and it emits one capture-folder change event
    with the reported folder when the folder query reports success,
    whether the folder is empty or not, and none otherwise. *)
Theorem connect_shogun_snapshot env h w r1 n r2 f w' d :
  (forall t, api_capture_name env t = Ret (r1, n)) ->
  (forall t, api_capture_folder env t = Ret (r2, f)) ->
  connect_shogun env h w = (Ret true, w', d) ->
  _current_capture_name w' = (if r1 then n else _current_capture_name w)
  /\ _current_capture_folder w' = (if r2 then f else _current_capture_folder w)
  /\ filter is_capture_folder_changed d
     = (if r2 then [EvSignal (capture_folder_changed_signal f)] else []).
Proof.
  intros Hn Hf.
  unfold connect_shogun, _test_connection. primitives.
  repeat first
    [ rewrite Hn; cbn
    | rewrite Hf; cbn
    | match goal with
      | |- context [match ?o env ?t with Ret _ => _ | Raise _ => _ end] =>
          destruct (o env t) as [?|?]; cbn
      end
    | match goal with
      | |- context [if ?b then _ else _] => is_var b; destruct b; cbn
      end ];
  try discriminate; intros [= <- <-]; repeat split.
Qed.

Lemma connect_shogun_snapshot_witness :
  let x := connect_shogun Scenarios.blank_settings [] init in
  _current_capture_name (fields_of x) = ""
  /\ _current_capture_folder (fields_of x) = ""
  /\ filter is_capture_folder_changed (events_of x)
     = [EvSignal (capture_folder_changed_signal "")].
Proof.
  apply (connect_shogun_snapshot Scenarios.blank_settings [] init
           true "" true "" _ _ (fun _ => eq_refl) (fun _ => eq_refl)).
  vm_compute. reflexivity.
Defined.

(** C7 as the specification states it fails: the device reports an empty
    capture folder, and the connect emits a capture-folder change event
    for it. *)
Lemma connect_announces_empty_folder :
  ~ snapshot_announces_nonempty Scenarios.blank_settings [] init.
Proof.
  unfold snapshot_announces_nonempty. intros H.
  destruct (H _ _ "" "" eq_refl (fun _ => eq_refl) (fun _ => eq_refl))
    as (_ & _ & _ & Hfolder).
  vm_compute in Hfolder. discriminate.
Qed.
(** ** The monitoring loop *)

(** C8.  When the process check finds Shogun Live under a pid other than
    the recorded one while the worker is connected, it clears [connected]
    and reports the process as present; the same batch of checks then
    runs one connect attempt at once and takes its result for the
    connection state. *)
Theorem pid_change_reconnects env h w procs pid old :
  os_process_iter env h = Ret procs ->
  first_shogun procs = Some pid ->
  connected w = true ->
  shogun_pid w = Some old ->
  old <> 0%Z ->
  old <> pid ->
  let w1 := set_connected false (set_shogun_pid (Some pid) w) in
  let pre := [EvProcessIter; restart_detected] in
  check_shogun_process env h w = (Ret true, w1, pre)
  /\ connected w1 = false
  /\ exists c w2 d,
       connect_shogun env (h ++ pre ++ [found_connecting]) w1 = (Ret c, w2, d)
       /\ poll_tick env h w
          = (Ret tt, set_connected c w2,
             pre ++ found_connecting :: d
               ++ [EvSignal (connection_signal c);
                   EvSignal (status_signal
                     (if c then STATUS_CONNECTED (config env)
                      else STATUS_DISCONNECTED (config env)))])
       /\ connect_attempts (events_of (poll_tick env h w)) = 1.
Proof.
  intros Hps Hfirst Hconn Hpid Hold Hneq. cbv zeta.
  assert (Hcheck : check_shogun_process env h w
                   = (Ret true, set_connected false (set_shogun_pid (Some pid) w),
                      [EvProcessIter; restart_detected])).
  { unfold check_shogun_process. primitives. rewrite Hps. cbn.
    rewrite Hfirst. cbn. rewrite Hpid. cbn.
    assert (Ht : truthy_int old = true)
      by (unfold truthy_int; destruct (Z.eqb_spec old 0); [contradiction | reflexivity]).
    assert (He : Z.eqb pid old = false)
      by (destruct (Z.eqb_spec pid old); [congruence | reflexivity]).
    rewrite Ht, He. reflexivity. }
  refine (conj Hcheck (conj eq_refl _)).
  destruct (connect_shogun_spec env (h ++ [EvProcessIter; restart_detected]
                                       ++ [found_connecting])
              (set_connected false (set_shogun_pid (Some pid) w)))
    as (c & w2 & d & Ec & Hd & _).
  exists c, w2, d. split; [exact Ec|].
  assert (Etick : poll_tick env h w
          = (Ret tt, set_connected c w2,
             [EvProcessIter; restart_detected] ++ found_connecting :: d
               ++ [EvSignal (connection_signal c);
                   EvSignal (status_signal
                     (if c then STATUS_CONNECTED (config env)
                      else STATUS_DISCONNECTED (config env)))])).
  { unfold poll_tick.
    unfold bind at 1. rewrite Hcheck.
    primitives.
    match goal with
    | |- context [connect_shogun env ?t ?v] =>
        replace t with (h ++ [EvProcessIter; restart_detected] ++ [found_connecting])
          by (cbn; now rewrite <- ?app_assoc, ?app_nil_r)
    end.
    rewrite Ec. cbn. rewrite ?app_nil_r, <- ?app_assoc. destruct c; reflexivity. }
  split; [exact Etick|].
  rewrite Etick. unfold events_of, connect_attempts. cbn [snd].
  destruct (connect_trace_facts d Hd) as (_ & _ & Hn & _).
  unfold connect_attempts in Hn.
  change (found_connecting :: d ++ ?x) with ([found_connecting] ++ d ++ x).
  rewrite !count_app, Hn. reflexivity.
Qed.

Lemma pid_change_reconnects_witness :
  let x := poll_tick Scenarios.restarted [] Scenarios.attached in
  shogun_pid (fields_of x) = Some 5151%Z
  /\ connected (fields_of x) = true
  /\ connect_attempts (events_of x) = 1.
Proof.
  cbv zeta.
  destruct (pid_change_reconnects Scenarios.restarted [] Scenarios.attached
              [mkProc 5151 (Some "ShogunLive.exe")] 5151%Z 4242%Z
              eq_refl eq_refl eq_refl eq_refl)
    as (_ & _ & c & w2 & d & _ & _ & Hn); [lia | lia |].
  refine (conj _ (conj _ Hn)); vm_compute; reflexivity.
Defined.

(** ** The setters and the settings poll *)

(** C9.  With a capture handle that has no set_capture_description,
    the operation finds that out by hasattr: it makes no device call and
    catches no exception, logs one warning, leaves the fields as they are
    and returns False. *)
Theorem set_capture_description_unsupported description env h w cap :
  capture w = Some cap ->
  has_set_capture_description cap = false ->
  set_capture_description description env h w = (Ret false, w, [unsupported]).
Proof.
  intros Hcap Hhas. unfold set_capture_description. primitives.
  rewrite Hcap. cbn. rewrite Hhas. reflexivity.
Qed.

Lemma set_capture_description_unsupported_witness :
  set_capture_description "a note" Scenarios.healthy [] Scenarios.old_api
  = (Ret false, Scenarios.old_api, [unsupported]).
Proof.
  apply (set_capture_description_unsupported "a note" Scenarios.healthy []
           Scenarios.old_api (mkCaptureH false)); reflexivity.
Defined.

(** set_capture_description never raises. *)
Lemma set_capture_description_total description env h w :
  exists b, result_of (set_capture_description description env h w) = Ret b.
Proof.
  unfold set_capture_description. primitives. repeat step; eauto.
Qed.

(** C10.  When capture_name() reports failure in the settings poll, the
    poll ends there: it does not ask for the capture folder, emits no
    capture-folder change event and leaves the cached folder (and every
    other field) as it was. *)
Theorem settings_poll_stops_at_failed_name env h w cap name :
  capture w = Some cap ->
  api_capture_name env h = Ret (false, name) ->
  let x := _check_capture_settings_change env h w in
  result_of x = Ret tt
  /\ fields_of x = w
  /\ count is_capture_folder_call (events_of x) = 0
  /\ count is_capture_folder_changed (events_of x) = 0.
Proof.
  intros Hcap Hname. cbv zeta.
  unfold _check_capture_settings_change. primitives.
  rewrite Hcap. cbn. rewrite Hcap. cbn. rewrite !app_nil_r, Hname. cbn.
  repeat split.
Qed.

Lemma settings_poll_stops_at_failed_name_witness :
  let x := _check_capture_settings_change Scenarios.name_query_fails []
             Scenarios.attached in
  result_of x = Ret tt
  /\ fields_of x = Scenarios.attached
  /\ count is_capture_folder_call (events_of x) = 0
  /\ count is_capture_folder_changed (events_of x) = 0.
Proof.
  apply (settings_poll_stops_at_failed_name Scenarios.name_query_fails []
           Scenarios.attached (mkCaptureH true) ""); reflexivity.
Defined.

(** The branch for a vanished process does announce the end of the
    recording: the batch clears [connected] and emits connection(False)
    and recording(False). *)
Lemma process_gone_clears_recording env h w :
  os_process_iter env h = Ret [] ->
  connected w = true ->
  poll_tick env h w
  = (Ret tt, set_connected false w,
     [EvProcessIter; EvLog WARNING "Shogun Live not found, connection lost";
      EvSignal (connection_signal false); EvSignal (recording_signal false);
      EvSignal (status_signal (STATUS_DISCONNECTED (config env)))]).
Proof.
  intros Hps Hconn. unfold poll_tick, check_shogun_process. primitives.
  rewrite Hps. cbn. rewrite Hconn. reflexivity.
Qed.

(** The same gap after a restart of Shogun Live: the process check
    clears [connected] without a signal, the connect attempt fails, and
    the batch emits connection(False) but no recording(False). *)
Lemma pid_change_leaves_recording_shown :
  let shown := [EvSignal (connection_signal true); EvSignal (recording_signal true)] in
  let x := poll_tick Scenarios.restarted_unreachable shown Scenarios.attached in
  connected (fields_of x) = false
  /\ shown_connected (shown ++ events_of x) None = Some false
  /\ shown_recording (shown ++ events_of x) None = Some true.
Proof. vm_compute. repeat split. Qed.

(** C2 at the failing input: the worker connects, sees the recording,
    and in the next batch of checks the liveness probe and the reconnect
    sequence fail.  The batch emits connection(False) but no
    recording(False): the receivers are left with recording shown as
    True and the connection shown as False. *)
Theorem liveness_failure_leaves_recording_shown :
  let x := run 2 Scenarios.dies_while_recording [] init in
  result_of x = Ret tt
  /\ connected (fields_of x) = false
  /\ shown_connected (events_of x) None = Some false
  /\ shown_recording (events_of x) None = Some true.
Proof. vm_compute. repeat split. Qed.
(** ** The dispatcher *)

Ltac osc_primitives :=
  unfold OSCServer.missing_argument, OSCServer.no_connection,
    OSCServer.send_osc_message;
  unfold OSCServer.htry, OSCServer.hbind, OSCServer.hget, OSCServer.hask,
    OSCServer.hemit, OSCServer.hret;
  cbn.

(** C6.  A handler whose argument is required and that is called with no
    argument returns normally, emits one notification, which reports the
    error, and at most one outbound error message; it starts no
    supervisor operation, so no device call is made, and it leaves the
    worker as it is. *)
Theorem missing_argument_reported (c : OSCServer.Recognized) env h s address :
  OSCServer.requires_argument c = true ->
  let x := OSCServer.handler_of c address [] env h s in
  OSCServer.handled x = Ret tt
  /\ (exists text,
        filter OSCServer.is_message_signal (OSCServer.osc_events x)
        = [OSCServer.OMessageSignal address ("Error: " ++ text)%string])
  /\ length (filter OSCServer.is_send (OSCServer.osc_events x)) <= 1
  /\ filter OSCServer.is_thread (OSCServer.osc_events x) = []
  /\ filter OSCServer.is_device_call (OSCServer.osc_events x) = []
  /\ OSCServer.shogun_worker (OSCServer.server_of x) = OSCServer.shogun_worker s.
Proof.
  intros Hreq. cbv zeta.
  destruct c; try discriminate; cbn [OSCServer.handler_of];
    unfold OSCServer.set_capture_name, OSCServer.set_capture_folder,
      OSCServer.set_capture_description;
    osc_primitives;
    (destruct (OSCServer.osc_client s) as [cl|]; cbn;
     [| match goal with
        | |- context [OSCServer.udp_client_new env ?t] =>
            destruct (OSCServer.udp_client_new env t) as [u|e]; cbn
        end ]);
    try match goal with
        | |- context [OSCServer.udp_send_message env ?t ?a ?v] =>
            destruct (OSCServer.udp_send_message env t a v) as [u'|e']; cbn
        end;
    (split; [reflexivity|]); (split; [eexists; reflexivity|]);
    repeat split; auto.
Qed.

Lemma missing_argument_reported_witness :
  let x := OSCServer.set_capture_name "/SetCaptureName" [] Scenarios.osc_healthy []
             (OSCServer.serving Scenarios.attached) in
  OSCServer.handled x = Ret tt
  /\ length (filter OSCServer.is_message_signal (OSCServer.osc_events x)) = 1
  /\ filter OSCServer.is_thread (OSCServer.osc_events x) = []
  /\ filter OSCServer.is_device_call (OSCServer.osc_events x) = [].
Proof.
  cbv zeta.
  destruct (missing_argument_reported OSCServer.cmd_set_capture_name
              Scenarios.osc_healthy [] (OSCServer.serving Scenarios.attached)
              "/SetCaptureName" eq_refl)
    as (Hr & (text & Hm) & _ & Ht & Hd & _).
  cbn [OSCServer.handler_of] in *.
  refine (conj Hr (conj _ (conj Ht Hd))).
  now rewrite Hm.
Defined.

(** With its argument and a connected worker the same handler does start
    the supervisor operation, which calls the device. *)
Lemma set_capture_name_with_argument :
  let x := OSCServer.set_capture_name "/SetCaptureName" [OSCServer.mkArg "Take2"]
             Scenarios.osc_healthy [] (OSCServer.serving Scenarios.attached) in
  filter OSCServer.is_thread (OSCServer.osc_events x)
  = [OSCServer.OThread (OSCServer.task_set_capture_name "Take2")]
  /\ filter OSCServer.is_device_call (OSCServer.osc_events x)
     = [OSCServer.OWorker (EvCall (set_capture_name_call "Take2") (Ret (VBool true)))].
Proof. vm_compute. split; reflexivity. Qed.
(** * Further properties of the two modules *)

(** ** Bodies that never raise, and fields they never write *)

Lemma never_raises_ret P {A} (a : A) : never_raises P (ret a).
Proof. intros env h w _. now exists a. Qed.

Lemma never_raises_bind P {A B} (m : M A) (k : A -> M B) :
  never_raises P m -> (forall a, never_raises P (k a)) -> never_raises P (bind m k).
Proof.
  intros Hm Hk env h w HP. unfold bind, result_of in *.
  destruct (Hm env h w HP) as [a Ha].
  destruct (m env h w) as [[r w1] d1]. cbn in Ha. subst r.
  destruct (Hk a env (h ++ d1) w1 HP) as [b Hb].
  destruct (k a env (h ++ d1) w1) as [[r2 w2] d2]. cbn in *. eauto.
Qed.

Lemma never_raises_try P {A} (m : M A) (handler : Exn -> M A) :
  (forall e, never_raises P (handler e)) -> never_raises P (try_except m handler).
Proof.
  intros Hh env h w HP. unfold try_except, result_of in *.
  destruct (m env h w) as [[[a|e] w1] d1]; cbn; [eauto|].
  destruct (Hh e env (h ++ d1) w1 HP) as [b Hb].
  destruct (handler e env (h ++ d1) w1) as [[r2 w2] d2]. cbn in *. eauto.
Qed.

Lemma never_raises_get P : never_raises P get.
Proof. intros env h w _. now exists w. Qed.

Lemma never_raises_ask P : never_raises P ask.
Proof. intros env h w _. now exists env. Qed.

Lemma never_raises_modify P f : never_raises P (modify f).
Proof. intros env h w _. now exists tt. Qed.

Lemma never_raises_emit P e : never_raises P (emit e).
Proof. intros env h w _. now exists tt. Qed.

Lemma never_raises_read_running P : never_raises P read_running.
Proof. intros env h w _. now eexists. Qed.

Lemma keeps_ret {A B} (f : Worker -> B) (a : A) : keeps f (ret a).
Proof. intros env h w. reflexivity. Qed.

Lemma keeps_raise {A B} (f : Worker -> B) e : keeps f (@raise A e).
Proof. intros env h w. reflexivity. Qed.

Lemma keeps_bind {A B C} (f : Worker -> C) (m : M A) (k : A -> M B) :
  keeps f m -> (forall a, keeps f (k a)) -> keeps f (bind m k).
Proof.
  intros Hm Hk env h w. unfold bind, fields_of in *.
  specialize (Hm env h w).
  destruct (m env h w) as [[[a|e] w1] d1]; cbn in *; [|exact Hm].
  specialize (Hk a env (h ++ d1) w1).
  destruct (k a env (h ++ d1) w1) as [[r2 w2] d2]. cbn in *. congruence.
Qed.

Lemma keeps_try {A C} (f : Worker -> C) (m : M A) (handler : Exn -> M A) :
  keeps f m -> (forall e, keeps f (handler e)) -> keeps f (try_except m handler).
Proof.
  intros Hm Hh env h w. unfold try_except, fields_of in *.
  specialize (Hm env h w).
  destruct (m env h w) as [[[a|e] w1] d1]; cbn in *; [exact Hm|].
  specialize (Hh e env (h ++ d1) w1).
  destruct (handler e env (h ++ d1) w1) as [[r2 w2] d2]. cbn in *. congruence.
Qed.

Lemma keeps_get {C} (f : Worker -> C) : keeps f get.
Proof. intros env h w. reflexivity. Qed.

Lemma keeps_ask {C} (f : Worker -> C) : keeps f ask.
Proof. intros env h w. reflexivity. Qed.

Lemma keeps_emit {C} (f : Worker -> C) e : keeps f (emit e).
Proof. intros env h w. reflexivity. Qed.

Lemma keeps_read_running {C} (f : Worker -> C) : keeps f read_running.
Proof. intros env h w. reflexivity. Qed.

Lemma keeps_api {A C} (f : Worker -> C) c (o : Env -> Trace -> Reply A) show :
  keeps f (api c o show).
Proof. intros env h w. reflexivity. Qed.

Lemma keeps_delay_range {C} (f : Worker -> C) attempt : keeps f (delay_range attempt).
Proof. intros env h w. reflexivity. Qed.

Lemma keeps_modify {C} (f : Worker -> C) g :
  (forall w, f (g w) = f w) -> keeps f (modify g).
Proof. intros H env h w. apply H. Qed.

(** A body is taken apart along its binds, tries and branches. *)
Ltac methods :=
  unfold call_latest_capture_state, call_capture_name, call_capture_folder,
    call_start_capture, call_stop_capture, call_set_capture_name,
    call_set_capture_folder, call_set_capture_description, on_capture,
    when, log, signal, sleep_slice, float_pow.

Ltac never_raises_tac :=
  methods;
  repeat first
    [ solve [eauto]
    | apply never_raises_ret | apply never_raises_get | apply never_raises_ask
    | apply never_raises_modify | apply never_raises_emit
    | apply never_raises_read_running
    | apply never_raises_try; intro
    | apply never_raises_bind; [|intro]
    | match goal with
      | |- never_raises _ (if ?b then _ else _) => destruct b
      | |- never_raises _ (match ?x with _ => _ end) => destruct x
      end ].

Ltac keeps_tac :=
  methods;
  repeat first
    [ solve [eauto]
    | apply keeps_ret | apply keeps_raise | apply keeps_get | apply keeps_ask
    | apply keeps_emit | apply keeps_read_running | apply keeps_api
    | apply keeps_delay_range
    | apply keeps_modify; intros []; reflexivity
    | apply keeps_try; [|intro]
    | apply keeps_bind; [|intro]
    | match goal with
      | |- keeps _ (if ?b then _ else _) => destruct b
      | |- keeps _ (match ?x with _ => _ end) => destruct x
      end ].

Lemma connect_shogun_never_raises P : never_raises P connect_shogun.
Proof. unfold connect_shogun. never_raises_tac. Qed.

Lemma check_shogun_never_raises P : never_raises P check_shogun.
Proof. unfold check_shogun. never_raises_tac. Qed.

Lemma reconnect_shogun_never_raises : never_raises computable reconnect_shogun.
Proof. intros env h w Hcfg. now apply reconnect_shogun_returns. Qed.

Lemma ensure_connection_never_raises : never_raises computable ensure_connection.
Proof. intros env h w Hcfg. now apply ensure_connection_returns. Qed.

Lemma connect_shogun_keeps : keeps connection_state connect_shogun.
Proof. unfold connect_shogun, _test_connection. keeps_tac. Qed.

Lemma check_shogun_keeps : keeps connection_state check_shogun.
Proof. unfold check_shogun. keeps_tac. Qed.

Lemma backoff_wait_keeps n : keeps connection_state (backoff_wait n).
Proof.
  induction n as [|n IH]; [apply keeps_ret|].
  change (backoff_wait (S n)) with
    (bind read_running (fun running =>
       if negb running then ret false
       else bind sleep_slice (fun _ => backoff_wait n))).
  keeps_tac.
Qed.

Lemma reconnect_loop_keeps rest : forall attempt,
  keeps connection_state (reconnect_loop rest attempt).
Proof.
  pose proof connect_shogun_keeps. pose proof check_shogun_keeps.
  induction rest as [|rest IH]; intros attempt.
  - change (reconnect_loop 0 attempt) with
      (bind (log ERROR "could not reconnect to Shogun Live") (fun _ => ret false)).
    keeps_tac.
  - pose proof backoff_wait_keeps.
    rewrite reconnect_loop_unfold. keeps_tac.
Qed.

Lemma reconnect_shogun_keeps : keeps connection_state reconnect_shogun.
Proof.
  pose proof reconnect_loop_keeps.
  unfold reconnect_shogun, close_client. keeps_tac.
Qed.

Lemma ensure_connection_keeps : keeps connection_state ensure_connection.
Proof.
  pose proof connect_shogun_keeps. pose proof reconnect_shogun_keeps.
  unfold ensure_connection. keeps_tac.
Qed.

Lemma run_op_never_raises (op : DeviceOp) : never_raises computable (run_op op).
Proof.
  pose proof ensure_connection_never_raises. pose proof reconnect_shogun_never_raises.
  destruct op; unfold run_op, startcapture, stopcapture, set_capture_name,
    set_capture_folder, set_capture_description; never_raises_tac.
Qed.

(** X1.  In a configuration whose backoff delays can all be computed,
    none of the five device operations raises: whatever the device does,
    startcapture, stopcapture and the three setters return to their
    caller. *)
Theorem device_operations_never_raise (op : DeviceOp) env h w :
  delay_computes (config env) ->
  exists r, result_of (run_op op env h w) = Ret r.
Proof. apply run_op_never_raises. Qed.

Lemma device_operations_never_raise_witness :
  delay_computes Scenarios.cfg
  /\ exists r,
       result_of (run_op op_startcapture Scenarios.start_raises_once
                    [] Scenarios.attached) = Ret r.
Proof.
  assert (Hcfg : delay_computes Scenarios.cfg) by three_attempts.
  split; [exact Hcfg|].
  apply (device_operations_never_raise op_startcapture Scenarios.start_raises_once
           [] Scenarios.attached Hcfg).
Defined.

Lemma run_op_keeps (op : DeviceOp) : keeps connection_state (run_op op).
Proof.
  pose proof ensure_connection_keeps. pose proof reconnect_shogun_keeps.
  pose proof check_shogun_keeps.
  destruct op; unfold run_op, startcapture, stopcapture, set_capture_name,
    set_capture_folder, set_capture_description; keeps_tac.
Qed.

(** X2.  None of the five device operations writes self.connected or
    self.shogun_pid, even when it has reconnected: the connection state
    the dispatcher reads is written by the monitoring loop alone. *)
Theorem device_operations_keep_connection_state (op : DeviceOp) env h w :
  connected (fields_of (run_op op env h w)) = connected w
  /\ shogun_pid (fields_of (run_op op env h w)) = shogun_pid w.
Proof.
  pose proof (run_op_keeps op env h w) as H. unfold connection_state in H.
  injection H as H1 H2. now split.
Qed.
(** ** What the methods leave in the history *)

Lemma emits_ret {A} P (a : A) : emits P (ret a).
Proof. intros env h w. reflexivity. Qed.

Lemma emits_raise {A} P e : emits P (@raise A e).
Proof. intros env h w. reflexivity. Qed.

Lemma emits_get P : emits P get.
Proof. intros env h w. reflexivity. Qed.

Lemma emits_ask P : emits P ask.
Proof. intros env h w. reflexivity. Qed.

Lemma emits_modify P f : emits P (modify f).
Proof. intros env h w. reflexivity. Qed.

Lemma emits_emit (P : Event -> bool) e : P e = true -> emits P (emit e).
Proof. intros H env h w. cbn. now rewrite H. Qed.

Lemma emits_api {A} (P : Event -> bool) c (o : Env -> Trace -> Reply A) show :
  (forall r, P (EvCall c r) = true) -> emits P (api c o show).
Proof. intros H env h w. cbn. now rewrite H. Qed.

Lemma emits_read_running (P : Event -> bool) :
  (forall b, P (EvRunning b) = true) -> emits P read_running.
Proof. intros H env h w. cbn. now rewrite H. Qed.

Lemma emits_process_iter (P : Event -> bool) :
  P EvProcessIter = true -> emits P process_iter.
Proof. intros H env h w. cbn. now rewrite H. Qed.

Lemma emits_bind {A B} P (m : M A) (k : A -> M B) :
  emits P m -> (forall a, emits P (k a)) -> emits P (bind m k).
Proof.
  intros Hm Hk env h w. unfold bind, events_of in *.
  specialize (Hm env h w).
  destruct (m env h w) as [[[a|e] w1] d1]; cbn in *; [|exact Hm].
  specialize (Hk a env (h ++ d1) w1).
  destruct (k a env (h ++ d1) w1) as [[r2 w2] d2]. cbn in *.
  now rewrite forallb_app, Hm, Hk.
Qed.

Lemma emits_try {A} P (m : M A) (handler : Exn -> M A) :
  emits P m -> (forall e, emits P (handler e)) -> emits P (try_except m handler).
Proof.
  intros Hm Hh env h w. unfold try_except, events_of in *.
  specialize (Hm env h w).
  destruct (m env h w) as [[[a|e] w1] d1]; cbn in *; [exact Hm|].
  specialize (Hh e env (h ++ d1) w1).
  destruct (handler e env (h ++ d1) w1) as [[r2 w2] d2]. cbn in *.
  now rewrite forallb_app, Hm, Hh.
Qed.

Lemma emits_weaken {A} (P Q : Event -> bool) (m : M A) :
  (forall e, P e = true -> Q e = true) -> emits P m -> emits Q m.
Proof. intros H Hm env h w. eapply forallb_imp; [exact H | apply Hm]. Qed.

Ltac emits_tac :=
  methods;
  repeat first
    [ solve [eauto]
    | apply emits_ret | apply emits_raise | apply emits_get | apply emits_ask
    | apply emits_modify
    | apply emits_emit; reflexivity
    | apply emits_api; intro; reflexivity
    | apply emits_read_running; intro; reflexivity
    | apply emits_process_iter; reflexivity
    | apply emits_try; [|intro]
    | apply emits_bind; [|intro]
    | match goal with
      | |- emits _ (if ?b then _ else _) => destruct b
      | |- emits _ (match ?x with _ => _ end) => destruct x
      end ].

Lemma connect_shogun_emits : emits supervision_event connect_shogun.
Proof. unfold connect_shogun, _test_connection. emits_tac. Qed.

Lemma check_shogun_emits : emits supervision_event check_shogun.
Proof. unfold check_shogun. emits_tac. Qed.

Lemma backoff_wait_emits n : emits supervision_event (backoff_wait n).
Proof.
  induction n as [|n IH]; [apply emits_ret|].
  change (backoff_wait (S n)) with
    (bind read_running (fun running =>
       if negb running then ret false
       else bind sleep_slice (fun _ => backoff_wait n))).
  emits_tac.
Qed.

Lemma reconnect_loop_emits rest : forall attempt,
  emits supervision_event (reconnect_loop rest attempt).
Proof.
  pose proof connect_shogun_emits. pose proof check_shogun_emits.
  pose proof backoff_wait_emits.
  induction rest as [|rest IH]; intros attempt.
  - change (reconnect_loop 0 attempt) with
      (bind (log ERROR "could not reconnect to Shogun Live") (fun _ => ret false)).
    emits_tac.
  - rewrite reconnect_loop_unfold. emits_tac.
Qed.

Lemma reconnect_shogun_emits : emits supervision_event reconnect_shogun.
Proof.
  pose proof reconnect_loop_emits.
  unfold reconnect_shogun, close_client. emits_tac.
Qed.

Lemma ensure_connection_emits : emits supervision_event ensure_connection.
Proof.
  pose proof connect_shogun_emits. pose proof reconnect_shogun_emits.
  unfold ensure_connection. emits_tac.
Qed.

Lemma supervision_is_tick e : supervision_event e = true -> tick_event e = true.
Proof. unfold tick_event. now intros ->. Qed.

Lemma poll_tick_emits : emits tick_event poll_tick.
Proof.
  pose proof (emits_weaken _ _ _ supervision_is_tick connect_shogun_emits).
  pose proof (emits_weaken _ _ _ supervision_is_tick ensure_connection_emits).
  pose proof (emits_weaken _ _ _ supervision_is_tick check_shogun_emits).
  unfold poll_tick, check_shogun_process, _check_capture_settings_change.
  emits_tac.
Qed.

Lemma check_shogun_process_never_raises P : never_raises P check_shogun_process.
Proof. unfold check_shogun_process. never_raises_tac. Qed.

Lemma settings_poll_never_raises P : never_raises P _check_capture_settings_change.
Proof. unfold _check_capture_settings_change. never_raises_tac. Qed.

Lemma poll_tick_never_raises : never_raises computable poll_tick.
Proof.
  pose proof (connect_shogun_never_raises computable).
  pose proof ensure_connection_never_raises.
  pose proof (check_shogun_never_raises computable).
  pose proof (check_shogun_process_never_raises computable).
  pose proof (settings_poll_never_raises computable).
  unfold poll_tick. never_raises_tac.
Qed.

(** X3.  A batch of checks of the monitoring loop only observes the
    device: whatever the device and the process table do, it makes no
    start, stop or set call and emits no capture-error signal. *)
Theorem poll_tick_only_observes env h w :
  count is_command (events_of (poll_tick env h w)) = 0
  /\ count is_capture_error (events_of (poll_tick env h w)) = 0.
Proof.
  pose proof (poll_tick_emits env h w) as H.
  split; apply count_none; (eapply forallb_imp; [|exact H]);
    intros [l t|[]|[]| | |]; try discriminate; reflexivity.
Qed.
(** ** The monitoring loop, one batch of checks *)

Lemma bind_cases {A B} (m : M A) (k : A -> M B) env h w :
  (exists a w1 d1,
     m env h w = (Ret a, w1, d1)
     /\ bind m k env h w
        = (result_of (k a env (h ++ d1) w1), fields_of (k a env (h ++ d1) w1),
           d1 ++ events_of (k a env (h ++ d1) w1)))
  \/ (exists e w1 d1,
        m env h w = (Raise e, w1, d1) /\ bind m k env h w = (Raise e, w1, d1)).
Proof.
  unfold bind. destruct (m env h w) as [[[a|e] w1] d1].
  - left. exists a, w1, d1. split; [reflexivity|].
    destruct (k a env (h ++ d1) w1) as [[r2 w2] d2]. reflexivity.
  - right. exists e, w1, d1. now split.
Qed.

Lemma run_bind {A B} (m : M A) (k : A -> M B) env h w :
  never_raises any_env m ->
  exists a w1 d1,
    m env h w = (Ret a, w1, d1)
    /\ bind m k env h w
       = (result_of (k a env (h ++ d1) w1), fields_of (k a env (h ++ d1) w1),
          d1 ++ events_of (k a env (h ++ d1) w1)).
Proof.
  intros Hm. destruct (Hm env h w I) as [a Ha].
  destruct (bind_cases m k env h w)
    as [(a' & w1 & d1 & Em & E) | (e & w1 & d1 & Em & E)].
  - now exists a', w1, d1.
  - rewrite Em in Ha. discriminate.
Qed.

Lemma bind_returns {A B} (m : M A) (k : A -> M B) env h w b :
  result_of (bind m k env h w) = Ret b ->
  exists a w1 d1,
    m env h w = (Ret a, w1, d1)
    /\ result_of (k a env (h ++ d1) w1) = Ret b
    /\ bind m k env h w
       = (Ret b, fields_of (k a env (h ++ d1) w1),
          d1 ++ events_of (k a env (h ++ d1) w1)).
Proof.
  intros Hr.
  destruct (bind_cases m k env h w)
    as [(a & w1 & d1 & Em & E) | (e & w1 & d1 & Em & E)]; rewrite E in Hr.
  - exists a, w1, d1. cbn in Hr. now rewrite E, Hr.
  - discriminate.
Qed.

Lemma supervision_no_status e : supervision_event e = true -> no_status e = true.
Proof. destruct e as [l t|[]|c r| | |]; try discriminate; reflexivity. Qed.

(** X4.  A batch of checks that returns ends with the one status signal
    it emits, which carries STATUS_CONNECTED when self.connected is set
    at the end of the batch and STATUS_DISCONNECTED otherwise; and in a
    configuration whose backoff delays can all be computed, every batch
    returns. *)
Theorem poll_tick_reports_status env h w :
  let x := poll_tick env h w in
  (delay_computes (config env) -> result_of x = Ret tt)
  /\ (result_of x = Ret tt ->
      exists d,
        events_of x
        = d ++ [EvSignal (status_signal
                  (if connected (fields_of x) then STATUS_CONNECTED (config env)
                   else STATUS_DISCONNECTED (config env)))]
        /\ count is_status_signal d = 0).
Proof.
  cbv zeta. split.
  { intros Hcfg. destruct (poll_tick_never_raises env h w Hcfg) as [[] H]. exact H. }
  pose proof (emits_weaken _ _ _ supervision_no_status connect_shogun_emits) as E1.
  pose proof (emits_weaken _ _ _ supervision_no_status ensure_connection_emits) as E2.
  pose proof (emits_weaken _ _ _ supervision_no_status check_shogun_emits) as E3.
  assert (Echeck : emits no_status check_shogun_process)
    by (unfold check_shogun_process; emits_tac).
  unfold poll_tick.
  match goal with
  | |- context [bind check_shogun_process (fun r => bind (@?body r) ?tail)] =>
      assert (Hbody : forall r, emits no_status (body r))
  end.
  { intros r. unfold _check_capture_settings_change. emits_tac. }
  cbv beta in Hbody.
  intros Hret.
  destruct (bind_returns _ _ _ _ _ _ Hret) as (r & w1 & d1 & Em & Hret1 & ->).
  destruct (bind_returns _ _ _ _ _ _ Hret1) as ([] & w2 & d2 & Eb & _ & ->).
  pose proof (Echeck env h w) as Hd1. rewrite Em in Hd1.
  pose proof (Hbody r env (h ++ d1) w1) as Hd2. rewrite Eb in Hd2.
  cbn in Hd1, Hd2. unfold result_of, fields_of, events_of. cbn.
  exists (d1 ++ d2). split; [now rewrite <- app_assoc|].
  apply count_none. change (forallb no_status (d1 ++ d2) = true).
  now rewrite forallb_app, Hd1, Hd2.
Qed.

Lemma poll_tick_reports_status_witness :
  let x := poll_tick Scenarios.dies_while_recording [] Scenarios.attached in
  result_of x = Ret tt
  /\ exists d,
       events_of x = d ++ [EvSignal (status_signal "Connected")]
       /\ count is_status_signal d = 0.
Proof.
  cbv zeta.
  destruct (poll_tick_reports_status Scenarios.dies_while_recording []
              Scenarios.attached) as [Hreturns Hstatus].
  assert (Hr : result_of (poll_tick Scenarios.dies_while_recording []
                            Scenarios.attached) = Ret tt)
    by (apply Hreturns; three_attempts).
  split; [exact Hr|]. exact (Hstatus Hr).
Defined.

(** X5.  While the process table shows no Shogun Live (or cannot be
    read), a batch of checks makes no device call at all.  It leaves the
    worker disconnected and the recorded pid as it was, and it announces
    connection(False) and recording(False) only if the worker was
    connected, then the disconnected status. *)
Theorem poll_tick_without_process env h w :
  process_absent env h ->
  let x := poll_tick env h w in
  count is_api_call (events_of x) = 0
  /\ connected (fields_of x) = false
  /\ shogun_pid (fields_of x) = shogun_pid w
  /\ filter is_signal (events_of x)
     = (if connected w
        then [EvSignal (connection_signal false); EvSignal (recording_signal false)]
        else [])
       ++ [EvSignal (status_signal (STATUS_DISCONNECTED (config env)))].
Proof.
  unfold process_absent. intros Habs. cbv zeta.
  unfold poll_tick, check_shogun_process. primitives.
  destruct (os_process_iter env h) as [procs|e]; cbn.
  - rewrite Habs. cbn. destruct (connected w) eqn:Hc; cbn; rewrite ?Hc; repeat split.
  - destruct (connected w) eqn:Hc; cbn; rewrite ?Hc; repeat split.
Qed.

Lemma poll_tick_without_process_witness :
  let x := poll_tick Scenarios.no_process [] Scenarios.attached in
  count is_api_call (events_of x) = 0
  /\ connected (fields_of x) = false
  /\ shogun_pid (fields_of x) = Some 4242%Z
  /\ filter is_signal (events_of x)
     = [EvSignal (connection_signal false); EvSignal (recording_signal false);
        EvSignal (status_signal "Disconnected")].
Proof.
  apply (poll_tick_without_process Scenarios.no_process [] Scenarios.attached).
  reflexivity.
Defined.

Lemma first_shogun_split procs pid :
  first_shogun procs = Some pid ->
  exists pre proc post,
    procs = pre ++ proc :: post
    /\ proc_pid proc = pid
    /\ is_shogun_name (proc_name proc) = true
    /\ forallb (fun p => negb (is_shogun_name (proc_name p))) pre = true.
Proof.
  induction procs as [|p procs IH]; cbn; [discriminate|].
  destruct (is_shogun_name (proc_name p)) eqn:Hp.
  - intros [= <-]. exists [], p, procs. now repeat split.
  - intros H. destruct (IH H) as (pre & proc & post & -> & H1 & H2 & H3).
    exists (p :: pre), proc, post. cbn. rewrite Hp. now repeat split.
Qed.

(** X6.  The process check touches no device.  It reports Shogun Live as
    running exactly when some listed process has a Shogun name, and then
    records the pid of the first such process in the listing; it never
    sets self.connected, and it leaves it alone when no pid was recorded
    before or the recorded pid is the one found.  When no process has a
    Shogun name it changes no field, so the last pid stays recorded. *)
Theorem check_shogun_process_first_match env h w procs :
  os_process_iter env h = Ret procs ->
  let x := check_shogun_process env h w in
  count is_api_call (events_of x) = 0
  /\ match first_shogun procs with
     | Some pid =>
         result_of x = Ret true
         /\ shogun_pid (fields_of x) = Some pid
         /\ (connected (fields_of x) = true -> connected w = true)
         /\ (shogun_pid w = None \/ shogun_pid w = Some pid ->
             connected (fields_of x) = connected w)
         /\ exists pre proc post,
              procs = pre ++ proc :: post
              /\ proc_pid proc = pid
              /\ is_shogun_name (proc_name proc) = true
              /\ forallb (fun p => negb (is_shogun_name (proc_name p))) pre = true
     | None => result_of x = Ret false /\ fields_of x = w
     end.
Proof.
  intros Hps. cbv zeta. unfold check_shogun_process. primitives. rewrite Hps. cbn.
  destruct (first_shogun procs) as [pid|] eqn:Hfirst; cbn; [|repeat split].
  destruct (shogun_pid w) as [old|] eqn:Hold; cbn.
  - destruct (truthy_int old && negb (Z.eqb pid old)) eqn:Hrestart; cbn.
    + split; [reflexivity|]. refine (conj eq_refl (conj eq_refl (conj _ (conj _ _)))).
      * discriminate.
      * intros [Hn | [= ->]]; [discriminate|].
        rewrite Z.eqb_refl, andb_false_r in Hrestart. discriminate.
      * now apply first_shogun_split.
    + split; [reflexivity|]. refine (conj eq_refl (conj eq_refl (conj _ (conj _ _)))); auto.
      now apply first_shogun_split.
  - split; [reflexivity|]. refine (conj eq_refl (conj eq_refl (conj _ (conj _ _)))); auto.
    now apply first_shogun_split.
Qed.

Lemma check_shogun_process_first_match_witness :
  let env := Scenarios.with_process_iter (fun _ => Ret Scenarios.two_processes)
               Scenarios.healthy in
  let x := check_shogun_process env [] init in
  result_of x = Ret true /\ shogun_pid (fields_of x) = Some 5151%Z.
Proof.
  cbv zeta.
  pose proof (check_shogun_process_first_match
                (Scenarios.with_process_iter (fun _ => Ret Scenarios.two_processes)
                   Scenarios.healthy)
                [] init Scenarios.two_processes eq_refl) as H.
  cbv zeta in H. destruct H as (_ & H).
  change (first_shogun Scenarios.two_processes) with (Some 5151%Z) in H.
  destruct H as (Hr & Hp & _). now split.
Defined.
(** ** Names of processes *)

Lemma prefix_spec needle : forall hay,
  String.prefix needle hay = true <-> exists post, hay = (needle ++ post)%string.
Proof.
  induction needle as [|a needle IH]; intros hay.
  - split; [intros _; now exists hay | intros _; now destruct hay].
  - destruct hay as [|b hay]; cbn.
    + split; [discriminate | intros [post H]; discriminate].
    + destruct (Ascii.ascii_dec a b) as [->|Hne].
      * rewrite IH. split; intros [post H]; exists post; congruence.
      * split; [discriminate | intros [post H]; injection H as H1 H2; congruence].
Qed.

Lemma contains_spec needle : forall hay,
  contains needle hay = true
  <-> exists pre post, hay = (pre ++ needle ++ post)%string.
Proof.
  induction hay as [|b hay IH].
  - change (contains needle "") with (String.prefix needle "" || false).
    rewrite orb_false_r, prefix_spec. split.
    + intros [post H]. now exists "", post.
    + intros (pre & post & H). destruct pre; [now exists post | discriminate].
  - change (contains needle (String b hay))
      with (String.prefix needle (String b hay) || contains needle hay).
    rewrite orb_true_iff, IH, prefix_spec. split.
    + intros [[post H] | (pre & post & H)].
      * now exists "", post.
      * exists (String b pre), post. cbn. now rewrite H.
    + intros (pre & post & H). destruct pre as [|c pre]; cbn in H.
      * left. now exists post.
      * right. injection H as _ H. now exists pre, post.
Qed.

(** X7.  A process counts as Shogun Live exactly when it has a name and
    that name has "ShogunLive" or "Shogun Live" somewhere in it, in this
    spelling and case; a process without a name never counts. *)
Theorem is_shogun_name_spec name :
  is_shogun_name name = true
  <-> exists n pre post,
        name = Some n
        /\ (n = (pre ++ "ShogunLive" ++ post)%string
            \/ n = (pre ++ "Shogun Live" ++ post)%string).
Proof.
  destruct name as [n|]; cbn.
  - rewrite andb_true_iff, orb_true_iff, !contains_spec. split.
    + intros [_ [(pre & post & H) | (pre & post & H)]]; exists n, pre, post; auto.
    + intros (n' & pre & post & [= <-] & H). split.
      * destruct n; [|reflexivity].
        destruct H as [H|H]; destruct pre; discriminate.
      * destruct H as [H|H]; [left | right]; now exists pre, post.
  - split; [discriminate | intros (n & pre & post & H & _); discriminate].
Qed.

Lemma is_shogun_name_spec_witness :
  is_shogun_name (Some "Vicon Shogun Live 1.7") = true
  /\ is_shogun_name (Some "shogunlive.exe") = false
  /\ is_shogun_name None = false.
Proof.
  split; [|split; reflexivity].
  apply (proj2 (is_shogun_name_spec (Some "Vicon Shogun Live 1.7"))).
  exists "Vicon Shogun Live 1.7", "Vicon ", " 1.7". split; [reflexivity|].
  right. reflexivity.
Defined.
(** ** The setters and the settings poll, together *)

(** X8.  A setter returns True exactly when its one device call returned
    a truthy result, and only then does it cache the new value; on a
    rejection, an exception or a missing capture handle the cached value
    stays.  It makes at most one device call, and none without a capture
    handle. *)
Theorem setter_caches_on_acceptance (op : DeviceOp) value env h w :
  setter_value op = Some value ->
  let x := run_op op env h w in
  exists b,
    result_of x = Ret (ResBool b)
    /\ setter_cache op (fields_of x) = (if b then Some value else setter_cache op w)
    /\ (b = true <-> first_reply (is_call_of op) (events_of x) = Some (Ret (VBool true)))
    /\ count is_api_call (events_of x) <= 1
    /\ (capture w = None -> b = false /\ count is_api_call (events_of x) = 0).
Proof.
  intros Hv. cbv zeta.
  destruct op; try discriminate; injection Hv as <-;
    unfold run_op, set_capture_name, set_capture_folder, set_capture_description;
    primitives;
    (destruct (capture w) as [cap|] eqn:Hcap; cbn; rewrite ?Hcap; cbn;
     [| exists false; repeat split; try discriminate; auto ]);
    try (destruct (has_set_capture_description cap); cbn;
         [| exists false; repeat split; try discriminate; cbv; lia ]);
    match goal with
    | |- context [match ?o env ?t ?v with Ret _ => _ | Raise _ => _ end] =>
        destruct (o env t v) as [[|]|e]; cbn;
          [exists true | exists false | exists false]
    end;
    (split; [reflexivity|]); (split; [reflexivity|]);
    (split; [split; intros; (reflexivity || discriminate)|]);
    (split; [cbv; lia|]); discriminate.
Qed.

Lemma setter_caches_on_acceptance_witness :
  let x := run_op (op_set_capture_folder "D:/other") Scenarios.healthy []
             Scenarios.attached in
  result_of x = Ret (ResBool true)
  /\ _current_capture_folder (fields_of x) = "D:/other".
Proof.
  cbv zeta.
  destruct (setter_caches_on_acceptance (op_set_capture_folder "D:/other") "D:/other"
              Scenarios.healthy [] Scenarios.attached eq_refl)
    as (b & Hr & Hc & Hb & _).
  assert (b = true) as -> by (apply Hb; vm_compute; reflexivity).
  split; [exact Hr|]. unfold setter_cache in Hc. congruence.
Defined.

Lemma settings_poll_outcome env h w cap n f :
  capture w = Some cap ->
  (forall t, api_capture_name env t = Ret (true, n)) ->
  (forall t, api_capture_folder env t = Ret (true, f)) ->
  let x := _check_capture_settings_change env h w in
  result_of x = Ret tt
  /\ _current_capture_name (fields_of x) = n
  /\ _current_capture_folder (fields_of x) = f
  /\ capture (fields_of x) = Some cap
  /\ filter is_signal (events_of x)
     = (if String.eqb n (_current_capture_name w) then [] else [name_changed n])
       ++ (if String.eqb f (_current_capture_folder w) then [] else [folder_changed f])
  /\ (n = _current_capture_name w -> f = _current_capture_folder w ->
      fields_of x = w).
Proof.
  intros Hcap Hn Hf. cbv zeta.
  unfold _check_capture_settings_change. primitives.
  rewrite Hcap. cbn. rewrite Hcap. cbn. rewrite Hn. cbn.
  destruct (String.eqb_spec n (_current_capture_name w)) as [En|En]; cbn;
    rewrite ?Hcap; cbn; rewrite Hf; cbn;
    (destruct (String.eqb_spec f (_current_capture_folder w)) as [Ef|Ef]; cbn);
    repeat split; auto; try congruence; intros; congruence.
Qed.

(** X9.  When the device answers both settings queries, the settings poll
    emits a change signal for the name exactly when the reported name
    differs from the cached one, and likewise for the folder, the name
    first; afterwards both caches hold the reported values.  When neither
    differs, it changes no field. *)
Theorem settings_poll_reports_differences env h w cap n f :
  capture w = Some cap ->
  (forall t, api_capture_name env t = Ret (true, n)) ->
  (forall t, api_capture_folder env t = Ret (true, f)) ->
  let x := _check_capture_settings_change env h w in
  result_of x = Ret tt
  /\ _current_capture_name (fields_of x) = n
  /\ _current_capture_folder (fields_of x) = f
  /\ capture (fields_of x) = Some cap
  /\ filter is_signal (events_of x)
     = (if String.eqb n (_current_capture_name w) then [] else [name_changed n])
       ++ (if String.eqb f (_current_capture_folder w) then [] else [folder_changed f])
  /\ (n = _current_capture_name w -> f = _current_capture_folder w ->
      fields_of x = w).
Proof. apply settings_poll_outcome. Qed.

Lemma settings_poll_reports_differences_witness :
  let x := _check_capture_settings_change Scenarios.settings_changed []
             Scenarios.attached in
  filter is_signal (events_of x) = [name_changed "Take2"; folder_changed "D:/other"]
  /\ _current_capture_name (fields_of x) = "Take2".
Proof.
  cbv zeta.
  destruct (settings_poll_reports_differences Scenarios.settings_changed []
              Scenarios.attached (mkCaptureH true) "Take2" "D:/other"
              eq_refl (fun _ => eq_refl) (fun _ => eq_refl))
    as (_ & Hname & _ & _ & Hsig & _).
  split; [exact Hsig | exact Hname].
Defined.

(** X10.  The settings poll is idempotent while the device's settings
    stay the same: a second poll right after the first emits no signal
    and changes no field. *)
Theorem settings_poll_idempotent env h w cap n f :
  capture w = Some cap ->
  (forall t, api_capture_name env t = Ret (true, n)) ->
  (forall t, api_capture_folder env t = Ret (true, f)) ->
  let first := _check_capture_settings_change env h w in
  let second :=
    _check_capture_settings_change env (h ++ events_of first) (fields_of first) in
  filter is_signal (events_of second) = []
  /\ fields_of second = fields_of first.
Proof.
  intros Hcap Hn Hf. cbv zeta.
  destruct (settings_poll_outcome env h w cap n f Hcap Hn Hf)
    as (_ & H1 & H2 & H3 & _).
  destruct (settings_poll_outcome env
              (h ++ events_of (_check_capture_settings_change env h w))
              (fields_of (_check_capture_settings_change env h w)) cap n f H3 Hn Hf)
    as (_ & _ & _ & _ & Hsig & Hsame).
  rewrite H1, H2, !String.eqb_refl in Hsig. split; [exact Hsig|].
  apply Hsame; congruence.
Qed.

Lemma settings_poll_idempotent_witness :
  let first := _check_capture_settings_change Scenarios.settings_changed []
                 Scenarios.attached in
  let second := _check_capture_settings_change Scenarios.settings_changed
                  (events_of first) (fields_of first) in
  filter is_signal (events_of first) = [name_changed "Take2"; folder_changed "D:/other"]
  /\ filter is_signal (events_of second) = [].
Proof.
  cbv zeta. split; [vm_compute; reflexivity|].
  apply (settings_poll_idempotent Scenarios.settings_changed [] Scenarios.attached
           (mkCaptureH true) "Take2" "D:/other" eq_refl
           (fun _ => eq_refl) (fun _ => eq_refl)).
Defined.

(** X11.  A name set through set_capture_name is not announced again by
    the poll: after the device has accepted the name, a settings poll in
    which the device reports that name emits no capture-name change
    signal, whatever its folder query does. *)
Theorem set_name_then_poll_is_silent name env h w :
  (forall t, api_capture_name env t = Ret (true, name)) ->
  let set := set_capture_name name env h w in
  let poll := _check_capture_settings_change env (h ++ events_of set) (fields_of set) in
  result_of set = Ret true ->
  count is_capture_name_changed (events_of poll) = 0
  /\ _current_capture_name (fields_of poll) = name.
Proof.
  intros Hn. cbv zeta.
  unfold set_capture_name. primitives.
  destruct (capture w) as [cap|] eqn:Hcap; cbn; rewrite ?Hcap; cbn; [|discriminate].
  match goal with
  | |- context [api_set_capture_name env ?t name] =>
      destruct (api_set_capture_name env t name) as [[|]|e]; cbn
  end; try discriminate.
  intros _. unfold _check_capture_settings_change. primitives.
  rewrite Hcap. cbn. rewrite Hcap. cbn. rewrite Hn. cbn.
  rewrite String.eqb_refl. cbn. rewrite Hcap. cbn.
  match goal with
  | |- context [api_capture_folder env ?t] =>
      destruct (api_capture_folder env t) as [[[|] f]|e]; cbn
  end; try (split; reflexivity).
  destruct (String.eqb f (_current_capture_folder w)); cbn; split; reflexivity.
Qed.

Lemma set_name_then_poll_is_silent_witness :
  let set := set_capture_name "Take2" Scenarios.reports_take2 [] Scenarios.attached in
  let poll := _check_capture_settings_change Scenarios.reports_take2
                (events_of set) (fields_of set) in
  count is_capture_name_changed (events_of poll) = 0
  /\ _current_capture_name (fields_of poll) = "Take2".
Proof.
  apply (set_name_then_poll_is_silent "Take2" Scenarios.reports_take2 []
           Scenarios.attached (fun _ => eq_refl)).
  vm_compute. reflexivity.
Defined.
(** ** Stopping a reconnect sequence *)

Lemma connect_tail_flag_set e : connect_tail e = true -> flag_set e = true.
Proof. destruct e as [l t|s|c r| |b|]; try discriminate; reflexivity. Qed.

Lemma probe_event_flag_set e : probe_event e = true -> flag_set e = true.
Proof. destruct e as [l t|s|c r| |b|]; try discriminate; reflexivity. Qed.

Lemma slices_flag_set k : forallb flag_set (slices k) = true.
Proof. induction k; cbn; auto. Qed.

Lemma connect_trace_flag_set dc : connect_trace dc -> forallb flag_set dc = true.
Proof.
  intros (r & rest & -> & Hrest). cbn.
  eapply forallb_imp; [apply connect_tail_flag_set | exact Hrest].
Qed.

(** After the read that finds the flag cleared, the loop leaves at most
    its last log line. *)
Lemma loop_trace_cleared cfg rest attempt r d :
  loop_trace cfg rest attempt r d ->
  (after_first is_cleared_flag d = [] \/ after_first is_cleared_flag d = [gave_up])
  /\ (existsb is_cleared_flag d = true -> r = Ret false).
Proof.
  induction 1 as [attempt | rest attempt
                 | rest attempt dc dk recording Hdc Hdk
                 | rest attempt dc Hdc Hpow
                 | rest attempt dc e Hdc Hn
                 | rest attempt dc n k Hdc Hn Hk
                 | rest attempt dc n r d Hdc Hpow Hn Hd [IHa IHb]].
  - split; [now left | reflexivity].
  - split; [now right | reflexivity].
  - pose proof (connect_trace_flag_set dc Hdc) as H1.
    pose proof (forallb_imp _ _ dk probe_event_flag_set Hdk) as H2.
    split.
    + left. cbn. now rewrite !after_first_app by assumption.
    + cbn. rewrite !existsb_app, !existsb_none by assumption. discriminate.
  - pose proof (connect_trace_flag_set dc Hdc) as H1.
    split.
    + left. cbn. rewrite <- (app_nil_r dc). now rewrite after_first_app by assumption.
    + cbn. rewrite existsb_none by assumption. discriminate.
  - pose proof (connect_trace_flag_set dc Hdc) as H1.
    split.
    + left. cbn. now rewrite after_first_app by assumption.
    + cbn. rewrite existsb_app, existsb_none by assumption. discriminate.
  - pose proof (connect_trace_flag_set dc Hdc) as H1.
    pose proof (slices_flag_set k) as H2.
    split; [|reflexivity].
    left. cbn. rewrite after_first_app by assumption. cbn.
    now rewrite after_first_app by assumption.
  - pose proof (connect_trace_flag_set dc Hdc) as H1.
    pose proof (slices_flag_set n) as H2.
    split.
    + cbn. rewrite after_first_app by assumption. cbn.
      now rewrite after_first_app by assumption.
    + cbn. rewrite existsb_app, existsb_none by assumption. cbn.
      now rewrite existsb_app, existsb_none by assumption.
Qed.

(** X12.  stop() preempts a reconnect sequence: once a read of
    self.running finds the flag cleared, the sequence sleeps no further
    slice and makes no further device call, and it returns False. *)
Theorem reconnect_stops_at_cleared_flag env h w :
  let x := reconnect_shogun env h w in
  let tail := after_first is_cleared_flag (events_of x) in
  count is_sleep tail = 0
  /\ count is_api_call tail = 0
  /\ (existsb is_cleared_flag (events_of x) = true -> result_of x = Ret false).
Proof.
  cbv zeta.
  destruct (reconnect_shogun_shape env h w)
    as (r & w' & dcl & d & h' & E & _ & Hcl & _ & Hd).
  rewrite E. unfold events_of, result_of. cbn [fst snd].
  destruct (loop_trace_cleared _ _ _ _ _ Hd) as [Hafter Hb].
  assert (Ht : after_first is_cleared_flag (EvLog INFO reconnect_banner :: dcl ++ d)
               = after_first is_cleared_flag d).
  { cbn. now apply after_first_app. }
  rewrite Ht.
  refine (conj _ (conj _ _)).
  - destruct Hafter as [-> | ->]; reflexivity.
  - destruct Hafter as [-> | ->]; reflexivity.
  - cbn. rewrite existsb_app, (existsb_none is_cleared_flag dcl) by exact Hcl.
    cbn. intros H. now rewrite (Hb H).
Qed.

Lemma reconnect_stops_at_cleared_flag_witness :
  let x := reconnect_shogun Scenarios.stopped_in_backoff [] Scenarios.attached in
  result_of x = Ret false
  /\ connect_attempts (events_of x) = 1
  /\ count is_sleep (events_of x) = 4.
Proof.
  cbv zeta.
  destruct (reconnect_stops_at_cleared_flag Scenarios.stopped_in_backoff []
              Scenarios.attached) as (_ & _ & H).
  split; [apply H; vm_compute; reflexivity|].
  split; vm_compute; reflexivity.
Defined.
(** ** Ensuring the connection *)

(** X13.  ensure_connection opens at most one reconnect sequence.  When a
    handle is missing it makes a single connect attempt instead, with no
    reconnect sequence and no sleep; when both handles are there and the
    liveness probe answers, that probe is its only event and it returns
    True without changing a field. *)
Theorem ensure_connection_paths env h w :
  let x := ensure_connection env h w in
  count is_reconnect_start (events_of x) <= 1
  /\ (shogun_client w = None \/ capture w = None ->
      count is_reconnect_start (events_of x) = 0
      /\ connect_attempts (events_of x) = 1
      /\ count is_sleep (events_of x) = 0)
  /\ (forall s,
        shogun_client w <> None -> capture w <> None ->
        api_latest_capture_state env h = Ret s ->
        x = (Ret true, w, [EvCall latest_capture_state_call (Ret (VStr s))])).
Proof.
  cbv zeta.
  assert (Hconnect : forall t,
            count is_reconnect_start (events_of (connect_shogun env t w)) = 0
            /\ connect_attempts (events_of (connect_shogun env t w)) = 1
            /\ count is_sleep (events_of (connect_shogun env t w)) = 0).
  { intros t. destruct (connect_shogun_spec env t w) as (b & w' & d & E & Hd & _).
    rewrite E. unfold events_of. cbn [snd].
    destruct (connect_trace_facts d Hd) as (He & _ & Hn & _).
    refine (conj _ (conj Hn _)).
    - apply count_none. eapply forallb_imp; [|exact He]. intros e H.
      unfold loop_event in H. now apply andb_true_iff in H as [_ ->].
    - destruct Hd as (r & rest & -> & Hrest). apply count_none. cbn.
      eapply forallb_imp; [|exact Hrest]. intros e H.
      apply connect_tail_inert in H. unfold inert in H.
      now apply andb_true_iff in H as [_ ->]. }
  unfold ensure_connection. primitives.
  destruct (shogun_client w) as [client|] eqn:Hcl; cbn.
  2:{ destruct (Hconnect (h ++ [])) as (H1 & H2 & H3).
      destruct (connect_shogun env (h ++ []) w) as [[r w'] d].
      unfold events_of in *. cbn in *. rewrite H1.
      refine (conj _ (conj _ _)); [lia | auto | intros s Hs; contradiction]. }
  destruct (capture w) as [cap|] eqn:Hcap; cbn.
  2:{ destruct (Hconnect (h ++ [])) as (H1 & H2 & H3).
      destruct (connect_shogun env (h ++ []) w) as [[r w'] d].
      unfold events_of in *. cbn in *. rewrite H1.
      refine (conj _ (conj _ _)); [lia | auto | intros s _ Hs; contradiction]. }
  rewrite Hcap. cbn. rewrite !app_nil_r.
  destruct (api_latest_capture_state env h) as [s|e]; cbn.
  - refine (conj _ (conj _ _)); [cbv; lia | intros [H|H]; discriminate |].
    intros s' _ _ [= <-]. reflexivity.
  - match goal with
    | |- context [reconnect_shogun env ?t w] =>
        destruct (reconnect_shogun_spec env t w) as (b & w' & d & E & _ & Hb & _);
          rewrite E
    end.
    unfold events_of. cbn.
    refine (conj _ (conj _ _)); [|intros [H|H]; discriminate | intros s' _ _ H; discriminate].
    unfold count in *. cbn. rewrite Hb. lia.
Qed.

Lemma ensure_connection_paths_witness :
  ensure_connection Scenarios.healthy [] Scenarios.attached
  = (Ret true, Scenarios.attached,
     [EvCall latest_capture_state_call (Ret (VStr "ECaptureState.Stopped"))])
  /\ connect_attempts
       (events_of (ensure_connection Scenarios.healthy [] Scenarios.detached)) = 1.
Proof.
  split.
  - apply (ensure_connection_paths Scenarios.healthy [] Scenarios.attached);
      [discriminate | discriminate | reflexivity].
  - apply (ensure_connection_paths Scenarios.healthy [] Scenarios.detached).
    now left.
Defined.

(** X14.  The settings queries cannot fail a connect.  When the Client
    and CaptureServices are built and the liveness probe answers,
    connect_shogun returns True and holds both handles even if
    capture_name() raises; in that case it does not ask for the folder,
    emits no folder signal and leaves both cached settings as they were. *)
Theorem connect_survives_failing_name_query env h w client cap s e :
  (forall t, api_Client env t = Ret client) ->
  (forall t, api_CaptureServices env t = Ret cap) ->
  (forall t, api_latest_capture_state env t = Ret s) ->
  (forall t, api_capture_name env t = Raise e) ->
  let x := connect_shogun env h w in
  result_of x = Ret true
  /\ shogun_client (fields_of x) = Some client
  /\ capture (fields_of x) = Some cap
  /\ count is_capture_folder_call (events_of x) = 0
  /\ count is_capture_folder_changed (events_of x) = 0
  /\ _current_capture_name (fields_of x) = _current_capture_name w
  /\ _current_capture_folder (fields_of x) = _current_capture_folder w.
Proof.
  intros Hc Hs Hl Hn. cbv zeta.
  unfold connect_shogun, _test_connection. primitives.
  rewrite Hc. cbn. rewrite Hs. cbn. rewrite Hl. cbn. rewrite Hn. cbn.
  repeat split.
Qed.

Lemma connect_survives_failing_name_query_witness :
  let x := connect_shogun Scenarios.name_query_raises [] init in
  result_of x = Ret true
  /\ count is_capture_folder_call (events_of x) = 0
  /\ _current_capture_folder (fields_of x) = "".
Proof.
  cbv zeta.
  destruct (connect_survives_failing_name_query Scenarios.name_query_raises [] init
              (mkClientH true false) (mkCaptureH true) "ECaptureState.Stopped"
              Scenarios.boom (fun _ => eq_refl) (fun _ => eq_refl)
              (fun _ => eq_refl) (fun _ => eq_refl))
    as (H1 & _ & _ & H2 & _ & _ & H3).
  now repeat split.
Defined.
(** ** Start and stop without a connection, and rejected *)

Lemma supervision_no_error (d : Trace) :
  forallb supervision_event d = true -> filter is_capture_error d = [].
Proof.
  intros H. apply filter_none. eapply forallb_imp; [|exact H].
  intros [l t|[]|c r| | |]; try discriminate; reflexivity.
Qed.

Lemma supervision_calm (d : Trace) :
  forallb supervision_event d = true -> filter is_command d = [].
Proof.
  intros H. apply filter_none. eapply forallb_imp; [|exact H].
  intros [l t|s|[]| | |]; try discriminate; reflexivity.
Qed.

(** X15.  startcapture and stopcapture fail fast: when ensure_connection
    gives False they return None or False, emit one capture-error signal
    and send no command to the device. *)
Theorem start_stop_fail_without_connection (op : DeviceOp) env h w :
  setter_value op = None ->
  result_of (ensure_connection env h w) = Ret false ->
  let x := run_op op env h w in
  failure_indicator (result_of x) = true
  /\ count is_capture_error (events_of x) = 1
  /\ count is_command (events_of x) = 0.
Proof.
  intros Hop Hens. cbv zeta.
  pose proof (ensure_connection_emits env h w) as Hd.
  destruct (ensure_connection env h w) as [[r1 w1] d1] eqn:E1.
  unfold result_of, events_of in Hens, Hd. cbn in Hens, Hd. subst r1.
  pose proof (supervision_no_error d1 Hd) as Hn1.
  pose proof (supervision_calm d1 Hd) as Hn2.
  destruct op; try discriminate;
    unfold run_op, startcapture, stopcapture; primitives; rewrite E1; cbn;
    unfold result_of, events_of, count; cbn; rewrite ?app_nil_r;
    rewrite !filter_app, Hn1, Hn2; repeat split.
Qed.

Lemma start_stop_fail_without_connection_witness :
  let x := run_op op_stopcapture Scenarios.unreachable [] Scenarios.detached in
  failure_indicator (result_of x) = true
  /\ count is_capture_error (events_of x) = 1
  /\ count is_command (events_of x) = 0.
Proof.
  apply (start_stop_fail_without_connection op_stopcapture Scenarios.unreachable []
           Scenarios.detached); reflexivity.
Defined.

(** The end of a run in which the first device call was rejected. *)
Ltac rejected_facts p :=
  unfold events_of, result_of, count; cbn; rewrite <- ?app_assoc; cbn;
  do 2 (rewrite ?first_reply_app, ?after_first_app by assumption; cbn);
  try discriminate; intros _;
  rewrite ?filter_app;
  rewrite ?(filter_none p), ?(filter_none is_capture_error) by assumption; cbn;
  repeat split.

Lemma first_reply_none p (d : Trace) :
  forallb (fun x => negb (p x)) d = true -> first_reply p d = None.
Proof.
  induction d as [|x d IH]; simpl; [reflexivity|].
  intros H. apply andb_true_iff in H as [Hx Hd].
  destruct (p x); [discriminate | now apply IH].
Qed.

(** The end of a run in which ensure_connection raised and the call
    after the reconnect sequence was rejected. *)
Ltac sift :=
  repeat (first [ rewrite filter_app
                | rewrite after_first_app by assumption
                | rewrite first_reply_app by assumption
                | rewrite first_reply_none by assumption
                | match goal with
                  | H : forallb (fun x => negb (?p x)) ?d = true
                    |- context [filter ?p ?d] => rewrite (filter_none p d H)
                  end ]; cbn).

Lemma supervision_no_error_forall (d : Trace) :
  forallb supervision_event d = true ->
  forallb (fun e => negb (is_capture_error e)) d = true.
Proof.
  apply forallb_imp. intros [l t|[]|c r| | |]; try discriminate; reflexivity.
Qed.

Lemma startcapture_rejected env h w :
  let x := startcapture env h w in
  first_reply is_start_capture (events_of x) = Some (Ret (VBool false)) ->
  result_of x = Ret None
  /\ count is_start_capture (events_of x) = 1
  /\ count is_capture_error (events_of x)
     = match result_of (ensure_connection env h w) with Ret _ => 1 | Raise _ => 2 end
  /\ count is_reconnect_start (after_first is_start_capture (events_of x)) = 0.
Proof.
  cbv zeta. unfold startcapture. primitives.
  pose proof (ensure_connection_emits env h w) as He1.
  destruct (ensure_connection_spec env h w) as (r1 & w1 & d1 & E1 & Hd1 & Hc1).
  rewrite E1 in *. unfold events_of in He1. cbn in He1 |- *.
  pose proof (calm_not_call_of op_startcapture d1 Hd1) as Hn1.
  pose proof (supervision_no_error_forall d1 He1) as Hq1.
  destruct r1 as [[|]|e1]; cbn.
  - match goal with
    | |- context [check_shogun env ?t w1] =>
        pose proof (check_shogun_emits env t w1) as He2;
        destruct (check_shogun_spec env t w1) as (b2 & d2 & E2 & Hd2); rewrite E2 in *
    end. unfold events_of in He2. cbn in He2 |- *.
    pose proof (calm_not_call_of op_startcapture d2 (probe_event_calm d2 Hd2)) as Hn2.
    pose proof (supervision_no_error_forall d2 He2) as Hq2.
    destruct b2; cbn.
    { unfold events_of; cbn. rewrite <- ?app_assoc.
      rewrite !first_reply_app by assumption. discriminate. }
    specialize (Hc1 eq_refl). destruct (capture w1) as [cap|]; [|discriminate]. cbn.
    match goal with
    | |- context [api_start_capture env ?t] =>
        destruct (api_start_capture env t) as [b|e]
    end; cbn.
    { destruct b; rejected_facts is_start_capture. }
    match goal with
    | |- context [reconnect_shogun env ?t w1] =>
        destruct (reconnect_shogun env t w1) as [[r3 w3] d3]
    end.
    unfold events_of; cbn. rewrite <- ?app_assoc.
    destruct r3 as [[|]|e3]; cbn;
      try (destruct (capture w3); cbn;
           try match goal with
               | |- context [api_start_capture env ?t] =>
                   destruct (api_start_capture env t) as [[|]|e4]; cbn
               end);
      rewrite <- ?app_assoc; rewrite !first_reply_app by assumption; discriminate.
  - unfold events_of; cbn. rewrite first_reply_app by exact Hn1. discriminate.
  - match goal with
    | |- context [reconnect_shogun env ?t w1] =>
        pose proof (reconnect_shogun_emits env t w1) as He3;
        destruct (reconnect_shogun_spec env t w1)
          as (r3 & w3 & d3 & E3 & Hd3 & _ & _ & Hc3);
        rewrite E3 in *
    end. unfold events_of in He3. cbn in He3 |- *.
    pose proof (calm_not_call_of op_startcapture d3 Hd3) as Hn3.
    pose proof (supervision_no_error_forall d3 He3) as Hq3.
    unfold events_of, result_of, count.
    destruct r3 as [[|]|e3]; cbn;
      [| rewrite <- ?app_assoc; sift; discriminate
       | rewrite <- ?app_assoc; sift; discriminate].
    specialize (Hc3 eq_refl). destruct (capture w3) as [cap3|]; [|discriminate]. cbn.
    match goal with
    | |- context [api_start_capture env ?t] =>
        destruct (api_start_capture env t) as [[|]|e]
    end; cbn; rewrite <- ?app_assoc; sift; try discriminate.
    rewrite (filter_none is_start_capture d1 Hn1), (filter_none is_start_capture d3 Hn3).
    intros _. repeat split.
Qed.

Lemma stopcapture_rejected env h w :
  let x := stopcapture env h w in
  first_reply is_stop_capture (events_of x) = Some (Ret (VBool false)) ->
  result_of x = Ret false
  /\ count is_stop_capture (events_of x) = 1
  /\ count is_capture_error (events_of x)
     = match result_of (ensure_connection env h w) with Ret _ => 1 | Raise _ => 2 end
  /\ count is_reconnect_start (after_first is_stop_capture (events_of x)) = 0.
Proof.
  cbv zeta. unfold stopcapture. primitives.
  pose proof (ensure_connection_emits env h w) as He1.
  destruct (ensure_connection_spec env h w) as (r1 & w1 & d1 & E1 & Hd1 & Hc1).
  rewrite E1 in *. unfold events_of in He1. cbn in He1 |- *.
  pose proof (calm_not_call_of op_stopcapture d1 Hd1) as Hn1.
  pose proof (supervision_no_error_forall d1 He1) as Hq1.
  destruct r1 as [[|]|e1]; cbn.
  - match goal with
    | |- context [check_shogun env ?t w1] =>
        pose proof (check_shogun_emits env t w1) as He2;
        destruct (check_shogun_spec env t w1) as (b2 & d2 & E2 & Hd2); rewrite E2 in *
    end. unfold events_of in He2. cbn in He2 |- *.
    pose proof (calm_not_call_of op_stopcapture d2 (probe_event_calm d2 Hd2)) as Hn2.
    pose proof (supervision_no_error_forall d2 He2) as Hq2.
    destruct b2; cbn.
    2:{ unfold events_of; cbn. rewrite <- ?app_assoc.
      rewrite !first_reply_app by assumption. discriminate. }
    specialize (Hc1 eq_refl). destruct (capture w1) as [cap|]; [|discriminate]. cbn.
    match goal with
    | |- context [api_stop_capture env ?t 0%Z] =>
        destruct (api_stop_capture env t 0%Z) as [b|e]
    end; cbn.
    { destruct b; rejected_facts is_stop_capture. }
    match goal with
    | |- context [reconnect_shogun env ?t w1] =>
        destruct (reconnect_shogun env t w1) as [[r3 w3] d3]
    end.
    unfold events_of; cbn. rewrite <- ?app_assoc.
    destruct r3 as [[|]|e3]; cbn;
      try (destruct (capture w3); cbn;
           try match goal with
               | |- context [api_stop_capture env ?t 0%Z] =>
                   destruct (api_stop_capture env t 0%Z) as [[|]|e4]; cbn
               end);
      rewrite <- ?app_assoc; rewrite !first_reply_app by assumption; discriminate.
  - unfold events_of; cbn. rewrite first_reply_app by exact Hn1. discriminate.
  - match goal with
    | |- context [reconnect_shogun env ?t w1] =>
        pose proof (reconnect_shogun_emits env t w1) as He3;
        destruct (reconnect_shogun_spec env t w1)
          as (r3 & w3 & d3 & E3 & Hd3 & _ & _ & Hc3);
        rewrite E3 in *
    end. unfold events_of in He3. cbn in He3 |- *.
    pose proof (calm_not_call_of op_stopcapture d3 Hd3) as Hn3.
    pose proof (supervision_no_error_forall d3 He3) as Hq3.
    unfold events_of, result_of, count.
    destruct r3 as [[|]|e3]; cbn;
      [| rewrite <- ?app_assoc; sift; discriminate
       | rewrite <- ?app_assoc; sift; discriminate].
    specialize (Hc3 eq_refl). destruct (capture w3) as [cap3|]; [|discriminate]. cbn.
    match goal with
    | |- context [api_stop_capture env ?t 0%Z] =>
        destruct (api_stop_capture env t 0%Z) as [[|]|e]
    end; cbn; rewrite <- ?app_assoc; sift; try discriminate.
    rewrite (filter_none is_stop_capture d1 Hn1), (filter_none is_stop_capture d3 Hn3).
    intros _. repeat split.
Qed.

(** X16.  A rejection is final.  When the device answers start_capture
    or stop_capture with a falsy result instead of raising, the operation
    returns None or False; it does not reconnect and does not call again.
    It emits one capture-error signal, unless ensure_connection had
    raised before the call: then the except branch has emitted one
    already, and there are two. *)
Theorem start_stop_rejection_is_final (op : DeviceOp) env h w :
  setter_value op = None ->
  let x := run_op op env h w in
  first_reply (is_call_of op) (events_of x) = Some (Ret (VBool false)) ->
  failure_indicator (result_of x) = true
  /\ count (is_call_of op) (events_of x) = 1
  /\ count is_capture_error (events_of x)
     = match result_of (ensure_connection env h w) with Ret _ => 1 | Raise _ => 2 end
  /\ count is_reconnect_start (after_first (is_call_of op) (events_of x)) = 0.
Proof.
  intros Hop. cbv zeta. rewrite run_op_events, run_op_result.
  destruct op; try discriminate; intros Hrej.
  - destruct (startcapture_rejected env h w Hrej) as (H1 & H2 & H3 & H4).
    rewrite H1. now repeat split.
  - destruct (stopcapture_rejected env h w Hrej) as (H1 & H2 & H3 & H4).
    rewrite H1. now repeat split.
Qed.

Lemma start_stop_rejection_is_final_witness :
  let x := run_op op_startcapture Scenarios.start_rejected [] Scenarios.attached in
  failure_indicator (result_of x) = true
  /\ count is_start_capture (events_of x) = 1
  /\ count is_capture_error (events_of x) = 1
  /\ count is_reconnect_start (after_first is_start_capture (events_of x)) = 0.
Proof.
  apply (start_stop_rejection_is_final op_startcapture Scenarios.start_rejected []
           Scenarios.attached eq_refl).
  vm_compute. reflexivity.
Defined.

(** When ensure_connection raises, the signal count is another.  Here
    it raises from the overflow of its reconnect sequence; the except
    branch reports that and reconnects, the device is back and rejects
    start_capture, and the rejection is reported as a second
    capture-error signal. *)
Lemma rejection_after_overflow :
  let x := run_op op_startcapture Scenarios.late_recovery [] Scenarios.attached in
  first_reply is_start_capture (events_of x) = Some (Ret (VBool false))
  /\ count is_capture_error (events_of x) = 2.
Proof. vm_compute. split; reflexivity. Qed.
(** ** The dispatcher, beyond missing arguments *)

Arguments OSCServer.run_task : simpl never.

Ltac osc_handlers :=
  unfold OSCServer.start_recording, OSCServer.stop_recording,
    OSCServer.set_capture_name, OSCServer.set_capture_folder,
    OSCServer.set_capture_description, OSCServer.default_handler,
    OSCServer.start_thread, OSCServer.worker_connected.

Ltac osc_socket env :=
  repeat match goal with
  | |- context [OSCServer.osc_client ?s] =>
      is_var s; destruct (OSCServer.osc_client s) as [[]|] eqn:?; cbn
  | |- context [OSCServer.udp_client_new env ?t] =>
      destruct (OSCServer.udp_client_new env t) as [[]|?] eqn:?; cbn
  | |- context [OSCServer.udp_send_message env ?t ?a ?v] =>
      destruct (OSCServer.udp_send_message env t a v) as [[]|?] eqn:?; cbn
  end.

(** X17.  No handler of the dispatcher raises: for every recognized
    address and for the default handler, with any arguments, any state of
    the worker and any behaviour of the socket, the handler returns. *)
Theorem handlers_never_raise address args env h s :
  (forall c, OSCServer.handled (OSCServer.handler_of c address args env h s) = Ret tt)
  /\ OSCServer.handled (OSCServer.default_handler address args env h s) = Ret tt.
Proof.
  split; [intros c|].
  - destruct c, args as [|arg0 args]; cbn [OSCServer.handler_of];
      osc_handlers; osc_primitives;
      (destruct (OSCServer.shogun_worker s) as [w|] eqn:Hw; cbn;
       [destruct (connected w) eqn:Hc; cbn; rewrite ?Hw; cbn|]);
      try match goal with
          | |- context [OSCServer.run_task ?t ?e ?hh ?ww] =>
              destruct (OSCServer.run_task t e hh ww) as [[? ?] ?]; reflexivity
          end;
      osc_socket env; reflexivity.
  - osc_handlers. osc_primitives. reflexivity.
Qed.

(** X18.  Without a connected worker a recognized command is not carried
    out: the handler starts no thread and no device call is made, the
    worker is left as it is, one notification describes the command, and
    the only outbound message there can be is one error message to
    OSC_CAPTURE_ERROR, which is sent whenever the UDP client exists. *)
Theorem not_connected_reports_error (c : OSCServer.Recognized) address args env h s :
  OSCServer.worker_connected s = false ->
  OSCServer.task_of c args <> None ->
  let x := OSCServer.handler_of c address args env h s in
  filter OSCServer.is_thread (OSCServer.osc_events x) = []
  /\ filter OSCServer.is_device_call (OSCServer.osc_events x) = []
  /\ OSCServer.shogun_worker (OSCServer.server_of x) = OSCServer.shogun_worker s
  /\ length (filter OSCServer.is_message_signal (OSCServer.osc_events x)) = 1
  /\ (filter OSCServer.is_send (OSCServer.osc_events x) = []
      \/ exists text r,
           filter OSCServer.is_send (OSCServer.osc_events x)
           = [OSCServer.OSend (OSCServer.OSC_CAPTURE_ERROR (OSCServer.osc_config env))
                text r])
  /\ (OSCServer.osc_client s <> None ->
      filter OSCServer.is_send (OSCServer.osc_events x) <> []).
Proof.
  intros Hconn Htask. cbv zeta.
  destruct c, args as [|arg0 args]; cbn [OSCServer.handler_of];
    try (exfalso; apply Htask; reflexivity);
    unfold OSCServer.start_recording, OSCServer.stop_recording,
      OSCServer.set_capture_name, OSCServer.set_capture_folder,
      OSCServer.set_capture_description;
    osc_primitives; rewrite Hconn; cbn;
    osc_socket env;
    (refine (conj eq_refl (conj eq_refl (conj eq_refl (conj eq_refl (conj _ _)))));
     [ first [ left; reflexivity | right; eexists; eexists; reflexivity ]
     | first [ discriminate | intros H; exfalso; apply H; reflexivity ] ]).
Qed.

Lemma not_connected_reports_error_witness :
  let x := OSCServer.start_recording "/RecordStartShogunLive" []
             Scenarios.osc_healthy [] (OSCServer.serving Scenarios.detached) in
  filter OSCServer.is_thread (OSCServer.osc_events x) = []
  /\ filter OSCServer.is_device_call (OSCServer.osc_events x) = []
  /\ length (filter OSCServer.is_send (OSCServer.osc_events x)) = 1.
Proof.
  cbv zeta.
  destruct (not_connected_reports_error OSCServer.cmd_start_recording
              "/RecordStartShogunLive" [] Scenarios.osc_healthy []
              (OSCServer.serving Scenarios.detached) eq_refl)
    as (H1 & H2 & _); [discriminate|].
  refine (conj H1 (conj H2 _)). vm_compute. reflexivity.
Defined.

(** X19.  The outbound UDP client is created lazily and kept.
    send_osc_message never raises and returns True exactly when the
    message went out; it creates a client only when none is cached, and
    after a call that returned True the client is cached, so that a
    later call creates none. *)
Theorem send_osc_message_caches_client address value env h s :
  let x := OSCServer.send_osc_message address value env h s in
  exists b,
    OSCServer.handled x = Ret b
    /\ OSCServer.shogun_worker (OSCServer.server_of x) = OSCServer.shogun_worker s
    /\ (b = true
        <-> filter OSCServer.is_send (OSCServer.osc_events x)
            = [OSCServer.OSend address value (Ret tt)])
    /\ (OSCServer.osc_client s <> None ->
        filter OSCServer.is_client_new (OSCServer.osc_events x) = []
        /\ OSCServer.osc_client (OSCServer.server_of x) = OSCServer.osc_client s)
    /\ (b = true ->
        OSCServer.osc_client (OSCServer.server_of x) = Some tt
        /\ forall address' value',
             filter OSCServer.is_client_new
               (OSCServer.osc_events
                  (OSCServer.send_osc_message address' value' env
                     (h ++ OSCServer.osc_events x) (OSCServer.server_of x))) = []).
Proof.
  cbv zeta.
  osc_primitives.
  destruct (OSCServer.osc_client s) as [[]|] eqn:Hs; cbn.
  - match goal with
    | |- context [OSCServer.udp_send_message env ?t ?a ?v] =>
        destruct (OSCServer.udp_send_message env t a v) as [[]|e] eqn:Hsend; cbn
    end.
    + exists true. refine (conj eq_refl (conj eq_refl (conj _ (conj _ _)))).
      * split; reflexivity.
      * intros _. now split.
      * intros _. split; [exact Hs|]. intros a' v'. cbn. rewrite ?Hs. cbn. osc_socket env; reflexivity.
    + exists false. refine (conj eq_refl (conj eq_refl (conj _ (conj _ _)))).
      * split; discriminate.
      * intros _. now split.
      * discriminate.
  - match goal with
    | |- context [OSCServer.udp_client_new env ?t] =>
        destruct (OSCServer.udp_client_new env t) as [[]|e] eqn:Hnew; cbn
    end.
    + match goal with
      | |- context [OSCServer.udp_send_message env ?t ?a ?v] =>
          destruct (OSCServer.udp_send_message env t a v) as [[]|e] eqn:Hsend; cbn
      end.
      * exists true. refine (conj eq_refl (conj eq_refl (conj _ (conj _ _)))).
        -- split; reflexivity.
        -- intros H. contradiction.
        -- intros _. split; [reflexivity|]. intros a' v'. cbn. rewrite ?Hs. cbn. osc_socket env; reflexivity.
      * exists false. refine (conj eq_refl (conj eq_refl (conj _ (conj _ _)))).
        -- split; discriminate.
        -- intros H. contradiction.
        -- discriminate.
    + exists false. refine (conj eq_refl (conj eq_refl (conj _ (conj _ _)))).
      * split; discriminate.
      * intros H. contradiction.
      * discriminate.
Qed.

Lemma send_osc_message_caches_client_witness :
  let first := OSCServer.send_osc_message "/ShogunLiveCaptureError" "no connection"
                 Scenarios.osc_healthy [] (OSCServer.serving Scenarios.detached) in
  let second := OSCServer.send_osc_message "/ShogunLiveCaptureError" "again"
                  Scenarios.osc_healthy (OSCServer.osc_events first)
                  (OSCServer.server_of first) in
  length (filter OSCServer.is_client_new (OSCServer.osc_events first)) = 1
  /\ filter OSCServer.is_client_new (OSCServer.osc_events second) = [].
Proof.
  cbv zeta. split; [vm_compute; reflexivity|].
  destruct (send_osc_message_caches_client "/ShogunLiveCaptureError" "no connection"
              Scenarios.osc_healthy [] (OSCServer.serving Scenarios.detached))
    as (b & Hb & _ & Hsend & _ & Hnext).
  assert (b = true) as -> by (apply Hsend; vm_compute; reflexivity).
  destruct (Hnext eq_refl) as [_ H]. apply (H "/ShogunLiveCaptureError" "again").
Defined.

(** X20.  With a connected worker, a recognized command that has the
    argument it needs starts exactly one thread, for the supervisor
    operation of that command with str() of the first argument (further
    arguments are ignored).  The handler sends no outbound message, and
    the device activity it causes is exactly that of the operation. *)
Theorem connected_command_starts_operation (c : OSCServer.Recognized)
        address args env h s w task :
  OSCServer.shogun_worker s = Some w ->
  connected w = true ->
  OSCServer.task_of c args = Some task ->
  let x := OSCServer.handler_of c address args env h s in
  filter OSCServer.is_thread (OSCServer.osc_events x) = [OSCServer.OThread task]
  /\ filter OSCServer.is_send (OSCServer.osc_events x) = []
  /\ length (filter OSCServer.is_message_signal (OSCServer.osc_events x)) = 1
  /\ OSCServer.worker_history (OSCServer.osc_events x)
     = events_of (OSCServer.run_task task (OSCServer.shogun_env env)
                    (OSCServer.worker_history h) w)
  /\ OSCServer.shogun_worker (OSCServer.server_of x)
     = Some (fields_of (OSCServer.run_task task (OSCServer.shogun_env env)
                          (OSCServer.worker_history h) w)).
Proof.
  intros Hw Hc Htask. cbv zeta.
  assert (Hmap : forall d : Trace,
            filter OSCServer.is_thread (map OSCServer.OWorker d) = []
            /\ filter OSCServer.is_send (map OSCServer.OWorker d) = []
            /\ filter OSCServer.is_message_signal (map OSCServer.OWorker d) = []
            /\ OSCServer.worker_history (map OSCServer.OWorker d) = d).
  { induction d as [|e d (I1 & I2 & I3 & I4)]; cbn; [now repeat split|].
    now rewrite I1, I2, I3, I4. }
  assert (Hhist : forall a b,
            OSCServer.worker_history (a ++ b)
            = OSCServer.worker_history a ++ OSCServer.worker_history b).
  { induction a as [|[] a IH]; intros b; cbn; rewrite ?IH; reflexivity. }
  destruct c, args as [|arg0 args]; cbn in Htask; try discriminate;
    injection Htask as <-; cbn [OSCServer.handler_of];
    osc_handlers; osc_primitives; rewrite Hw; cbn; rewrite Hc; cbn; rewrite Hw; cbn;
    rewrite ?Hhist; cbn; rewrite ?app_nil_r;
    match goal with
    | |- context [OSCServer.run_task ?t ?e ?hh ?ww] =>
        destruct (OSCServer.run_task t e hh ww) as [[r' w'] d']
    end; cbn;
    destruct (Hmap d') as (H1 & H2 & H3 & H4);
    rewrite ?filter_app, ?Hhist, H1, H2, H3, H4; cbn;
    rewrite ?app_nil_r; repeat split.
Qed.

Lemma connected_command_starts_operation_witness :
  let x := OSCServer.set_capture_folder "/SetCaptureFolder"
             [OSCServer.mkArg "D:/other"; OSCServer.mkArg "ignored"]
             Scenarios.osc_healthy [] (OSCServer.serving Scenarios.attached) in
  filter OSCServer.is_thread (OSCServer.osc_events x)
  = [OSCServer.OThread (OSCServer.task_set_capture_folder "D:/other")]
  /\ filter OSCServer.is_send (OSCServer.osc_events x) = [].
Proof.
  cbv zeta.
  destruct (connected_command_starts_operation OSCServer.cmd_set_capture_folder
              "/SetCaptureFolder"
              [OSCServer.mkArg "D:/other"; OSCServer.mkArg "ignored"]
              Scenarios.osc_healthy [] (OSCServer.serving Scenarios.attached)
              Scenarios.attached (OSCServer.task_set_capture_folder "D:/other")
              eq_refl eq_refl eq_refl)
    as (H1 & H2 & _).
  now split.
Defined.
(** ** The bound on device calls *)

Ltac count_calls p :=
  unfold events_of, count; cbn; rewrite <- ?app_assoc; cbn;
  repeat (first [ rewrite filter_app | rewrite length_app
                | match goal with
                  | H : forallb _ ?d = true |- context [filter p ?d] =>
                      rewrite (filter_none p d H)
                  end ]; cbn);
  lia.

Lemma startcapture_call_bound env h w :
  count is_start_capture (events_of (startcapture env h w)) <= 2.
Proof.
  unfold startcapture. primitives.
  destruct (ensure_connection_spec env h w) as (r1 & w1 & d1 & E1 & Hd1 & Hc1).
  rewrite E1. cbn.
  pose proof (calm_not_call_of op_startcapture d1 Hd1) as Hn1.
  destruct r1 as [[|]|e1]; cbn; [| count_calls is_start_capture |].
  - match goal with
    | |- context [check_shogun env ?t w1] =>
        destruct (check_shogun_spec env t w1) as (b2 & d2 & E2 & Hd2); rewrite E2
    end. cbn.
    pose proof (calm_not_call_of op_startcapture d2 (probe_event_calm d2 Hd2)) as Hn2.
    destruct b2; cbn; [count_calls is_start_capture|].
    destruct (capture w1) as [cap|]; cbn.
    + match goal with
      | |- context [api_start_capture env ?t] =>
          destruct (api_start_capture env t) as [[|]|e]
      end; cbn; try count_calls is_start_capture.
      match goal with
    | |- context [reconnect_shogun env ?t w1] =>
        destruct (reconnect_shogun_spec env t w1) as (r3 & w3 & d3 & E3 & Hd3 & _);
          rewrite E3
    end; cbn;
    pose proof (calm_not_call_of op_startcapture d3 Hd3) as Hn3;
    (destruct r3 as [[|]|e3]; cbn; [| count_calls is_start_capture | count_calls is_start_capture]);
    (destruct (capture w3) as [cap3|]; cbn; [| count_calls is_start_capture]);
    match goal with
    | |- context [api_start_capture env ?t] =>
        destruct (api_start_capture env t) as [[|]|e4]
    end; cbn; count_calls is_start_capture.
    + match goal with
    | |- context [reconnect_shogun env ?t w1] =>
        destruct (reconnect_shogun_spec env t w1) as (r3 & w3 & d3 & E3 & Hd3 & _);
          rewrite E3
    end; cbn;
    pose proof (calm_not_call_of op_startcapture d3 Hd3) as Hn3;
    (destruct r3 as [[|]|e3]; cbn; [| count_calls is_start_capture | count_calls is_start_capture]);
    (destruct (capture w3) as [cap3|]; cbn; [| count_calls is_start_capture]);
    match goal with
    | |- context [api_start_capture env ?t] =>
        destruct (api_start_capture env t) as [[|]|e4]
    end; cbn; count_calls is_start_capture.
  - match goal with
    | |- context [reconnect_shogun env ?t w1] =>
        destruct (reconnect_shogun_spec env t w1) as (r3 & w3 & d3 & E3 & Hd3 & _);
          rewrite E3
    end; cbn;
    pose proof (calm_not_call_of op_startcapture d3 Hd3) as Hn3;
    (destruct r3 as [[|]|e3]; cbn; [| count_calls is_start_capture | count_calls is_start_capture]);
    (destruct (capture w3) as [cap3|]; cbn; [| count_calls is_start_capture]);
    match goal with
    | |- context [api_start_capture env ?t] =>
        destruct (api_start_capture env t) as [[|]|e4]
    end; cbn; count_calls is_start_capture.
Qed.

Lemma stopcapture_call_bound env h w :
  count is_stop_capture (events_of (stopcapture env h w)) <= 2.
Proof.
  unfold stopcapture. primitives.
  destruct (ensure_connection_spec env h w) as (r1 & w1 & d1 & E1 & Hd1 & Hc1).
  rewrite E1. cbn.
  pose proof (calm_not_call_of op_stopcapture d1 Hd1) as Hn1.
  destruct r1 as [[|]|e1]; cbn; [| count_calls is_stop_capture |].
  - match goal with
    | |- context [check_shogun env ?t w1] =>
        destruct (check_shogun_spec env t w1) as (b2 & d2 & E2 & Hd2); rewrite E2
    end. cbn.
    pose proof (calm_not_call_of op_stopcapture d2 (probe_event_calm d2 Hd2)) as Hn2.
    destruct b2; cbn; [|count_calls is_stop_capture].
    destruct (capture w1) as [cap|]; cbn.
    + match goal with
      | |- context [api_stop_capture env ?t 0%Z] =>
          destruct (api_stop_capture env t 0%Z) as [[|]|e]
      end; cbn; try count_calls is_stop_capture.
      match goal with
    | |- context [reconnect_shogun env ?t w1] =>
        destruct (reconnect_shogun_spec env t w1) as (r3 & w3 & d3 & E3 & Hd3 & _);
          rewrite E3
    end; cbn;
    pose proof (calm_not_call_of op_stopcapture d3 Hd3) as Hn3;
    (destruct r3 as [[|]|e3]; cbn; [| count_calls is_stop_capture | count_calls is_stop_capture]);
    (destruct (capture w3) as [cap3|]; cbn; [| count_calls is_stop_capture]);
    match goal with
    | |- context [api_stop_capture env ?t 0%Z] =>
        destruct (api_stop_capture env t 0%Z) as [[|]|e4]
    end; cbn; count_calls is_stop_capture.
    + match goal with
    | |- context [reconnect_shogun env ?t w1] =>
        destruct (reconnect_shogun_spec env t w1) as (r3 & w3 & d3 & E3 & Hd3 & _);
          rewrite E3
    end; cbn;
    pose proof (calm_not_call_of op_stopcapture d3 Hd3) as Hn3;
    (destruct r3 as [[|]|e3]; cbn; [| count_calls is_stop_capture | count_calls is_stop_capture]);
    (destruct (capture w3) as [cap3|]; cbn; [| count_calls is_stop_capture]);
    match goal with
    | |- context [api_stop_capture env ?t 0%Z] =>
        destruct (api_stop_capture env t 0%Z) as [[|]|e4]
    end; cbn; count_calls is_stop_capture.
  - match goal with
    | |- context [reconnect_shogun env ?t w1] =>
        destruct (reconnect_shogun_spec env t w1) as (r3 & w3 & d3 & E3 & Hd3 & _);
          rewrite E3
    end; cbn;
    pose proof (calm_not_call_of op_stopcapture d3 Hd3) as Hn3;
    (destruct r3 as [[|]|e3]; cbn; [| count_calls is_stop_capture | count_calls is_stop_capture]);
    (destruct (capture w3) as [cap3|]; cbn; [| count_calls is_stop_capture]);
    match goal with
    | |- context [api_stop_capture env ?t 0%Z] =>
        destruct (api_stop_capture env t 0%Z) as [[|]|e4]
    end; cbn; count_calls is_stop_capture.
Qed.

Lemma setter_call_bound (op : DeviceOp) env h w :
  setter_value op <> None ->
  count (is_call_of op) (events_of (run_op op env h w)) <= 1.
Proof.
  intros Hop.
  destruct op; try (exfalso; apply Hop; reflexivity);
    unfold run_op, set_capture_name, set_capture_folder, set_capture_description;
    primitives;
    (destruct (capture w) as [cap|] eqn:Hcap; cbn; rewrite ?Hcap; cbn; [|cbv; lia]);
    try (destruct (has_set_capture_description cap); cbn; [|cbv; lia]);
    match goal with
    | |- context [match ?o env ?t ?v with Ret _ => _ | Raise _ => _ end] =>
        destruct (o env t v) as [[|]|e]; cbn
    end; cbv; lia.
Qed.

(** X21.  The retry is bounded for every input: one invocation of
    startcapture or stopcapture makes at most two calls of its device
    operation, and one invocation of a setter at most one. *)
Theorem device_call_bound (op : DeviceOp) env h w :
  count (is_call_of op) (events_of (run_op op env h w))
  <= match setter_value op with None => 2 | Some _ => 1 end.
Proof.
  destruct op; cbn [setter_value];
    try (apply setter_call_bound; discriminate);
    rewrite run_op_events.
  - apply startcapture_call_bound.
  - apply stopcapture_call_bound.
Qed.
(** ** The monitoring loop as a whole *)

Lemma supervision_batch_inner e : supervision_event e = true -> batch_inner e = true.
Proof. destruct e as [l t|[]|c r| | |]; try discriminate; reflexivity. Qed.

Lemma batch_inner_counts (d : Trace) :
  forallb batch_inner d = true ->
  count is_status_signal d = 0 /\ count is_process_iter d = 0.
Proof.
  intros H. split; apply count_none; (eapply forallb_imp; [|exact H]);
    intros e He; unfold batch_inner in He; apply andb_true_iff in He as [H1 H2];
    assumption.
Qed.

Lemma check_shogun_process_events env h w :
  exists r w1 rest,
    check_shogun_process env h w = (Ret r, w1, EvProcessIter :: rest)
    /\ forallb batch_inner rest = true.
Proof.
  unfold check_shogun_process. primitives. repeat step; repeat eexists.
Qed.

(** Every batch looks at the process table once, and emits its status
    signal once if it returns and not at all if it raises. *)
Lemma poll_tick_counts env h w :
  count is_process_iter (events_of (poll_tick env h w)) = 1
  /\ count is_status_signal (events_of (poll_tick env h w)) <= 1
  /\ (result_of (poll_tick env h w) = Ret tt ->
      count is_status_signal (events_of (poll_tick env h w)) = 1).
Proof.
  pose proof (emits_weaken _ _ _ supervision_batch_inner connect_shogun_emits) as E1.
  pose proof (emits_weaken _ _ _ supervision_batch_inner ensure_connection_emits) as E2.
  pose proof (emits_weaken _ _ _ supervision_batch_inner check_shogun_emits) as E3.
  unfold poll_tick.
  match goal with
  | |- context [bind check_shogun_process (fun r => bind (@?body r) ?tail)] =>
      assert (Hbody : forall r, emits batch_inner (body r))
  end.
  { intros r. unfold _check_capture_settings_change. emits_tac. }
  cbv beta in Hbody.
  match goal with
  | |- context [bind check_shogun_process ?k] =>
      destruct (run_bind check_shogun_process k env h w
                  (check_shogun_process_never_raises any_env))
        as (r & w1 & d1 & Em & ->)
  end.
  destruct (check_shogun_process_events env h w) as (r' & w1' & rest & Em' & Hrest).
  rewrite Em in Em'. injection Em' as <- <- ->.
  destruct (batch_inner_counts rest Hrest) as [R1 R2].
  match goal with
  | |- context [bind ?b ?tail env (h ++ ?d) w1] =>
      pose proof (Hbody r env (h ++ d) w1) as Hd2;
      destruct (bind_cases b tail env (h ++ d) w1)
        as [([] & w2 & d2 & Eb & ->) | (e & w2 & d2 & Eb & ->)];
      rewrite Eb in Hd2
  end; cbn in Hd2; destruct (batch_inner_counts d2 Hd2) as [B1 B2];
    unfold result_of, fields_of, events_of; cbn;
    unfold count in *; rewrite !filter_app, !length_app, R1, R2, B1, B2.
  - destruct (connected w2); cbn; repeat split; lia.
  - cbn. repeat split; try lia. discriminate.
Qed.

Lemma monitor_loop_unfold ticks :
  monitor_loop (S ticks) =
  bind read_running (fun running =>
    if running then
      bind (try_except poll_tick
              (fun e => log ERROR "error in the monitoring loop"))
           (fun _ => monitor_loop ticks)
    else ret tt).
Proof. reflexivity. Qed.

Arguments monitor_loop : simpl never.
Arguments poll_tick : simpl never.

(** The loop returns also when a batch raises, and it has looked at the
    process table for every status it has reported. *)
Lemma monitor_loop_counts ticks : forall env h w,
  result_of (monitor_loop ticks env h w) = Ret tt
  /\ count is_status_signal (events_of (monitor_loop ticks env h w))
     <= count is_process_iter (events_of (monitor_loop ticks env h w)).
Proof.
  induction ticks as [|ticks IH]; intros env h w.
  - split; [reflexivity | cbv; lia].
  - rewrite monitor_loop_unfold. unfold bind at 1. unfold read_running. cbn.
    destruct (flag_running env h); cbn; [|split; [reflexivity | cbv; lia]].
    destruct (poll_tick_counts env (h ++ [EvRunning true]) w) as (Hp & Hs & _).
    unfold bind, try_except, log, emit.
    destruct (poll_tick env (h ++ [EvRunning true]) w) as [[[[]|e] w1] d1];
      unfold events_of in Hp, Hs; cbn in Hp, Hs;
      match goal with
      | |- context [monitor_loop ticks env ?t w1] =>
          specialize (IH env t w1);
            destruct (monitor_loop ticks env t w1) as [[r2 w2] d2]
      end;
      unfold result_of, events_of in *; cbn in *; destruct IH as (I1 & I2);
      unfold count in *; rewrite ?filter_app, ?length_app; cbn;
      (split; [assumption | lia]).
Qed.

(** X22.  The thread of run does not die of an exception: run returns
    whatever the device and the process table do and in every
    configuration, also when a batch of checks raises, because the loop
    catches what a batch raises and goes on.  Every batch looks at the
    process table exactly once and emits at most one status signal,
    exactly one when it returns; so run never reports the status more
    often than it has looked at the process table. *)
Theorem run_reports_each_batch ticks env h w :
  let x := run ticks env h w in
  result_of x = Ret tt
  /\ (forall h' w',
        let batch := poll_tick env h' w' in
        count is_process_iter (events_of batch) = 1
        /\ count is_status_signal (events_of batch) <= 1
        /\ (result_of batch = Ret tt ->
            count is_status_signal (events_of batch) = 1))
  /\ count is_status_signal (events_of x) <= count is_process_iter (events_of x).
Proof.
  cbv zeta.
  assert (Hrun : result_of (run ticks env h w) = Ret tt
                 /\ count is_status_signal (events_of (run ticks env h w))
                    <= count is_process_iter (events_of (run ticks env h w))).
  { unfold run.
    destruct (run_bind connect_shogun
                (fun c => bind (modify (set_connected c))
                   (fun _ => bind (signal (connection_signal c))
                      (fun _ => monitor_loop ticks)))
                env h w (connect_shogun_never_raises any_env))
      as (c & w1 & d1 & Ec & ->).
    pose proof (connect_shogun_emits env h w) as Hd1. rewrite Ec in Hd1.
    unfold events_of in Hd1. cbn in Hd1.
    destruct (batch_inner_counts d1
                (forallb_imp _ _ d1 supervision_batch_inner Hd1)) as [C1 C2].
    unfold bind, modify, signal, emit. cbn.
    match goal with
    | |- context [monitor_loop ticks env ?t ?v] =>
        destruct (monitor_loop_counts ticks env t v) as (I1 & I2);
          destruct (monitor_loop ticks env t v) as [[r2 w2] d2]
    end.
    unfold result_of, events_of, fields_of in *. cbn in *.
    unfold count in *. rewrite !filter_app, !length_app, C1, C2. cbn.
    split; [assumption | lia]. }
  destruct Hrun as [Hr Hc].
  refine (conj Hr (conj _ Hc)).
  intros h' w'. apply poll_tick_counts.
Qed.
